(** * colorbleed-config: publish and load plug-ins

    A shallow embedding of four plug-ins of the colorbleed configuration:

    - [colorbleed/plugins/maya/create/colorbleed_pointcache.py]
    - [colorbleed/plugins/maya/publish/validate_node_ids_unique.py]
    - [colorbleed/plugins/maya/load/load_imagesequence.py]
    - [colorbleed/plugins/publish/integrate.py]

    The plug-ins are glue over a scene API, a document database and the file
    system.  Everything outside the plug-ins is kept abstract: pure library
    functions are parameters ([PyLib] and section variables), and calls with
    effects are events that an arbitrary handler answers, either with a
    value or with an exception.  A run records the calls it made, so that
    what a plug-in does to the database and the file system can be read off
    its trace.  Logging calls are left out; they do not influence control
    flow.  The modules [Posix] and [Host] give one concrete reading of the
    parameters, on which the plug-ins can be run. *)

From Stdlib Require Import ZArith Ascii String List Lia.
From stdpp Require Import base option list strings gmap.

Local Open Scope string_scope.
Local Open Scope list_scope.
Local Open Scope Z_scope.

(** ** Python values and exceptions *)

(** Values stored in the [data] dictionary of a creator. A float is opaque
    here and only carries its bit pattern. *)
Inductive PyVal : Type :=
| VNone
| VBool (b : bool)
| VInt (z : Z)
| VFloat (bits : Z)
| VStr (s : string).

(** Exceptions, by class. [OSError] stands for the class and its subclasses
    and carries [errno]; [OtherExn] is any class the plug-ins never name. *)
Inductive PyExn : Type :=
| KeyError (key : string)
| TypeError (msg : string)
| IndexError (msg : string)
| AssertionError (msg : string)
| AttributeError (msg : string)
| RuntimeError (msg : string)
| OSError (errno : Z)
| OtherExn (cls : string).

#[global] Instance PyExn_eq_dec : EqDecision PyExn.
Proof. solve_decision. Defined.

(** [errno.EEXIST] *)
Definition EEXIST : Z := 17.

(** Truth value of an optional string: [None] and [""] are false. *)
Definition truthy (o : option string) : bool :=
  match o with
  | Some s => negb (String.eqb s "")
  | None => false
  end.

(** ** colorbleed_pointcache.py *)

Module CreatePointCache.

(** [CreatePointCache.__init__]. [base] is [self.data] as the parent class
    leaves it and [animation_data] is what [lib.collect_animation_data()]
    returns; [dict.update] lets the keys of its argument win. *)
Definition init (base animation_data : gmap string PyVal) : gmap string PyVal :=
  let data := animation_data ∪ base in
  let data := <["writeColorSets" := VBool false]> data in
  let data := <["renderableOnly" := VBool false]> data in
  let data := <["visibleOnly" := VBool false]> data in
  let data := <["includeParentHierarchy" := VBool false]> data in
  let data := <["worldSpace" := VBool true]> data in
  let data := <["attr" := VStr ""]> data in
  let data := <["attrPrefix" := VStr ""]> data in
  data.

(** The keys [__init__] assigns after the update. *)
Definition assigned_keys : list string :=
  ["writeColorSets"; "renderableOnly"; "visibleOnly";
   "includeParentHierarchy"; "worldSpace"; "attr"; "attrPrefix"].

End CreatePointCache.

(** ** validate_node_ids_unique.py *)

Module ValidateNodeIdsUnique.

(** A member of an instance is a node, known by its name. *)
Definition Node : Type := string.

Section Validator.

(** [lib.get_id]: the [cbId] of a node, [None] when it has none. *)
Variable get_id : Node -> option string.

(** Python's rendering of a list inside the error message. *)
Variable repr : list Node -> string.

(** One round of the first loop of [get_invalid]:
    [ids[object_id].append(member)] on a [defaultdict(list)]. *)
Definition collect_step (ids : gmap string (list Node)) (member : Node)
  : gmap string (list Node) :=
  let object_id := get_id member in
  if truthy object_id then
    match object_id with
    | Some k => <[k := default [] (ids !! k) ++ [member]]> ids
    | None => ids
    end
  else ids.

Definition collect_ids (instance : list Node) : gmap string (list Node) :=
  foldl collect_step ∅ instance.

(** One round of the second loop: [invalid.extend(members)] for an id
    with more than one member. *)
Definition extend_step (invalid : list Node) (item : string * list Node)
  : list Node :=
  if (1 <? length (snd item))%nat then invalid ++ snd item else invalid.

(** [ValidateNodeIdsUnique.get_invalid]; [map_to_list] plays the role of
    [iteritems], whose order is not fixed. *)
Definition get_invalid (instance : list Node) : list Node :=
  foldl extend_step [] (map_to_list (collect_ids instance)).

(** [ValidateNodeIdsUnique.process] *)
Definition process (instance : list Node) : PyExn + unit :=
  let invalid := get_invalid instance in
  match invalid with
  | [] => inr tt
  | _ :: _ =>
      inl (RuntimeError ("Nodes found with non-unique asset IDs: "
                           +:+ repr invalid))
  end.

(** The members of [instance] that carry identifier [k]. *)
Definition carriers (k : string) (instance : list Node) : list Node :=
  filter (fun m => get_id m = Some k) instance.

(** What the dictionary holds under [k] once the first loop is over. *)
Definition group (k : string) (instance : list Node) : option (list Node) :=
  if decide (k = EmptyString) then None
  else match carriers k instance with
       | [] => None
       | l => Some l
       end.

(** Two entries of the instance, at different places, carry the same
    non-empty identifier. A node listed twice makes two entries. *)
Definition shared_by_two_entries (instance : list Node) : Prop :=
  exists (i j : nat) (m1 m2 : Node) (k : string),
    i <> j /\ instance !! i = Some m1 /\ instance !! j = Some m2
    /\ get_id m1 = Some k /\ get_id m2 = Some k /\ k <> EmptyString.

(** Two different nodes among the members carry the same non-empty
    identifier. *)
Definition shared_by_two_nodes (instance : list Node) : Prop :=
  exists (m1 m2 : Node) (k : string),
    m1 <> m2 /\ m1 ∈ instance /\ m2 ∈ instance
    /\ get_id m1 = Some k /\ get_id m2 = Some k /\ k <> EmptyString.

(** No member has a non-empty identifier. *)
Definition no_identifier (instance : list Node) : Prop :=
  forall m, m ∈ instance -> truthy (get_id m) = false.

End Validator.

(** How a call of [process] ends. *)
Definition raises_RuntimeError (r : PyExn + unit) : Prop :=
  exists msg, r = inl (RuntimeError msg).

Definition returns_normally (r : PyExn + unit) : Prop := r = inr tt.

End ValidateNodeIdsUnique.

(** ** Documents of the asset database *)

Definition ObjectId : Type := N.

(** The project document, as the projection [config.template.publish]
    returns it. *)
Record ProjectDoc : Type := {
  project_id : ObjectId;
  project_template_publish : string
}.

Record AssetDoc : Type := {
  asset_id : ObjectId
}.

Record SubsetDoc : Type := {
  subset_id : ObjectId;
  subset_name : string
}.

(** A version document, as the projection [name] returns it. *)
Record VersionDoc : Type := {
  version_id : ObjectId;
  version_name : Z
}.

(** The [context] entry of a representation. *)
Record RepresentationContext : Type := {
  rc_project : string;
  rc_asset : string;
  rc_silo : string;
  rc_subset : string;
  rc_version : Z;
  rc_representation : string
}.

Record Representation : Type := {
  rep_schema : string;
  rep_type : string;
  rep_parent : ObjectId;
  rep_name : string;
  rep_label : option string;
  rep_dependencies : list string;
  rep_context : RepresentationContext
}.

(** [instance.data["assumedTemplateData"]], of which only the version is
    read. *)
Record AssumedTemplateData : Type := {
  assumed_version : Z
}.

(** The keys of [instance.data] the integrator touches; [None] is a key
    that is not set. *)
Record InstanceData : Type := {
  d_asset : option string;
  d_subset : option string;
  d_stagingDir : option string;
  d_assumedTemplateData : option AssumedTemplateData;
  d_transfers : option (list (string * string));
  d_representations : option (list Representation);
  d_dependencies : option string;
  d_families : option (list string);
  d_family : option string
}.

(** One entry of [context.data["results"]]. *)
Record PluginResult : Type := {
  success : bool
}.

(** The keys of [context.data] the integrator reads. *)
Record ContextData : Type := {
  c_results : option (list PluginResult);
  c_currentFile : option string;
  c_time : option string;
  c_user : option string;
  c_comment : option string
}.

(** What [create_version_data] returns: [instance.data] with five keys
    set on top of it. *)
Record VersionData : Type := {
  vd_instance_data : InstanceData;
  vd_families : list string;
  vd_time : string;
  vd_author : string;
  vd_source : string;
  vd_comment : option string
}.

(** The keyword arguments of [template_publish.format]. *)
Record TemplateData : Type := {
  t_root : string;
  t_project : string;
  t_silo : string;
  t_asset : string;
  t_subset : string;
  t_version : Z;
  t_representation : string
}.

(** The version document [create_version] builds. *)
Record Version : Type := {
  ver_schema : string;
  ver_type : string;
  ver_parent : ObjectId;
  ver_name : Z;
  ver_locations : list string;
  ver_data : VersionData
}.

(** Documents the integrator writes. The subset document also has an empty
    [data] entry. *)
Inductive Document : Type :=
| SubsetDocument (schema type name : string) (parent : ObjectId)
| VersionDocument (version : Version)
| RepresentationDocument (representation : Representation).

(** ** Calls into the host *)

(** A call with an effect, indexed by the type of what it returns. *)
Inductive Event : Type -> Type :=
(** [io.find_one({"type": "project"},
                 projection={"config.template.publish": True})] *)
| FindProject : Event (option ProjectDoc)
(** [io.find_one({"type": "asset", "name": name, "parent": parent})] *)
| FindAsset (name : string) (parent : ObjectId) : Event (option AssetDoc)
(** [io.find_one({"type": "subset", "parent": parent, "name": name})] *)
| FindSubset (parent : ObjectId) (name : string) : Event (option SubsetDoc)
(** [io.find_one({"_id": _id})] *)
| FindById (_id : ObjectId) : Event (option SubsetDoc)
(** [io.find_one({"type": "version", "parent": parent}, {"name": True},
                 sort=[("name", -1)])] *)
| FindLatestVersion (parent : ObjectId) : Event (option VersionDoc)
(** [io.insert_one(doc).inserted_id] *)
| InsertOne (doc : Document) : Event ObjectId
(** [io.insert_many(docs)] *)
| InsertMany (docs : list Document) : Event unit
(** [os.listdir(path)] *)
| Listdir (path : string) : Event (list string)
(** [os.makedirs(path)] *)
| Makedirs (path : string) : Event unit
(** [shutil.copy(src, dst)] *)
| Copy (src dst : string) : Event unit
(** [shutil.rmtree(path)] *)
| Rmtree (path : string) : Event unit
(** [subprocess.call(args)] *)
| SubprocessCall (args : list string) : Event Z
(** [os.startfile(path)] *)
| Startfile (path : string) : Event unit.

(** A call together with the host's answer: an exception or a value. *)
Inductive Entry : Type :=
| Called {X : Type} (ev : Event X) (reply : PyExn + X).

(** The exception a call ended with, if it raised. *)
Definition raised_by (e : Entry) : option PyExn :=
  match e with
  | Called _ (inl x) => Some x
  | Called _ (inr _) => None
  end.

Definition is_makedirs (e : Entry) : bool :=
  match e with
  | Called (Makedirs _) _ => true
  | _ => false
  end.

Definition is_copy (e : Entry) : bool :=
  match e with
  | Called (Copy _ _) _ => true
  | _ => false
  end.

Definition is_rmtree (e : Entry) : bool :=
  match e with
  | Called (Rmtree _) _ => true
  | _ => false
  end.

(** A call that writes to the database. *)
Definition is_insert (e : Entry) : bool :=
  match e with
  | Called (InsertOne _) _ => true
  | Called (InsertMany _) _ => true
  | _ => false
  end.

(** A call of [makedirs] or [copy]. *)
Definition is_transfer (e : Entry) : bool := is_makedirs e || is_copy e.

(** A query, the insertion of one document, or a directory listing. *)
Definition is_query_insert_or_listing (e : Entry) : bool :=
  match e with
  | Called FindProject _ => true
  | Called (FindAsset _ _) _ => true
  | Called (FindSubset _ _) _ => true
  | Called (FindById _) _ => true
  | Called (FindLatestVersion _) _ => true
  | Called (InsertOne _) _ => true
  | Called (Listdir _) _ => true
  | _ => false
  end.

(** The names a call of [listdir] returned. *)
Definition listed (e : Entry) : option (list string) :=
  match e with
  | Called ev reply =>
      match ev in Event X return PyExn + X -> option (list string) with
      | Listdir _ =>
          fun r => match r with
                   | inr names => Some names
                   | inl _ => None
                   end
      | _ => fun _ => None
      end reply
  end.

(** The calls of a trace that write to the database. *)
Definition inserts (t : list Entry) : list Entry :=
  filter (fun e => is_insert e = true) t.

(** How a run ended. *)
Definition raises {A : Type} (r : PyExn + A) : Prop :=
  exists e, r = inl e.

(** Pure library functions whose result depends on the platform or on a
    format string read from the database. *)
Record PyLib : Type := {
  os_path_splitext : string -> string * string;
  os_path_join : string -> string -> string;
  os_path_dirname : string -> string;
  os_path_normpath : string -> string;
  os_path_relpath : string -> string -> PyExn + string;
  (** [template.format( **data )] *)
  str_format : string -> TemplateData -> PyExn + string;
  (** [str.split()] *)
  str_split : string -> list string;
  (** [str(list)] *)
  repr_list : list string -> string
}.

(** ** Programs *)

Section Programs.

(** The state of the host and its answers. *)
Context {W : Type}.
Variable handle : forall X : Type, Event X -> W -> (PyExn + X) * W.

(** The mutable object a plug-in works on. *)
Context {Store : Type}.

(** One run: the calls made, in order; how it ended; what it left. *)
Record Run (A : Type) : Type := MkRun {
  trace : list Entry;
  outcome : PyExn + A;
  store : Store;
  world : W
}.
Global Arguments MkRun {A} _ _ _ _.
Global Arguments trace {A} _.
Global Arguments outcome {A} _.
Global Arguments store {A} _.
Global Arguments world {A} _.

Definition M (A : Type) : Type := Store -> W -> Run A.

(** Every call a program makes, from any state, satisfies [P]. *)
Definition calls_all {A : Type} (P : Entry -> Prop) (m : M A) : Prop :=
  forall s w, Forall P (trace (m s w)).

(** Whatever a program does, from any state, what it leaves of the store
    is related to what it found by [R]. *)
Definition store_all {A : Type} (R : Store -> Store -> Prop) (m : M A) : Prop :=
  forall s w, R s (store (m s w)).

Definition ret {A : Type} (a : A) : M A :=
  fun s w => MkRun [] (inr a) s w.

Definition raise {A : Type} (e : PyExn) : M A :=
  fun s w => MkRun [] (inl e) s w.

(** A run that comes after the calls [t]. *)
Definition prepend {A : Type} (t : list Entry) (r : Run A) : Run A :=
  MkRun (t ++ trace r) (outcome r) (store r) (world r).

Definition bind {A B : Type} (m : M A) (f : A -> M B) : M B :=
  fun s w =>
    let r := m s w in
    match outcome r with
    | inl e => MkRun (trace r) (inl e) (store r) (world r)
    | inr a => prepend (trace r) (f a (store r) (world r))
    end.

(** [try: m except: h] where [h] sees every exception and re-raises the
    ones its clause does not name. *)
Definition try_except {A : Type} (m : M A) (h : PyExn -> M A) : M A :=
  fun s w =>
    let r := m s w in
    match outcome r with
    | inl e => prepend (trace r) (h e (store r) (world r))
    | inr a => r
    end.

Definition call {X : Type} (ev : Event X) : M X :=
  fun s w =>
    let (reply, w') := handle X ev w in
    MkRun [Called ev reply] reply s w'.

Definition get : M Store :=
  fun s w => MkRun [] (inr s) s w.

Definition modify (f : Store -> Store) : M unit :=
  fun s w => MkRun [] (inr tt) (f s) w.

(** A pure computation that may raise. *)
Definition lift {A : Type} (r : PyExn + A) : M A :=
  match r with
  | inl e => raise e
  | inr a => ret a
  end.

(** [d[key]] *)
Definition getitem {A : Type} (key : string) (o : option A) : M A :=
  match o with
  | Some a => ret a
  | None => raise (KeyError key)
  end.

(** [assert cond, msg] *)
Definition assert (cond : bool) (msg : string) : M unit :=
  if cond then ret tt else raise (AssertionError msg).

End Programs.

Arguments M : clear implicits.
Arguments Run : clear implicits.

Declare Scope py_scope.
Delimit Scope py_scope with py.
Notation "x <- m ;; k" := (bind m (fun x => k))
  (at level 100, m at next level, right associativity) : py_scope.
Notation "m ;;; k" := (bind m (fun _ => k))
  (at level 100, right associativity) : py_scope.

(** ** load_imagesequence.py *)

Module OpenImageSequence.

Section Loader.

Context {W : Type}.
Variable handle : forall X : Type, Event X -> W -> (PyExn + X) * W.
Variable lib : PyLib.

(** [sys.platform] and [os.name] *)
Variable sys_platform : string.
Variable os_name : string.

(** [clique.PATTERNS["frames"]] *)
Variable frames_pattern : string.

(** [clique.assemble(files, patterns=patterns, minimum_items=n)]: the
    collections, each as the list of its members in iteration order, and
    the remainder. *)
Variable clique_assemble :
  list string -> list string -> nat -> list (list string) * list string.

Local Abbreviation M := (M W unit).
Local Open Scope py_scope.

(** [open(filepath)] of the module *)
Definition open (filepath : string) : M unit :=
  if String.prefix "darwin" sys_platform then
    _ <- call handle (SubprocessCall ["open"; filepath]) ;; ret tt
  else if String.eqb os_name "nt" then
    call handle (Startfile filepath)
  else if String.eqb os_name "posix" then
    _ <- call handle (SubprocessCall ["xdg-open"; filepath]) ;; ret tt
  else ret tt.

(** [seq[0]] *)
Definition first {A : Type} (l : list A) : M A :=
  match l with
  | x :: _ => ret x
  | [] => raise (IndexError "list index out of range")
  end.

(** [OpenImageSequence.process]; [fname] is [self.fname]. The arguments
    [name], [namespace], [context] and [data] are not used. *)
Definition process (fname : string) : M unit :=
  let directory := fname in
  let pattern := frames_pattern in
  files <- call handle (Listdir directory) ;;
  let '(collections, remainder) := clique_assemble files [pattern] 1%nat in
  assert (bool_decide (remainder = []))
    ("There shouldn't have been a remainder for '" +:+ directory +:+ "': "
       +:+ repr_list lib remainder) ;;;
  seqeunce <- first collections ;;
  first_image <- first seqeunce ;;
  let filepath :=
    os_path_normpath lib (os_path_join lib directory first_image) in
  open filepath.

End Loader.




End OpenImageSequence.

(** ** integrate.py *)

Module IntegrateAsset.

(** The double quote and the backslash, by code. *)
Definition dquote : string := String (Ascii.ascii_of_nat 34) EmptyString.
Definition backslash : Ascii.ascii := Ascii.ascii_of_nat 92.

(** The digits of a natural number, most significant first. *)
Fixpoint digits_fuel (fuel : nat) (n : N) (acc : string) : string :=
  match fuel with
  | O => acc
  | S fuel' =>
      let d := Ascii.ascii_of_N (48 + N.modulo n 10) in
      let acc' := String d acc in
      if N.ltb n 10 then acc' else digits_fuel fuel' (N.div n 10) acc'
  end.

Definition digits (n : N) : string :=
  digits_fuel (S (N.to_nat (N.log2 n))) n EmptyString.

(** [s.rjust(width, "0")] *)
Definition zfill (width : nat) (s : string) : string :=
  String.concat EmptyString (repeat "0" (width - String.length s)) +:+ s.

(** The format specification [03d]: at least three characters, zeros
    after the sign. *)
Definition format_03d (z : Z) : string :=
  if z <? 0 then "-" +:+ zfill 2 (digits (Z.to_N (- z)))
  else zfill 3 (digits (Z.to_N z)).

(** [s.replace(a, b)] for single characters *)
Fixpoint replace_char (a b : Ascii.ascii) (s : string) : string :=
  match s with
  | EmptyString => EmptyString
  | String c rest =>
      String (if Ascii.eqb c a then b else c) (replace_char a b rest)
  end.

(** [s[1:]] *)
Definition drop_first (s : string) : string :=
  match s with
  | EmptyString => EmptyString
  | String _ rest => rest
  end.

(** [representation_labels] *)
Definition representation_labels : gmap string string :=
  {[ ".ma" := "Maya Ascii";
     ".source" := "Original source file";
     ".abc" := "Alembic" ]}.

(** The subset document [get_subset] inserts. *)
Definition new_subset (name : string) (asset : AssetDoc) : Document :=
  SubsetDocument "avalon-core:subset-2.0" "subset" name (asset_id asset).

(** [create_version]; a [None] among [locations] is dropped. *)
Definition create_version (subset : SubsetDoc) (version_number : Z)
    (locations : list (option string)) (data : VersionData) : Version :=
  let version_locations := omap id locations in
  {| ver_schema := "avalon-core:version-2.0";
     ver_type := "version";
     ver_parent := subset_id subset;
     ver_name := version_number;
     ver_locations := version_locations;
     ver_data := data |}.

Definition set_representation (t : TemplateData) (r : string) : TemplateData :=
  {| t_root := t_root t; t_project := t_project t; t_silo := t_silo t;
     t_asset := t_asset t; t_subset := t_subset t; t_version := t_version t;
     t_representation := r |}.

Definition set_transfers (d : InstanceData) (v : list (string * string))
  : InstanceData :=
  {| d_asset := d_asset d; d_subset := d_subset d;
     d_stagingDir := d_stagingDir d;
     d_assumedTemplateData := d_assumedTemplateData d;
     d_transfers := Some v;
     d_representations := d_representations d;
     d_dependencies := d_dependencies d;
     d_families := d_families d; d_family := d_family d |}.

Definition set_representations (d : InstanceData) (v : list Representation)
  : InstanceData :=
  {| d_asset := d_asset d; d_subset := d_subset d;
     d_stagingDir := d_stagingDir d;
     d_assumedTemplateData := d_assumedTemplateData d;
     d_transfers := d_transfers d;
     d_representations := Some v;
     d_dependencies := d_dependencies d;
     d_families := d_families d; d_family := d_family d |}.

Section Integrator.

Context {W : Type}.
Variable handle : forall X : Type, Event X -> W -> (PyExn + X) * W.
Variable lib : PyLib.

(** [os.environ] *)
Variable environ : gmap string string.

(** [api.registered_root()] *)
Variable registered_root : string.

(** [str(instance)] *)
Variable instance_name : string.

Local Abbreviation M := (M W InstanceData).
Local Open Scope py_scope.

(** [IntegrateAsset.get_subset]; the result is [None] when the document
    just inserted is not found again. *)
Definition get_subset (asset : AssetDoc) : M (option SubsetDoc) :=
  data <- get ;;
  name <- getitem "subset" (d_subset data) ;;
  subset <- call handle (FindSubset (asset_id asset) name) ;;
  match subset with
  | Some _ => ret subset
  | None =>
      data <- get ;;
      subset_name <- getitem "subset" (d_subset data) ;;
      _id <- call handle (InsertOne (new_subset subset_name asset)) ;;
      subset <- call handle (FindById _id) ;;
      ret subset
  end.

(** [IntegrateAsset.create_version_data] *)
Definition create_version_data (context : ContextData) : M VersionData :=
  data <- get ;;
  let families := [] in
  let current_families := default [] (d_families data) in
  let instance_family := d_family data in
  let families := families ++ current_families in
  let families :=
    match instance_family with
    | Some f => families ++ [f]
    | None => families
    end in
  currentFile <- getitem "currentFile" (c_currentFile context) ;;
  relative_path <- lift (os_path_relpath lib currentFile registered_root) ;;
  let source :=
    replace_char backslash (Ascii.ascii_of_nat 47)
      (os_path_join lib "{root}" relative_path) in
  time <- getitem "time" (c_time context) ;;
  author <- getitem "user" (c_user context) ;;
  ret {| vd_instance_data := data;
         vd_families := families;
         vd_time := time;
         vd_author := author;
         vd_source := source;
         vd_comment := c_comment context |}.

(** The destination of one staged file, given the formatted template:
    the branch on [".metadata.json"]. *)
Definition destination (fname dst : string) : string :=
  if String.eqb fname ".metadata.json" then
    let dirname := os_path_dirname lib dst in
    os_path_join lib dirname fname
  else dst.

(** The representation [register] builds for the staged file [fname]. *)
Definition representation_of (version_id : ObjectId)
    (PROJECT ASSET SILO : string) (subset : SubsetDoc) (version : Version)
    (dependencies : option string) (fname : string) : Representation :=
  let ext := snd (os_path_splitext lib fname) in
  {| rep_schema := "avalon-core:representation-2.0";
     rep_type := "representation";
     rep_parent := version_id;
     rep_name := drop_first ext;
     rep_label := representation_labels !! ext;
     rep_dependencies := str_split lib (default EmptyString dependencies);
     rep_context :=
       {| rc_project := PROJECT;
          rc_asset := ASSET;
          rc_silo := SILO;
          rc_subset := subset_name subset;
          rc_version := ver_name version;
          rc_representation := drop_first ext |} |}.

(** The transfer pair [register] appends for the staged file [fname]:
    the template formats to [formatted] and the pair is [pair]. *)
Definition transfer_of (stagingdir template_publish : string)
    (template_data : TemplateData) (fname : string)
    (pair : string * string) : Prop :=
  let ext := snd (os_path_splitext lib fname) in
  exists formatted,
    str_format lib template_publish
      (set_representation template_data (drop_first ext)) = inr formatted
    /\ pair = (os_path_join lib stagingdir fname,
               destination fname formatted).

(** One round of the loop over [staging_content] in [register]. *)
Definition register_file (stagingdir template_publish : string)
    (version_id : ObjectId) (PROJECT ASSET SILO : string)
    (subset : SubsetDoc) (version : Version)
    (template_data : TemplateData) (fname : string)
  : M (TemplateData * Representation) :=
  let '(name, ext) := os_path_splitext lib fname in
  let template_data := set_representation template_data (drop_first ext) in
  let src := os_path_join lib stagingdir fname in
  dst <- lift (str_format lib template_publish template_data) ;;
  let dst := destination fname dst in
  data <- get ;;
  transfers <- getitem "transfers" (d_transfers data) ;;
  modify (fun d => set_transfers d (transfers ++ [(src, dst)])) ;;;
  data <- get ;;
  let representation :=
    {| rep_schema := "avalon-core:representation-2.0";
       rep_type := "representation";
       rep_parent := version_id;
       rep_name := drop_first ext;
       rep_label := representation_labels !! ext;
       rep_dependencies :=
         str_split lib (default EmptyString (d_dependencies data));
       rep_context :=
         {| rc_project := PROJECT;
            rc_asset := ASSET;
            rc_silo := SILO;
            rc_subset := subset_name subset;
            rc_version := ver_name version;
            rc_representation := drop_first ext |} |} in
  ret (template_data, representation).

(** The loop over [staging_content]. *)
Fixpoint register_files (stagingdir template_publish : string)
    (version_id : ObjectId) (PROJECT ASSET SILO : string)
    (subset : SubsetDoc) (version : Version)
    (template_data : TemplateData) (representations : list Representation)
    (staging_content : list string) : M (list Representation) :=
  match staging_content with
  | [] => ret representations
  | fname :: rest =>
      r <- register_file stagingdir template_publish version_id
             PROJECT ASSET SILO subset version template_data fname ;;
      register_files stagingdir template_publish version_id
        PROJECT ASSET SILO subset version (fst r)
        (representations ++ [snd r]) rest
  end.

(** The lines of [register] that compute the next version. *)
Definition next_version_of (latest_version : option VersionDoc) : Z :=
  let next_version := 1 in
  match latest_version with
  | Some latest => next_version + version_name latest
  | None => next_version
  end.

Definition mismatch_message (assumed_version next_version : Z) : string :=
  "Assumed version 'v" +:+ format_03d assumed_version
    +:+ "' does not matchnext version in database ('v"
    +:+ format_03d next_version +:+ "')".

(** [IntegrateAsset.register] *)
Definition register (context : ContextData) : M (list Representation) :=
  PROJECT <- getitem "AVALON_PROJECT" (environ !! "AVALON_PROJECT") ;;
  data <- get ;;
  ASSET <- (if truthy (d_asset data)
            then ret (default EmptyString (d_asset data))
            else getitem "AVALON_ASSET" (environ !! "AVALON_ASSET")) ;;
  SILO <- getitem "AVALON_SILO" (environ !! "AVALON_SILO") ;;
  let LOCATION := environ !! "AVALON_LOCATION" in
  results <- getitem "results" (c_results context) ;;
  assert (forallb success results) "Atomicity not held, aborting." ;;;
  let stagingdir_opt := d_stagingDir data in
  assert (truthy stagingdir_opt)
    ("Incomplete instance " +:+ dquote +:+ instance_name +:+ dquote
       +:+ ": Missing reference to staging area.") ;;;
  let stagingdir := default EmptyString stagingdir_opt in
  project <- call handle FindProject ;;
  project_doc <-
    match project with
    | Some p => ret p
    | None => raise (TypeError "'NoneType' object is not subscriptable")
    end ;;
  asset <- call handle (FindAsset ASSET (project_id project_doc)) ;;
  (* [all([project, asset])]: the project was subscripted above, and a
     document that was found is not empty *)
  assert (bool_decide (is_Some asset))
    ("Could not find current project or asset '" +:+ ASSET +:+ "'") ;;;
  asset_doc <- getitem "_id" asset ;;
  subset_opt <- get_subset asset_doc ;;
  subset <-
    match subset_opt with
    | Some s => ret s
    | None => raise (TypeError "'NoneType' object is not subscriptable")
    end ;;
  latest_version <- call handle (FindLatestVersion (subset_id subset)) ;;
  let next_version := next_version_of latest_version in
  data <- get ;;
  assumed_data <-
    getitem "assumedTemplateData" (d_assumedTemplateData data) ;;
  let assumed_version := assumed_version assumed_data in
  (if negb (assumed_version =? next_version)
   then raise (AttributeError
                 (mismatch_message assumed_version next_version))
   else ret tt) ;;;
  version_data <- create_version_data context ;;
  let version := create_version subset next_version [LOCATION] version_data in
  version_id <- call handle (InsertOne (VersionDocument version)) ;;
  let root := registered_root in
  let template_data :=
    {| t_root := root;
       t_project := PROJECT;
       t_silo := SILO;
       t_asset := ASSET;
       t_subset := subset_name subset;
       t_version := ver_name version;
       t_representation := EmptyString |} in
  let template_publish := project_template_publish project_doc in
  staging_content <- call handle (Listdir stagingdir) ;;
  representations <-
    register_files stagingdir template_publish version_id
      PROJECT ASSET SILO subset version template_data [] staging_content ;;
  modify (fun d => set_representations d representations) ;;;
  ret representations.

(** [IntegrateAsset.copy_file]: the [except OSError] clause names one
    class, so every other exception passes through it. *)
Definition copy_file (src dst : string) : M unit :=
  let dirname := os_path_dirname lib dst in
  try_except (call handle (Makedirs dirname))
    (fun e =>
       match e with
       | OSError errno =>
           if errno =? EEXIST then ret tt else raise e
       | _ => raise e
       end) ;;;
  call handle (Copy src dst).

(** The loop over [traffic] in [integrate]. *)
Fixpoint copy_files (traffic : list (string * string)) : M unit :=
  match traffic with
  | [] => ret tt
  | (src, dest) :: rest => copy_file src dest ;;; copy_files rest
  end.

(** [IntegrateAsset.integrate] *)
Definition integrate : M unit :=
  data <- get ;;
  traffic <- getitem "transfers" (d_transfers data) ;;
  representations <-
    getitem "representations" (d_representations data) ;;
  call handle (InsertMany (map RepresentationDocument representations)) ;;;
  copy_files traffic.

(** [IntegrateAsset.process] *)
Definition process (context : ContextData) : M unit :=
  register context ;;;
  integrate ;;;
  data <- get ;;
  stagingdir <- getitem "stagingDir" (d_stagingDir data) ;;
  call handle (Rmtree stagingdir).

End Integrator.

(** [s'] is [s] with pairs added at the end of the transfers, and any
    representations. *)
Definition grows (s s' : InstanceData) : Prop :=
  d_asset s' = d_asset s
  /\ d_subset s' = d_subset s
  /\ d_stagingDir s' = d_stagingDir s
  /\ d_assumedTemplateData s' = d_assumedTemplateData s
  /\ d_dependencies s' = d_dependencies s
  /\ d_families s' = d_families s
  /\ d_family s' = d_family s
  /\ match d_transfers s with
     | Some t0 => exists added, d_transfers s' = Some (t0 ++ added)
     | None => d_transfers s' = None
     end.

(** [grows], with the representations as they were. *)
Definition keeps (s s' : InstanceData) : Prop :=
  grows s s' /\ d_representations s' = d_representations s.

(** A program that assigns the representations only when it returns, and
    then assigns what it returns. *)
Definition careful {W : Type}
    (m : M W InstanceData (list Representation)) : Prop :=
  forall s w,
    grows s (store (m s w))
    /\ (raises (outcome (m s w))
        -> d_representations (store (m s w)) = d_representations s)
    /\ (forall reps, outcome (m s w) = inr reps
                     -> d_representations (store (m s w)) = Some reps).

(** What [register] checks before its first call: the environment, the
    results of the plug-ins that ran before, and the staging directory. *)
Definition register_checks (environ : gmap string string)
    (context : ContextData) (s : InstanceData) : Prop :=
  is_Some (environ !! "AVALON_PROJECT")
  /\ (truthy (d_asset s) = true \/ is_Some (environ !! "AVALON_ASSET"))
  /\ is_Some (environ !! "AVALON_SILO")
  /\ (exists results, c_results context = Some results
                      /\ forallb success results = true)
  /\ truthy (d_stagingDir s) = true.

(** C2 as stated, at one call: [copy_file] raises exactly when [makedirs]
    raised an OSError other than EEXIST or the copy raised. *)
Definition raises_as_stated {W : Type}
    (handle : forall X : Type, Event X -> W -> (PyExn + X) * W)
    (lib : PyLib) (src dst : string) (s : InstanceData) (w : W) : Prop :=
  let r := copy_file handle lib src dst s w in
  raises (outcome r)
  <-> (exists en n, en ∈ trace r /\ is_makedirs en = true
                    /\ raised_by en = Some (OSError n) /\ n <> EEXIST)
      \/ (exists en x, en ∈ trace r /\ is_copy en = true
                        /\ raised_by en = Some x).

End IntegrateAsset.

(** ** A POSIX host to run the plug-ins on

    The library functions as [posixpath] and [str] compute them, and an
    in-memory database and file system that answer the calls. *)

Module Posix.

Import Ascii.

Definition slash : ascii := ascii_of_nat 47.
Definition dot : ascii := ascii_of_nat 46.

Definition chars (s : string) : list ascii := list_ascii_of_string s.
Definition str (l : list ascii) : string := string_of_list_ascii l.

(** Split at every [sep], keeping empty pieces, as [s.split(sep)] does. *)
Fixpoint split_on (sep : ascii) (l : list ascii) : list (list ascii) :=
  match l with
  | [] => [[]]
  | c :: rest =>
      match split_on sep rest with
      | piece :: pieces =>
          if Ascii.eqb c sep then [] :: piece :: pieces
          else (c :: piece) :: pieces
      | [] => [[c]]
      end
  end.

(** [sep.join(pieces)] *)
Fixpoint join_with (sep : list ascii) (pieces : list (list ascii))
  : list ascii :=
  match pieces with
  | [] => []
  | [p] => p
  | p :: rest => p ++ sep ++ join_with sep rest
  end.

(** [posixpath.join(a, b)] *)
Definition join (a b : string) : string :=
  match chars b with
  | c :: _ =>
      if Ascii.eqb c slash then b
      else match last (chars a) with
           | None => b
           | Some e => if Ascii.eqb e slash then a +:+ b
                       else a +:+ "/" +:+ b
           end
  | [] =>
      match last (chars a) with
      | None => b
      | Some e => if Ascii.eqb e slash then a else a +:+ "/"
      end
  end.

(** [s.rstrip("/")] on the reversed string *)
Fixpoint drop_slashes (rev_s : list ascii) : list ascii :=
  match rev_s with
  | c :: rest => if Ascii.eqb c slash then drop_slashes rest else rev_s
  | [] => []
  end.

(** [posixpath.dirname(p)] *)
Definition dirname (p : string) : string :=
  let pieces := split_on slash (chars p) in
  let head := join_with [slash] (removelast pieces) in
  let head := if (1 <? length pieces)%nat then head ++ [slash] else head in
  if forallb (Ascii.eqb slash) head then str head
  else str (rev (drop_slashes (rev head))).

(** [genericpath._splitext] on a name: the extension starts at the last
    dot, unless only dots come before it. *)
Definition splitext_name (name : list ascii) : list ascii * list ascii :=
  match rev (split_on dot name) with
  | ext :: before =>
      if forallb (fun piece => bool_decide (piece = [])) before
      then (name, [])
      else (join_with [dot] (rev before), dot :: ext)
  | [] => (name, [])
  end.

(** [posixpath.splitext(p)] *)
Definition splitext (p : string) : string * string :=
  let pieces := split_on slash (chars p) in
  match rev pieces with
  | name :: dirs_rev =>
      let '(root, ext) := splitext_name name in
      (str (join_with [slash] (rev (root :: dirs_rev))), str ext)
  | [] => (p, EmptyString)
  end.

(** One round of the loop of [posixpath.normpath] over the components. *)
Definition norm_step (rooted : bool) (new_comps : list (list ascii))
    (comp : list ascii) : list (list ascii) :=
  if bool_decide (comp = []) || bool_decide (comp = [dot]) then new_comps
  else if negb (bool_decide (comp = [dot; dot]))
          || (negb rooted && bool_decide (new_comps = []))
          || bool_decide (last new_comps = Some [dot; dot])
       then new_comps ++ [comp]
       else removelast new_comps.

(** [posixpath.normpath(path)] *)
Definition normpath (path : string) : string :=
  let l := chars path in
  match l with
  | [] => "."
  | _ =>
      let initial_slashes : nat :=
        match l with
        | a :: b :: c :: _ =>
            if Ascii.eqb a slash then
              if Ascii.eqb b slash && negb (Ascii.eqb c slash)
              then 2%nat else 1%nat
            else 0%nat
        | [a; b] =>
            if Ascii.eqb a slash then
              if Ascii.eqb b slash then 2%nat else 1%nat
            else 0%nat
        | [a] => if Ascii.eqb a slash then 1%nat else 0%nat
        | [] => 0%nat
        end in
      let comps :=
        foldl (norm_step (negb (Nat.eqb initial_slashes 0))) []
          (split_on slash l) in
      let out := repeat slash initial_slashes ++ join_with [slash] comps in
      match out with
      | [] => "."
      | _ => str out
      end
  end.

(** The length of the common prefix of two component lists. *)
Fixpoint common (a b : list (list ascii)) : nat :=
  match a, b with
  | x :: a', y :: b' => if bool_decide (x = y) then S (common a' b') else 0%nat
  | _, _ => 0%nat
  end.

(** [posixpath.relpath(path, start)] with the root as working directory. *)
Definition relpath (path start : string) : PyExn + string :=
  match chars path with
  | [] => inl (OtherExn "ValueError")
  | _ =>
      let comps (p : string) :=
        filter (fun c => c <> []) (split_on slash (chars (normpath ("/" +:+ p)))) in
      let start_list := comps start in
      let path_list := comps path in
      let i := common start_list path_list in
      let rel_list :=
        repeat [dot; dot] (length start_list - i) ++ drop i path_list in
      match rel_list with
      | [] => inr "."
      | _ => inr (str (join_with [slash] rel_list))
      end
  end.

(** The value of a replacement field of the template. *)
Definition field (data : TemplateData) (key : string) : option string :=
  if String.eqb key "root" then Some (t_root data)
  else if String.eqb key "project" then Some (t_project data)
  else if String.eqb key "silo" then Some (t_silo data)
  else if String.eqb key "asset" then Some (t_asset data)
  else if String.eqb key "subset" then Some (t_subset data)
  else if String.eqb key "version" then
    Some (if t_version data <? 0
          then "-" +:+ IntegrateAsset.digits (Z.to_N (- t_version data))
          else IntegrateAsset.digits (Z.to_N (t_version data)))
  else if String.eqb key "representation" then Some (t_representation data)
  else None.

(** [template.format( **data )] for templates whose fields are plain
    names, or names with the specification [0>3]. *)
Fixpoint format_pieces (data : TemplateData) (pieces : list (list ascii))
  : PyExn + list ascii :=
  match pieces with
  | [] => inr []
  | piece :: rest =>
      match split_on (ascii_of_nat 125) piece with
      | [spec; text] =>
          let '(key, pad) :=
            match split_on (ascii_of_nat 58) spec with
            | [key; fmt] => (key, bool_decide (str fmt = "0>3"))
            | _ => (spec, false)
            end in
          match field data (str key), format_pieces data rest with
          | Some v, inr out =>
              inr (chars (if pad then IntegrateAsset.zfill 3 v else v)
                     ++ text ++ out)
          | None, _ => inl (KeyError (str key))
          | _, inl e => inl e
          end
      | _ => inl (OtherExn "ValueError")
      end
  end.

Definition format (template : string) (data : TemplateData) : PyExn + string :=
  match split_on (ascii_of_nat 123) (chars template) with
  | text :: fields =>
      match format_pieces data fields with
      | inr out => inr (str (text ++ out))
      | inl e => inl e
      end
  | [] => inr EmptyString
  end.

Definition is_space (c : ascii) : bool :=
  let n := nat_of_ascii c in
  Nat.eqb n 32 || (Nat.leb 9 n && Nat.leb n 13).

(** [s.split()] *)
Fixpoint split_words (l : list ascii) (word : list ascii) : list string :=
  match l with
  | [] => match word with [] => [] | _ => [str (rev word)] end
  | c :: rest =>
      if is_space c then
        match word with
        | [] => split_words rest []
        | _ => str (rev word) :: split_words rest []
        end
      else split_words rest (c :: word)
  end.

(** [str(l)] for a list of plain names *)
Definition repr (l : list string) : string :=
  "[" +:+ String.concat ", " (map (fun s => "'" +:+ s +:+ "'") l) +:+ "]".

Definition lib : PyLib :=
  {| os_path_splitext := splitext;
     os_path_join := join;
     os_path_dirname := dirname;
     os_path_normpath := normpath;
     os_path_relpath := relpath;
     str_format := format;
     str_split := fun s => split_words (chars s) [];
     repr_list := repr |}.

End Posix.

Module Host.

(** The database by collection, the documents written so far, the
    directories with their entries, and what was copied and opened. *)
Record World : Type := {
  w_project : option ProjectDoc;
  w_assets : list (string * ObjectId * AssetDoc);
  w_subsets : list (ObjectId * SubsetDoc);
  w_versions : list (ObjectId * VersionDoc);
  w_written : list Document;
  w_next_id : ObjectId;
  w_dirs : gmap string (list string);
  w_copied : list (string * string);
  w_opened : list (list string)
}.

Definition with_db (w : World) (subsets : list (ObjectId * SubsetDoc))
    (versions : list (ObjectId * VersionDoc)) (written : list Document)
    (next_id : ObjectId) : World :=
  {| w_project := w_project w; w_assets := w_assets w;
     w_subsets := subsets; w_versions := versions; w_written := written;
     w_next_id := next_id; w_dirs := w_dirs w; w_copied := w_copied w;
     w_opened := w_opened w |}.

Definition with_fs (w : World) (dirs : gmap string (list string))
    (copied : list (string * string)) (opened : list (list string)) : World :=
  {| w_project := w_project w; w_assets := w_assets w;
     w_subsets := w_subsets w; w_versions := w_versions w;
     w_written := w_written w; w_next_id := w_next_id w;
     w_dirs := dirs; w_copied := copied; w_opened := opened |}.

(** The version with the greatest name, as a descending sort puts first. *)
Definition latest (versions : list VersionDoc) : option VersionDoc :=
  foldl (fun best v =>
           match best with
           | Some b => if version_name b <? version_name v then Some v else best
           | None => Some v
           end) None versions.

Definition insert_one (doc : Document) (w : World) : ObjectId * World :=
  let _id := w_next_id w in
  let subsets :=
    match doc with
    | SubsetDocument _ _ name parent =>
        w_subsets w ++ [(parent, {| subset_id := _id; subset_name := name |})]
    | _ => w_subsets w
    end in
  let versions :=
    match doc with
    | VersionDocument v =>
        w_versions w
          ++ [(ver_parent v, {| version_id := _id; version_name := ver_name v |})]
    | _ => w_versions w
    end in
  (_id, with_db w subsets versions (w_written w ++ [doc]) (N.succ _id)).

Definition ENOENT : Z := 2.

(** The answers of the host. *)
Definition handle (X : Type) (ev : Event X) (w : World) : (PyExn + X) * World :=
  match ev in Event X return (PyExn + X) * World with
  | FindProject => (inr (w_project w), w)
  | FindAsset name parent =>
      (inr (snd <$> head (filter (fun a => fst a = (name, parent)) (w_assets w))),
       w)
  | FindSubset parent name =>
      (inr (snd <$> head (filter (fun s => fst s = parent
                                          /\ subset_name (snd s) = name)
                            (w_subsets w))), w)
  | FindById _id =>
      (inr (snd <$> head (filter (fun s => subset_id (snd s) = _id)
                            (w_subsets w))), w)
  | FindLatestVersion parent =>
      (inr (latest (snd <$> filter (fun v => fst v = parent) (w_versions w))),
       w)
  | InsertOne doc =>
      let (_id, w') := insert_one doc w in (inr _id, w')
  | InsertMany docs =>
      match docs with
      | [] => (inl (TypeError "documents must be a non-empty list"), w)
      | _ => (inr tt, foldl (fun w doc => snd (insert_one doc w)) w docs)
      end
  | Listdir path =>
      match w_dirs w !! path with
      | Some names => (inr names, w)
      | None => (inl (OSError ENOENT), w)
      end
  | Makedirs path =>
      match w_dirs w !! path with
      | Some _ => (inl (OSError EEXIST), w)
      | None =>
          if String.eqb path EmptyString then (inl (OSError ENOENT), w)
          else (inr tt, with_fs w (<[path := []]> (w_dirs w))
                          (w_copied w) (w_opened w))
      end
  | Copy src dst =>
      match w_dirs w !! Posix.dirname dst with
      | Some _ =>
          (inr tt, with_fs w (w_dirs w) (w_copied w ++ [(src, dst)])
                     (w_opened w))
      | None => (inl (OSError ENOENT), w)
      end
  | Rmtree path =>
      match w_dirs w !! path with
      | Some _ =>
          (inr tt, with_fs w (delete path (w_dirs w)) (w_copied w)
                     (w_opened w))
      | None => (inl (OSError ENOENT), w)
      end
  | SubprocessCall args =>
      (inr 0, with_fs w (w_dirs w) (w_copied w) (w_opened w ++ [args]))
  | Startfile path =>
      (inr tt, with_fs w (w_dirs w) (w_copied w) (w_opened w ++ [[path]]))
  end.

(** A host whose file system encoding is ASCII: [makedirs] on a path
    with any other character raises [UnicodeEncodeError], which is a
    [ValueError] and no [OSError]. *)
Definition is_ascii (path : string) : bool :=
  forallb (fun c => (Ascii.nat_of_ascii c <? 128)%nat) (Posix.chars path).

Definition handle_ascii (X : Type) (ev : Event X) (w : World)
  : (PyExn + X) * World :=
  match ev in Event X return (PyExn + X) * World with
  | Makedirs path =>
      if is_ascii path then handle unit (Makedirs path) w
      else (inl (OtherExn "UnicodeEncodeError"), w)
  | ev' => handle _ ev' w
  end.

(** *** A directory of rendered frames *)

(** [clique.PATTERNS["frames"]] *)
Definition frames_pattern : string := "\.(?P<index>(?P<padding>0*)\d+)\.\D+\d?$".



(** *** A project with one asset and a staged model *)

Definition template : string :=
  "{root}/{project}/{silo}/{asset}/publish/{subset}/v{version:0>3}/{subset}.{representation}".

Definition environ : gmap string string :=
  {[ "AVALON_PROJECT" := "film";
     "AVALON_ASSET" := "hero";
     "AVALON_SILO" := "assets";
     "AVALON_LOCATION" := "studio" ]}.

Definition staging : string := "/tmp/pyblish_x1".

Definition world0 : World :=
  {| w_project :=
       Some {| project_id := 1%N; project_template_publish := template |};
     w_assets := [("hero", 1%N, {| asset_id := 2%N |})];
     w_subsets := [(2%N, {| subset_id := 3%N; subset_name := "modelDefault" |})];
     w_versions :=
       [(3%N, {| version_id := 4%N; version_name := 1 |});
        (3%N, {| version_id := 5%N; version_name := 2 |})];
     w_written := [];
     w_next_id := 6%N;
     w_dirs := {[ staging := ["modelDefault.ma"; ".metadata.json"] ]};
     w_copied := [];
     w_opened := [] |}.

Definition data0 : InstanceData :=
  {| d_asset := None;
     d_subset := Some "modelDefault";
     d_stagingDir := Some staging;
     d_assumedTemplateData := Some {| assumed_version := 3 |};
     d_transfers := Some [];
     d_representations := None;
     d_dependencies := None;
     d_families := Some ["colorbleed.model"];
     d_family := None |}.

(** An instance of a subset the database does not know yet, whose
    assumed version is not the first. *)
Definition data_rig : InstanceData :=
  {| d_asset := None;
     d_subset := Some "rigDefault";
     d_stagingDir := Some staging;
     d_assumedTemplateData := Some {| assumed_version := 2 |};
     d_transfers := Some [];
     d_representations := None;
     d_dependencies := None;
     d_families := Some ["colorbleed.rig"];
     d_family := None |}.

Definition context0 : ContextData :=
  {| c_results := Some [{| success := true |}];
     c_currentFile := Some "/projects/film/work/hero.ma";
     c_time := Some "20170801T120000Z";
     c_user := Some "marcus";
     c_comment := None |}.

(** The staged model without the [transfers] key. *)
Definition data_bare : InstanceData :=
  {| d_asset := None;
     d_subset := Some "modelDefault";
     d_stagingDir := Some staging;
     d_assumedTemplateData := Some {| assumed_version := 3 |};
     d_transfers := None;
     d_representations := None;
     d_dependencies := None;
     d_families := Some ["colorbleed.model"];
     d_family := None |}.

(** The project of [world0] with the staging directory gone, and with
    the staging directory empty. *)
Definition world_unstaged : World := with_fs world0 ∅ [] [].

Definition world_empty : World := with_fs world0 {[ staging := [] ]} [] [].

Definition root : string := "/projects".

(** The version data of the staged model. *)
Definition version_data0 : VersionData :=
  {| vd_instance_data := data0;
     vd_families := ["colorbleed.model"];
     vd_time := "20170801T120000Z";
     vd_author := "marcus";
     vd_source := "{root}/film/work/hero.ma";
     vd_comment := None |}.

(** [register] on the staged model, and what it returns. *)
Definition run0 : Run World InstanceData (list Representation) :=
  IntegrateAsset.register handle Posix.lib environ root "modelDefault"
    context0 data0 world0.

Definition reps0 : list Representation :=
  match outcome run0 with
  | inr reps => reps
  | inl _ => []
  end.

(** The project of [world0] with two staged files of one extension, and
    what [register] returns there. *)
Definition world_twins : World :=
  with_fs world0 {[ staging := ["body.ma"; "hair.ma"] ]} [] [].

Definition reps_twins : list Representation :=
  match outcome (IntegrateAsset.register handle Posix.lib environ root
                   "modelDefault" context0 data0 world_twins) with
  | inr reps => reps
  | inl _ => []
  end.

End Host.

(** * Properties *)

(** ** validate_node_ids_unique.py *)

Module ValidateNodeIdsUniqueFacts.

Import ValidateNodeIdsUnique.

Section Facts.

Variable get_id : Node -> option string.
Variable repr : list Node -> string.

Local Abbreviation collect_ids := (collect_ids get_id).
Local Abbreviation carriers := (carriers get_id).
Local Abbreviation get_invalid := (get_invalid get_id).
Local Abbreviation process := (process get_id repr).
Local Abbreviation group := (group get_id).
Local Abbreviation shared_by_two_entries := (shared_by_two_entries get_id).
Local Abbreviation shared_by_two_nodes := (shared_by_two_nodes get_id).
Local Abbreviation no_identifier := (no_identifier get_id).

Lemma truthy_Some (k : string) : truthy (Some k) = true <-> k <> EmptyString.
Proof.
  simpl. rewrite negb_true_iff. split.
  - intros H ->. simpl in H. discriminate.
  - intros H. apply String.eqb_neq. exact H.
Qed.

Lemma carriers_snoc (k : string) (l : list Node) (m : Node) :
  carriers k (l ++ [m])
  = carriers k l ++ (if decide (get_id m = Some k) then [m] else []).
Proof.
  unfold ValidateNodeIdsUnique.carriers. rewrite filter_app. f_equal.
Qed.

Lemma collect_ids_lookup (instance : list Node) (k : string) :
  collect_ids instance !! k = group k instance.
Proof.
  unfold ValidateNodeIdsUnique.collect_ids.
  induction instance as [|m l IH] using rev_ind.
  - simpl. unfold ValidateNodeIdsUnique.group. rewrite lookup_empty. destruct (decide _); reflexivity.
  - rewrite foldl_snoc. unfold collect_step at 1.
    unfold group in *. rewrite carriers_snoc.
    destruct (get_id m) as [s|] eqn:Hid.
    + destruct (truthy (Some s)) eqn:Ht.
      * apply truthy_Some in Ht.
        destruct (decide (s = k)) as [->|Hne].
        -- rewrite lookup_insert_eq, IH.
           destruct (decide (k = EmptyString)); [contradiction|].
           destruct (decide (Some k = Some k)); [|congruence].
           destruct (ValidateNodeIdsUnique.carriers get_id k l); reflexivity.
        -- rewrite lookup_insert_ne by exact Hne. rewrite IH.
           destruct (decide (Some s = Some k)); [congruence|].
           rewrite app_nil_r. reflexivity.
      * rewrite IH.
        assert (s = EmptyString) as ->.
        { destruct (decide (s = EmptyString)) as [|Hn]; [assumption|].
          apply truthy_Some in Hn. congruence. }
        destruct (decide (k = EmptyString)) as [|Hk]; [reflexivity|].
        destruct (decide (Some EmptyString = Some k)); [congruence|].
        rewrite app_nil_r. reflexivity.
    + simpl. rewrite IH.
      destruct (decide (None = Some k)); [congruence|].
      rewrite app_nil_r. reflexivity.
Qed.

Lemma extend_all_nil (items : list (string * list Node)) (acc : list Node) :
  foldl extend_step acc items = []
  <-> acc = [] /\ Forall (fun it => (length (snd it) <= 1)%nat) items.
Proof.
  revert acc. induction items as [|it items IH]; intros acc; simpl.
  - split; [intros ->; split; [reflexivity|constructor] | intros [H _]; exact H].
  - rewrite IH. unfold extend_step.
    destruct (1 <? length it.2)%nat eqn:Hlt.
    + apply Nat.ltb_lt in Hlt. split.
      * intros [Happ _]. apply app_eq_nil in Happ as [_ Hs].
        rewrite Hs in Hlt. simpl in Hlt. lia.
      * intros [_ HF]. apply Forall_cons in HF as [Hle _]. lia.
    + apply Nat.ltb_ge in Hlt. rewrite Forall_cons. tauto.
Qed.

Lemma get_invalid_nil (instance : list Node) :
  get_invalid instance = []
  <-> forall k, k <> EmptyString -> (length (carriers k instance) <= 1)%nat.
Proof.
  unfold ValidateNodeIdsUnique.get_invalid. rewrite extend_all_nil.
  rewrite Forall_forall. split.
  - intros [_ H] k Hk.
    destruct (carriers k instance) as [|a l'] eqn:Hc; [simpl; lia|].
    specialize (H (k, a :: l')). simpl in H. apply H.
    apply elem_of_map_to_list. rewrite collect_ids_lookup.
    unfold ValidateNodeIdsUnique.group.
    rewrite decide_False by exact Hk. rewrite Hc. reflexivity.
  - intros H. split; [reflexivity|]. intros [k l] Hin. simpl.
    apply elem_of_map_to_list in Hin. rewrite collect_ids_lookup in Hin.
    unfold ValidateNodeIdsUnique.group in Hin. destruct (decide (k = EmptyString)); [discriminate|].
    specialize (H k n).
    destruct (carriers k instance); [discriminate|].
    injection Hin as <-. exact H.
Qed.

(** Two entries of a list satisfy [P] exactly when filtering by [P]
    leaves at least two. *)
Lemma filter_two {A : Type} (P : A -> Prop) `{forall x, Decision (P x)}
    (l : list A) :
  (2 <= length (filter P l))%nat
  <-> exists i j x y, i <> j /\ l !! i = Some x /\ l !! j = Some y
                      /\ P x /\ P y.
Proof.
  split.
  - induction l as [|a l IH]; [simpl; lia|].
    rewrite filter_cons. destruct (decide (P a)) as [Ha|Ha].
    + simpl. intros Hlen.
      destruct (filter P l) as [|y l'] eqn:Hf; [simpl in Hlen; lia|].
      assert (y ∈ filter P l) as Hy by (rewrite Hf; left).
      apply list_elem_of_filter in Hy as [HPy Hy].
      apply list_elem_of_lookup in Hy as [j Hj].
      exists 0%nat, (S j), a, y. repeat split; auto.
    + intros Hlen. destruct (IH Hlen) as (i & j & x & y & Hij & Hi & Hj & Hx & Hy).
      exists (S i), (S j), x, y. repeat split; auto.
  - assert (Hone : forall (l : list A) j y, l !! j = Some y -> P y ->
                     (1 <= length (filter P l))%nat).
    { intros l0 j y Hj Hy.
      assert (y ∈ filter P l0) as Hin.
      { apply list_elem_of_filter. split; [exact Hy|].
        apply list_elem_of_lookup. eauto. }
      destruct (filter P l0); [inversion Hin | simpl; lia]. }
    induction l as [|a l IH]; intros (i & j & x & y & Hij & Hi & Hj & Hx & Hy).
    + rewrite lookup_nil in Hi. discriminate.
    + rewrite filter_cons.
      destruct i as [|i], j as [|j]; simpl in Hi, Hj.
      * congruence.
      * injection Hi as ->. rewrite decide_True by exact Hx. simpl.
        pose proof (Hone l j y Hj Hy). lia.
      * injection Hj as ->. rewrite decide_True by exact Hy. simpl.
        pose proof (Hone l i x Hi Hx). lia.
      * assert (2 <= length (filter P l))%nat as Hl.
        { apply IH. exists i, j, x, y. repeat split; auto. }
        destruct (decide (P a)); simpl; lia.
Qed.

Lemma get_invalid_nil_iff (instance : list Node) :
  get_invalid instance = [] <-> ~ shared_by_two_entries instance.
Proof.
  rewrite get_invalid_nil. split.
  - intros H (i & j & m1 & m2 & k & Hij & Hi & Hj & H1 & H2 & Hk).
    specialize (H k Hk).
    assert (2 <= length (carriers k instance))%nat; [|lia].
    apply filter_two. exists i, j, m1, m2. auto.
  - intros H k Hk.
    destruct (le_lt_dec (length (carriers k instance)) 1) as [|Hlt]; [assumption|].
    exfalso. apply H.
    assert (2 <= length (carriers k instance))%nat as H2 by lia.
    apply filter_two in H2 as (i & j & x & y & Hij & Hi & Hj & Hx & Hy).
    exists i, j, x, y, k. auto 10.
Qed.

Lemma get_invalid_cons_shared (instance : list Node) :
  get_invalid instance <> [] -> shared_by_two_entries instance.
Proof.
  unfold ValidateNodeIdsUnique.get_invalid. rewrite extend_all_nil.
  intros Hne.
  assert (~ Forall (fun it : string * list Node => (length (snd it) <= 1)%nat)
            (map_to_list (collect_ids instance))) as HnF by tauto.
  apply not_Forall_Exists in HnF; [|intros x; apply _].
  apply Exists_exists in HnF as ([k l] & Hin & Hlen). simpl in Hlen.
  apply elem_of_map_to_list in Hin. rewrite collect_ids_lookup in Hin.
  unfold ValidateNodeIdsUnique.group in Hin.
  destruct (decide (k = EmptyString)) as [|Hk]; [discriminate|].
  assert (l = carriers k instance) as ->.
  { destruct (carriers k instance); [discriminate|congruence]. }
  assert (2 <= length (carriers k instance))%nat as H2 by lia.
  apply filter_two in H2 as (i & j & x & y & Hij & Hi & Hj & Hx & Hy).
  exists i, j, x, y, k. auto 10.
Qed.

Lemma process_cases (instance : list Node) :
  (get_invalid instance = [] /\ process instance = inr tt)
  \/ (get_invalid instance <> [] /\ raises_RuntimeError (process instance)).
Proof.
  unfold ValidateNodeIdsUnique.process, raises_RuntimeError.
  destruct (get_invalid instance) as [|a l]; [left|right]; split; eauto.
Qed.

(** C3, amended. [process] raises a RuntimeError exactly when two
    entries of the instance, at different places, carry the same
    non-empty identifier (one node listed twice makes two entries);
    otherwise, and so whenever the non-empty identifiers of the entries
    are pairwise distinct, it returns normally. *)
Theorem process_raises_iff_shared (instance : list Node) :
  (raises_RuntimeError (process instance)
   <-> shared_by_two_entries instance)
  /\ (~ shared_by_two_entries instance
      <-> returns_normally (process instance)).
Proof.
  unfold returns_normally.
  destruct (process_cases instance) as [[Hnil Hp]|[Hne Hp]].
  - pose proof (proj1 (get_invalid_nil_iff instance) Hnil) as Hns.
    rewrite Hp. split; split; try tauto.
    intros [msg Hmsg]. discriminate.
  - assert (shared_by_two_entries instance) as Hs.
    { apply get_invalid_cons_shared. exact Hne. }
    split; split; try tauto.
    destruct Hp as [msg ->]. discriminate.
Qed.

(** C8. When no member has a non-empty identifier, [get_invalid]
    returns the empty list and [process] returns normally. *)
Theorem no_identifier_is_valid (instance : list Node) :
  no_identifier instance ->
  get_invalid instance = [] /\ returns_normally (process instance).
Proof.
  intros Hno.
  assert (get_invalid instance = []) as Hnil.
  { apply get_invalid_nil_iff.
    intros (i & j & m1 & m2 & k & _ & Hi & _ & H1 & _ & Hk).
    assert (m1 ∈ instance) as Hin by (apply list_elem_of_lookup; eauto).
    specialize (Hno m1 Hin). rewrite H1 in Hno.
    apply truthy_Some in Hk. congruence. }
  split; [exact Hnil|].
  destruct (process_cases instance) as [[_ Hp]|[Hne _]]; [exact Hp|contradiction].
Qed.

Lemma extend_elem_of (items : list (string * list Node)) (acc : list Node)
    (m : Node) :
  m ∈ foldl extend_step acc items
  <-> m ∈ acc
      \/ exists it, it ∈ items /\ (1 < length (snd it))%nat /\ m ∈ snd it.
Proof.
  revert acc. induction items as [|it items IH]; intros acc; simpl.
  - split; [auto|]. intros [H|(it & Hin & _)]; [exact H | inversion Hin].
  - rewrite IH. unfold extend_step.
    destruct (1 <? length it.2)%nat eqn:Hlt.
    + apply Nat.ltb_lt in Hlt. rewrite elem_of_app. split.
      * intros [[H|H]|(it' & Hin & Hl & Hm)].
        -- left. exact H.
        -- right. exists it. split; [left | auto].
        -- right. exists it'. split; [right; exact Hin | auto].
      * intros [H|(it' & Hin & Hl & Hm)]; [auto|].
        apply elem_of_cons in Hin as [->|Hin]; [auto|].
        right. exists it'. auto.
    + apply Nat.ltb_ge in Hlt. split.
      * intros [H|(it' & Hin & Hl & Hm)]; [auto|].
        right. exists it'. split; [right; exact Hin | auto].
      * intros [H|(it' & Hin & Hl & Hm)]; [auto|].
        apply elem_of_cons in Hin as [->|Hin]; [lia|].
        right. exists it'. auto.
Qed.

(** X1. [get_invalid] reports exactly the members that carry a non-empty
    identifier which at least two entries of the instance carry; a member
    without identifier, with an empty one, or alone with its identifier
    is never reported. *)
Theorem get_invalid_reports (instance : list Node) (m : Node) :
  m ∈ get_invalid instance
  <-> m ∈ instance
      /\ exists k, get_id m = Some k /\ k <> EmptyString
                   /\ (2 <= length (carriers k instance))%nat.
Proof.
  unfold ValidateNodeIdsUnique.get_invalid. rewrite extend_elem_of. split.
  - intros [H|([k l] & Hin & Hlen & Hm)]; [inversion H|]. simpl in Hlen, Hm.
    apply elem_of_map_to_list in Hin. rewrite collect_ids_lookup in Hin.
    unfold ValidateNodeIdsUnique.group in Hin.
    destruct (decide (k = EmptyString)) as [|Hk]; [discriminate|].
    assert (l = carriers k instance) as ->.
    { destruct (carriers k instance); [discriminate|congruence]. }
    apply list_elem_of_filter in Hm as [Hid Hm].
    split; [exact Hm|]. exists k. split; [exact Hid|]. split; [exact Hk | lia].
  - intros (Hm & k & Hid & Hk & Hlen). right.
    exists (k, carriers k instance). simpl.
    split; [|split; [lia|]].
    + apply elem_of_map_to_list. rewrite collect_ids_lookup.
      unfold ValidateNodeIdsUnique.group.
      destruct (decide (k = EmptyString)); [contradiction|].
      destruct (carriers k instance); [simpl in Hlen; lia | reflexivity].
    + apply list_elem_of_filter. split; assumption.
Qed.

Lemma extend_all_acc (items : list (string * list Node)) (acc : list Node) :
  foldl extend_step acc items = acc ++ foldl extend_step [] items.
Proof.
  revert acc. induction items as [|it items IH]; intros acc; simpl.
  - rewrite app_nil_r. reflexivity.
  - rewrite IH, (IH (extend_step [] it)). unfold extend_step.
    destruct (1 <? length it.2)%nat; simpl.
    + rewrite <- app_assoc. reflexivity.
    + reflexivity.
Qed.

(** X15. The entries that share a non-empty identifier are reported
    together and in the order of the instance: the carriers of the
    identifier form one unbroken stretch of what [get_invalid] returns,
    each entry as often as the instance lists it. *)
Theorem get_invalid_groups (instance : list Node) (k : string) :
  k <> EmptyString ->
  (2 <= length (carriers k instance))%nat ->
  exists before after,
    get_invalid instance = before ++ carriers k instance ++ after.
Proof.
  intros Hk Hlen.
  assert ((k, carriers k instance) ∈ map_to_list (collect_ids instance))
    as Hin.
  { apply elem_of_map_to_list. rewrite collect_ids_lookup.
    unfold ValidateNodeIdsUnique.group.
    destruct (decide (k = EmptyString)); [contradiction|].
    destruct (carriers k instance); [simpl in Hlen; lia | reflexivity]. }
  apply list_elem_of_split in Hin as (l1 & l2 & Hsplit).
  unfold ValidateNodeIdsUnique.get_invalid. rewrite Hsplit, foldl_app.
  simpl. rewrite (extend_all_acc l2).
  exists (foldl extend_step [] l1), (foldl extend_step [] l2).
  assert (extend_step (foldl extend_step [] l1) (k, carriers k instance)
          = foldl extend_step [] l1 ++ carriers k instance) as ->.
  { unfold extend_step at 1. simpl.
    destruct (1 <? length (carriers k instance))%nat eqn:Hlt;
      [reflexivity|].
    apply Nat.ltb_ge in Hlt. lia. }
  rewrite <- app_assoc. reflexivity.
Qed.

End Facts.

(** C3 as stated fails when a node is listed twice: the validator raises
    although no two different nodes share an identifier. *)
Lemma process_raises_on_repeated_node :
  let get_id := fun _ : Node => Some "5a1c:9f" in
  let instance := ["|char|body"; "|char|body"] in
  ~ (raises_RuntimeError (process get_id Posix.repr instance)
     <-> shared_by_two_nodes get_id instance).
Proof.
  intros get_id instance [Hraise _].
  assert (raises_RuntimeError (process get_id Posix.repr instance)) as Hr.
  { eexists. vm_compute. reflexivity. }
  destruct (Hraise Hr) as (m1 & m2 & k & Hne & H1 & H2 & _).
  apply Hne.
  assert (forall m, m ∈ instance -> m = "|char|body") as Hall.
  { intros m Hm. unfold instance in Hm.
    repeat (apply elem_of_cons in Hm as [Hm|Hm]; [assumption|]).
    inversion Hm. }
  rewrite (Hall m1 H1), (Hall m2 H2). reflexivity.
Qed.

(** A node without identifier and a node whose identifier is empty. *)
Lemma no_identifier_is_valid_witness :
  let get_id := fun m : Node => if String.eqb m "a" then Some EmptyString else None in
  get_invalid get_id ["a"; "b"] = []
  /\ returns_normally (process get_id Posix.repr ["a"; "b"]).
Proof.
  intros get_id. apply (no_identifier_is_valid get_id Posix.repr ["a"; "b"]).
  intros m Hm.
  apply elem_of_cons in Hm as [->|Hm]; [reflexivity|].
  apply elem_of_cons in Hm as [->|Hm]; [reflexivity|].
  inversion Hm.
Defined.

(** Two shapes that share an identifier, around a node that has none. *)
Lemma get_invalid_groups_witness :
  let get_id := fun m : Node =>
    if String.prefix "|body" m then Some "59a6:01" else None in
  let instance := ["|body|shapeA"; "|grp"; "|body|shapeB"] in
  exists before after,
    get_invalid get_id instance
    = before ++ carriers get_id "59a6:01" instance ++ after.
Proof.
  intros get_id instance.
  apply (get_invalid_groups get_id instance "59a6:01").
  - discriminate.
  - vm_compute. lia.
Defined.

End ValidateNodeIdsUniqueFacts.

(** ** colorbleed_pointcache.py *)

Module CreatePointCacheFacts.

Import CreatePointCache.

Ltac find_key :=
  repeat (rewrite lookup_insert_ne by discriminate);
  apply lookup_insert_eq.

(** C7. Whatever the parent class and the animation data put in [data],
    after [__init__] it has [worldSpace] set to [True], the four export
    switches set to [False], and [attr] and [attrPrefix] set to the empty
    string. *)
Theorem init_sets_defaults (base animation_data : gmap string PyVal) :
  let data := init base animation_data in
  data !! "worldSpace" = Some (VBool true)
  /\ data !! "writeColorSets" = Some (VBool false)
  /\ data !! "renderableOnly" = Some (VBool false)
  /\ data !! "visibleOnly" = Some (VBool false)
  /\ data !! "includeParentHierarchy" = Some (VBool false)
  /\ data !! "attr" = Some (VStr EmptyString)
  /\ data !! "attrPrefix" = Some (VStr EmptyString).
Proof.
  unfold init. cbv zeta. repeat split; find_key.
Qed.

(** X2. A key that [__init__] does not assign keeps the value of the
    animation data, and the value the parent class gave it when the
    animation data has none: the update lets the animation data win. *)
Theorem init_keeps_other_keys (base animation_data : gmap string PyVal)
    (key : string) :
  key ∉ assigned_keys ->
  init base animation_data !! key
  = match animation_data !! key with
    | Some v => Some v
    | None => base !! key
    end.
Proof.
  intros Hkey. unfold init. cbv zeta.
  repeat (rewrite lookup_insert_ne;
          [|intros <-; apply Hkey; unfold assigned_keys;
            repeat (first [left; fail | right])]).
  rewrite lookup_union.
  destruct (animation_data !! key), (base !! key); reflexivity.
Qed.

(** The start frame of the animation data replaces the one of the parent
    class. *)
Lemma init_keeps_other_keys_witness :
  init {[ "startFrame" := VInt 1; "asset" := VStr "hero" ]}
       {[ "startFrame" := VInt 1001 ]} !! "startFrame"
  = match ({[ "startFrame" := VInt 1001 ]} : gmap string PyVal)
            !! "startFrame" with
    | Some v => Some v
    | None => ({[ "startFrame" := VInt 1; "asset" := VStr "hero" ]}
                 : gmap string PyVal) !! "startFrame"
    end.
Proof.
  apply (init_keeps_other_keys
           {[ "startFrame" := VInt 1; "asset" := VStr "hero" ]}
           {[ "startFrame" := VInt 1001 ]} "startFrame").
  unfold assigned_keys. intros Hin.
  repeat (apply elem_of_cons in Hin as [Hin|Hin]; [discriminate Hin|]).
  inversion Hin.
Defined.

End CreatePointCacheFacts.

(** ** Programs *)

Module ProgramsFacts.

Section Facts.

Context {W : Type}.
Variable handle : forall X : Type, Event X -> W -> (PyExn + X) * W.
Context {Store : Type}.

Local Abbreviation M := (M W Store).

Lemma run_eta {A : Type} (r : Run W Store A) :
  MkRun (trace r) (outcome r) (store r) (world r) = r.
Proof. destruct r. reflexivity. Qed.

Lemma prepend_nil {A : Type} (r : Run W Store A) : prepend [] r = r.
Proof. destruct r. reflexivity. Qed.

Lemma prepend_prepend {A : Type} (t1 t2 : list Entry) (r : Run W Store A) :
  prepend t1 (prepend t2 r) = prepend (t1 ++ t2) r.
Proof. unfold prepend. simpl. rewrite app_assoc. reflexivity. Qed.

Lemma bind_ret {A B : Type} (a : A) (f : A -> M B) (s : Store) (w : W) :
  bind (ret a) f s w = f a s w.
Proof. unfold bind, ret. simpl. apply prepend_nil. Qed.

Lemma bind_raise {A B : Type} (e : PyExn) (f : A -> M B) (s : Store) (w : W) :
  bind (raise e) f s w = MkRun [] (inl e) s w.
Proof. reflexivity. Qed.

Lemma bind_get {B : Type} (f : Store -> M B) (s : Store) (w : W) :
  bind get f s w = f s s w.
Proof. unfold bind, get. simpl. apply prepend_nil. Qed.

Lemma bind_modify {B : Type} (g : Store -> Store) (f : unit -> M B)
    (s : Store) (w : W) :
  bind (modify g) f s w = f tt (g s) w.
Proof. unfold bind, modify. simpl. apply prepend_nil. Qed.

Lemma bind_or_getitem {B : Type} (c : bool) (a : string) (key : string)
    (o : option string) (f : string -> M B) (s : Store) (w : W) :
  bind (if c then ret a else getitem key o) f s w
  = f (if c then a else default EmptyString o) s w
  \/ bind (if c then ret a else getitem key o) f s w
     = MkRun [] (inl (KeyError key)) s w.
Proof.
  destruct c; [left; apply bind_ret|].
  destruct o; cbn [getitem default]; [left; apply bind_ret | right; reflexivity].
Qed.

Lemma bind_call_inr {X B : Type} (ev : Event X) (f : X -> M B)
    (s : Store) (w w' : W) (x : X) :
  handle X ev w = (inr x, w') ->
  bind (call handle ev) f s w = prepend [Called ev (inr x)] (f x s w').
Proof. intros H. unfold bind, call. rewrite H. reflexivity. Qed.

Lemma bind_call_inl {X B : Type} (ev : Event X) (f : X -> M B)
    (s : Store) (w w' : W) (e : PyExn) :
  handle X ev w = (inl e, w') ->
  bind (call handle ev) f s w = MkRun [Called ev (inl e)] (inl e) s w'.
Proof. intros H. unfold bind, call. rewrite H. reflexivity. Qed.

Lemma call_run {X : Type} (ev : Event X) (s : Store) (w w' : W)
    (reply : PyExn + X) :
  handle X ev w = (reply, w') ->
  call handle ev s w = MkRun [Called ev reply] reply s w'.
Proof. intros H. unfold call. rewrite H. reflexivity. Qed.

Lemma bind_bind {A B C : Type} (m : M A) (f : A -> M B) (g : B -> M C)
    (s : Store) (w : W) :
  bind (bind m f) g s w = bind m (fun a => bind (f a) g) s w.
Proof.
  unfold bind. destruct (m s w) as [t [e|a] s1 w1]; simpl; [reflexivity|].
  destruct (f a s1 w1) as [t2 [e|b] s2 w2]; simpl; [reflexivity|].
  unfold prepend. simpl. rewrite app_assoc. reflexivity.
Qed.

(** The shape of a run of [bind m f] in terms of the run of [m]. *)
Lemma bind_run {A B : Type} (m : M A) (f : A -> M B) (s : Store) (w : W) :
  (exists e, outcome (m s w) = inl e
             /\ bind m f s w
                = MkRun (trace (m s w)) (inl e) (store (m s w)) (world (m s w)))
  \/ (exists a, outcome (m s w) = inr a
                /\ bind m f s w
                   = prepend (trace (m s w))
                       (f a (store (m s w)) (world (m s w)))).
Proof.
  unfold bind. destruct (outcome (m s w)) as [e|a]; [left|right]; eauto 10.
Qed.

(** *** Properties of every call of a run *)

Lemma calls_all_ret {A : Type} (P : Entry -> Prop) (a : A) :
  calls_all P (ret a : M A).
Proof. intros s w. constructor. Qed.

Lemma calls_all_raise {A : Type} (P : Entry -> Prop) (e : PyExn) :
  calls_all P (raise e : M A).
Proof. intros s w. constructor. Qed.

Lemma calls_all_get (P : Entry -> Prop) : calls_all P (get : M Store).
Proof. intros s w. constructor. Qed.

Lemma calls_all_modify (P : Entry -> Prop) (g : Store -> Store) :
  calls_all P (modify g : M unit).
Proof. intros s w. constructor. Qed.

Lemma calls_all_lift {A : Type} (P : Entry -> Prop) (r : PyExn + A) :
  calls_all P (lift r : M A).
Proof. destruct r; intros s w; constructor. Qed.

Lemma calls_all_getitem {A : Type} (P : Entry -> Prop) (key : string)
    (o : option A) :
  calls_all P (getitem key o : M A).
Proof. destruct o; intros s w; constructor. Qed.

Lemma calls_all_assert (P : Entry -> Prop) (cond : bool) (msg : string) :
  calls_all P (assert cond msg : M unit).
Proof. destruct cond; intros s w; constructor. Qed.

Lemma calls_all_call {X : Type} (P : Entry -> Prop) (ev : Event X) :
  (forall reply, P (Called ev reply)) ->
  calls_all P (call handle ev : M X).
Proof.
  intros HP s w. unfold call. destruct (handle X ev w) as [reply w'].
  simpl. constructor; [apply HP | constructor].
Qed.

Lemma calls_all_bind {A B : Type} (P : Entry -> Prop) (m : M A)
    (f : A -> M B) :
  calls_all P m -> (forall a, calls_all P (f a)) -> calls_all P (bind m f).
Proof.
  intros Hm Hf s w. unfold bind. specialize (Hm s w).
  destruct (outcome (m s w)) as [e|a]; simpl; [exact Hm|].
  apply Forall_app. split; [exact Hm | apply Hf].
Qed.

Lemma calls_all_try_except {A : Type} (P : Entry -> Prop) (m : M A)
    (h : PyExn -> M A) :
  calls_all P m -> (forall e, calls_all P (h e)) ->
  calls_all P (try_except m h).
Proof.
  intros Hm Hh s w. unfold try_except. specialize (Hm s w).
  destruct (outcome (m s w)) as [e|a]; simpl; [|exact Hm].
  apply Forall_app. split; [exact Hm | apply Hh].
Qed.

(** *** What a run leaves of the store *)

Section StoreAll.

Variable R : Store -> Store -> Prop.
Hypothesis R_refl : forall s, R s s.
Hypothesis R_trans : forall s1 s2 s3, R s1 s2 -> R s2 s3 -> R s1 s3.

Lemma store_all_ret {A : Type} (a : A) : store_all R (ret a : M A).
Proof. intros s w. apply R_refl. Qed.

Lemma store_all_raise {A : Type} (e : PyExn) : store_all R (raise e : M A).
Proof. intros s w. apply R_refl. Qed.

Lemma store_all_get : store_all R (get : M Store).
Proof. intros s w. apply R_refl. Qed.

Lemma store_all_lift {A : Type} (r : PyExn + A) : store_all R (lift r : M A).
Proof. destruct r; intros s w; apply R_refl. Qed.

Lemma store_all_getitem {A : Type} (key : string) (o : option A) :
  store_all R (getitem key o : M A).
Proof. destruct o; intros s w; apply R_refl. Qed.

Lemma store_all_assert (cond : bool) (msg : string) :
  store_all R (assert cond msg : M unit).
Proof. destruct cond; intros s w; apply R_refl. Qed.

Lemma store_all_call {X : Type} (ev : Event X) :
  store_all R (call handle ev : M X).
Proof.
  intros s w. unfold call. destruct (handle X ev w). apply R_refl.
Qed.

Lemma store_all_bind {A B : Type} (m : M A) (f : A -> M B) :
  store_all R m -> (forall a, store_all R (f a)) -> store_all R (bind m f).
Proof.
  intros Hm Hf s w. unfold bind. specialize (Hm s w).
  destruct (outcome (m s w)) as [e|a]; [exact Hm|].
  cbn [prepend store]. eapply R_trans; [exact Hm | apply Hf].
Qed.

End StoreAll.

End Facts.

End ProgramsFacts.

(** ** load_imagesequence.py *)

Module OpenImageSequenceFacts.

Import OpenImageSequence ProgramsFacts.

Section Facts.

Context {W : Type}.
Variable handle : forall X : Type, Event X -> W -> (PyExn + X) * W.
Variable lib : PyLib.
Variable sys_platform : string.
Variable os_name : string.
Variable frames_pattern : string.
Variable clique_assemble :
  list string -> list string -> nat -> list (list string) * list string.

Local Abbreviation open := (open handle sys_platform os_name).
Local Abbreviation process :=
  (process handle lib sys_platform os_name frames_pattern clique_assemble).




(** X3. [process] starts no viewer when the directory cannot be listed,
    when the listing leaves a remainder, or when it yields no collection
    or an empty first one: it raises what [listdir] raised, an
    AssertionError, or an IndexError, after the listing as its only
    call. *)
Theorem process_failures_start_nothing (fname : string) (w : W) :
  let r := process fname tt w in
  (forall e w1, handle _ (Listdir fname) w = (inl e, w1) ->
     trace r = [Called (Listdir fname) (inl e)] /\ outcome r = inl e)
  /\ (forall files w1 collections remainder,
        handle _ (Listdir fname) w = (inr files, w1) ->
        clique_assemble files [frames_pattern] 1%nat
        = (collections, remainder) ->
        remainder <> [] ->
        trace r = [Called (Listdir fname) (inr files)]
        /\ exists msg, outcome r = inl (AssertionError msg))
  /\ (forall files w1 collections,
        handle _ (Listdir fname) w = (inr files, w1) ->
        clique_assemble files [frames_pattern] 1%nat = (collections, []) ->
        head collections = None \/ head collections = Some [] ->
        trace r = [Called (Listdir fname) (inr files)]
        /\ exists msg, outcome r = inl (IndexError msg)).
Proof.
  cbv zeta. unfold OpenImageSequence.process.
  split; [|split].
  - intros e w1 Hls. rewrite (bind_call_inl handle _ _ _ _ _ _ Hls).
    split; reflexivity.
  - intros files w1 collections remainder Hls Hasm Hrem.
    rewrite (bind_call_inr handle _ _ _ _ _ _ Hls), Hasm.
    rewrite bool_decide_eq_false_2 by exact Hrem.
    cbn [assert]. rewrite bind_raise. cbn. eauto.
  - intros files w1 collections Hls Hasm Hhead.
    rewrite (bind_call_inr handle _ _ _ _ _ _ Hls), Hasm.
    rewrite bool_decide_eq_true_2 by reflexivity.
    cbn [assert]. rewrite bind_ret.
    destruct collections as [|[|x l] more]; cbn [first].
    + unfold bind at 1 3. cbn. eauto.
    + rewrite bind_ret. unfold bind at 1 2. cbn. eauto.
    + destruct Hhead as [H|H]; discriminate H.
Qed.

(** X4. [open] starts one program, chosen by the platform, and drops
    its exit status. Where [sys.platform] starts with [darwin] its only
    call is [subprocess.call] of [open] on the file; else, where
    [os.name] is [nt], [os.startfile] on the file; else, where [os.name]
    is [posix], [subprocess.call] of [xdg-open] on the file. It raises
    exactly when that call raised, with the same exception, and returns
    None otherwise. On any other platform it makes no call and returns
    None. *)
Theorem open_drops_exit_status (filepath : string) (w : W) :
  let r := open filepath tt w in
  (String.prefix "darwin" sys_platform = true ->
   let reply := handle _ (SubprocessCall ["open"; filepath]) w in
   trace r = [Called (SubprocessCall ["open"; filepath]) (fst reply)]
   /\ outcome r = match fst reply with
                  | inl e => inl e
                  | inr _ => inr tt
                  end
   /\ world r = snd reply)
  /\ (String.prefix "darwin" sys_platform = false -> os_name = "nt" ->
      let reply := handle _ (Startfile filepath) w in
      trace r = [Called (Startfile filepath) (fst reply)]
      /\ outcome r = match fst reply with
                     | inl e => inl e
                     | inr _ => inr tt
                     end
      /\ world r = snd reply)
  /\ (String.prefix "darwin" sys_platform = false -> os_name = "posix" ->
      let reply := handle _ (SubprocessCall ["xdg-open"; filepath]) w in
      trace r = [Called (SubprocessCall ["xdg-open"; filepath]) (fst reply)]
      /\ outcome r = match fst reply with
                     | inl e => inl e
                     | inr _ => inr tt
                     end
      /\ world r = snd reply)
  /\ (String.prefix "darwin" sys_platform = false -> os_name <> "nt" ->
      os_name <> "posix" ->
      trace r = [] /\ outcome r = inr tt /\ world r = w).
Proof.
  cbv zeta. unfold OpenImageSequence.open.
  destruct (String.prefix "darwin" sys_platform).
  - split; [|repeat split; discriminate]. intros _.
    unfold bind, call.
    destruct (handle Z (SubprocessCall ["open"; filepath]) w) as [[e|z] w'];
      cbn; rewrite ?app_nil_r; auto.
  - split; [discriminate|].
    destruct (String.eqb_spec os_name "nt") as [->|Hnt].
    + split; [|split; [discriminate|intros _ Hne; contradiction]].
      intros _ _. unfold call.
      destruct (handle unit (Startfile filepath) w) as [[e|[]] w'];
        cbn; auto.
    + split; [intros _ Heq; contradiction|].
      destruct (String.eqb_spec os_name "posix") as [->|Hpx].
      * split; [|intros _ _ Hne; contradiction]. intros _ _.
        unfold bind, call.
        destruct (handle Z (SubprocessCall ["xdg-open"; filepath]) w)
          as [[e|z] w']; cbn; rewrite ?app_nil_r; auto.
      * split; [intros _ Heq; contradiction|]. intros _ _ _. cbn. auto.
Qed.

End Facts.


End OpenImageSequenceFacts.

(** ** integrate.py *)

Module IntegrateAssetFacts.

Import IntegrateAsset ProgramsFacts.

(** [ext[1:]] is the slice from the second character to the end. *)
Lemma substring_all (str : string) :
  String.substring 0 (String.length str) str = str.
Proof.
  induction str as [|c rest IH]; [reflexivity|].
  cbn. rewrite IH. reflexivity.
Qed.

Lemma drop_first_slice (ext : string) :
  drop_first ext = String.substring 1 (String.length ext - 1)%nat ext.
Proof.
  destruct ext as [|c rest]; [reflexivity|].
  cbn. rewrite Nat.sub_0_r, substring_all. reflexivity.
Qed.

Section Facts.

Context {W : Type}.
Variable handle : forall X : Type, Event X -> W -> (PyExn + X) * W.
Variable lib : PyLib.
Variable environ : gmap string string.
Variable registered_root : string.
Variable instance_name : string.

Local Abbreviation copy_file := (copy_file handle lib).
Local Abbreviation copy_files := (copy_files handle lib).
Local Abbreviation integrate := (integrate handle lib).
Local Abbreviation get_subset := (get_subset handle).
Local Abbreviation register :=
  (register handle lib environ registered_root instance_name).
Local Abbreviation process :=
  (process handle lib environ registered_root instance_name).

(** *** [get_subset] and [create_version_data] *)

(** The runs of [get_subset] that return a subset: it was found, or it
    was inserted and then found by its id. *)
Lemma get_subset_returns (asset : AssetDoc) (s : InstanceData) (w : W)
    (result : option SubsetDoc) :
  outcome (get_subset asset s w) = inr result ->
  store (get_subset asset s w) = s
  /\ exists name,
       d_subset s = Some name
       /\ ((exists subset,
              result = Some subset
              /\ trace (get_subset asset s w)
                 = [Called (FindSubset (asset_id asset) name)
                      (inr (Some subset))])
           \/ (exists _id,
                 trace (get_subset asset s w)
                 = [Called (FindSubset (asset_id asset) name) (inr None);
                    Called (InsertOne (new_subset name asset)) (inr _id);
                    Called (FindById _id) (inr result)])).
Proof.
  unfold IntegrateAsset.get_subset. rewrite bind_get.
  destruct (d_subset s) as [name|] eqn:Hname; cbn [getitem];
    [rewrite bind_ret | rewrite bind_raise; discriminate].
  destruct (handle _ (FindSubset (asset_id asset) name) w) as [[e|found] w1]
    eqn:Hfind;
    [rewrite (bind_call_inl handle _ _ _ _ _ _ Hfind); discriminate|].
  rewrite (bind_call_inr handle _ _ _ _ _ _ Hfind).
  destruct found as [subset|].
  - cbn. intros [= <-]. split; [reflexivity|].
    exists name. split; [reflexivity|]. left. eauto.
  - rewrite bind_get, Hname. cbn [getitem]. rewrite bind_ret.
    destruct (handle _ (InsertOne (new_subset name asset)) w1) as [[e|_id] w2]
      eqn:Hins;
      [rewrite (bind_call_inl handle _ _ _ _ _ _ Hins); discriminate|].
    rewrite (bind_call_inr handle _ _ _ _ _ _ Hins).
    destruct (handle _ (FindById _id) w2) as [[e|again] w3] eqn:Hagain;
      [rewrite (bind_call_inl handle _ _ _ _ _ _ Hagain); discriminate|].
    rewrite (bind_call_inr handle _ _ _ _ _ _ Hagain).
    cbn. intros [= <-]. split; [reflexivity|].
    exists name. split; [reflexivity|]. right. eauto.
Qed.

(** [create_version_data] makes no call and changes nothing. *)
Lemma create_version_data_pure (context : ContextData) (s : InstanceData)
    (w : W) :
  let r := create_version_data lib registered_root context s w in
  trace r = [] /\ store r = s /\ world r = w.
Proof.
  unfold IntegrateAsset.create_version_data. rewrite bind_get.
  destruct (c_currentFile context); cbn [getitem];
    [rewrite bind_ret | rewrite bind_raise; auto].
  destruct (os_path_relpath lib _ registered_root); cbn [lift];
    [rewrite bind_raise; auto | rewrite bind_ret].
  destruct (c_time context); cbn [getitem];
    [rewrite bind_ret | rewrite bind_raise; auto].
  destruct (c_user context); cbn [getitem];
    [rewrite bind_ret | rewrite bind_raise; auto].
  cbn. auto.
Qed.

(** *** The loop of [register] *)

Section Loop.

Variables (stagingdir template_publish : string) (version_id : ObjectId).
Variables (PROJECT ASSET SILO : string) (subset : SubsetDoc).
Variable version : Version.

Local Abbreviation register_file :=
  (register_file lib stagingdir template_publish version_id
     PROJECT ASSET SILO subset version).
Local Abbreviation register_files :=
  (register_files lib stagingdir template_publish version_id
     PROJECT ASSET SILO subset version).
Local Abbreviation representation_of :=
  (representation_of lib version_id PROJECT ASSET SILO subset version).
Local Abbreviation transfer_of :=
  (transfer_of lib stagingdir template_publish).

Lemma register_file_run (template_data : TemplateData) (fname : string)
    (s : InstanceData) (w : W) :
  let r := register_file template_data fname s w in
  trace r = [] /\ world r = w
  /\ forall out, outcome r = inr out ->
       fst out = set_representation template_data
                   (drop_first (snd (os_path_splitext lib fname)))
       /\ snd out = representation_of (d_dependencies s) fname
       /\ exists t0 pair,
            d_transfers s = Some t0
            /\ transfer_of template_data fname pair
            /\ store r = set_transfers s (t0 ++ [pair]).
Proof.
  unfold IntegrateAsset.register_file, IntegrateAsset.transfer_of,
    IntegrateAsset.representation_of.
  destruct (os_path_splitext lib fname) as [name ext]. cbn [snd].
  destruct (str_format lib template_publish
              (set_representation template_data (drop_first ext)))
    as [e|formatted] eqn:Hfmt; cbn [lift];
    [rewrite bind_raise; cbn; repeat split; discriminate | rewrite bind_ret].
  rewrite bind_get.
  destruct (d_transfers s) as [t0|] eqn:Ht0; cbn [getitem];
    [rewrite bind_ret | rewrite bind_raise; cbn; repeat split; discriminate].
  rewrite bind_modify, bind_get. cbn.
  repeat split; try (injection H as <-; reflexivity).
  injection H as <-. exists t0. eexists. split; [reflexivity|].
  split; [|reflexivity]. exists formatted. split; reflexivity.
Qed.

Lemma register_files_run (staging_content : list string) :
  forall (template_data : TemplateData) (representations : list Representation)
         (s : InstanceData) (w : W),
    let r := register_files template_data representations staging_content s w in
    trace r = [] /\ world r = w
    /\ forall out, outcome r = inr out ->
         exists pairs,
           out = representations
                   ++ map (representation_of (d_dependencies s)) staging_content
           /\ Forall2 (transfer_of template_data) staging_content pairs
           /\ ((staging_content = [] /\ store r = s)
               \/ (exists t0, d_transfers s = Some t0
                              /\ store r = set_transfers s (t0 ++ pairs))).
Proof.
  induction staging_content as [|fname rest IH];
    intros template_data representations s w.
  - cbn. repeat split. intros out [= <-]. exists [].
    rewrite app_nil_r. repeat split; [constructor | left; auto].
  - cbn [IntegrateAsset.register_files].
    destruct (register_file_run template_data fname s w) as (Ht & Hw & Hout).
    destruct (bind_run (register_file template_data fname)
                (fun r => register_files (fst r) (representations ++ [snd r]) rest)
                s w) as [(e & He & ->)|(a & Ha & ->)].
    + cbn. rewrite Ht, Hw. repeat split. discriminate.
    + destruct (Hout a Ha) as (Hfst & Hsnd & t0 & pair & Ht0 & Hpair & Hstore).
      rewrite Ht, Hw, Hstore.
      destruct (IH (fst a) (representations ++ [snd a])
                  (set_transfers s (t0 ++ [pair])) w) as (Ht' & Hw' & Hout').
      cbn [prepend trace outcome store world]. rewrite Ht', Hw'.
      repeat split. intros out Hr.
      destruct (Hout' out Hr) as (pairs & -> & HF & Hst).
      exists (pair :: pairs).
      split; [rewrite Hsnd; cbn [map d_dependencies set_transfers];
              rewrite <- app_assoc; reflexivity|].
      split.
      * constructor; [exact Hpair|]. rewrite Hfst in HF.
        eapply Forall2_impl; [exact HF|]. intros x y Hxy. exact Hxy.
      * right. exists t0. split; [exact Ht0|].
        destruct Hst as [[Hnil Hs]|(t1 & Ht1 & Hs)]; rewrite Hs.
        -- subst rest. inversion HF. reflexivity.
        -- cbn in Ht1. injection Ht1 as <-. rewrite <- app_assoc. reflexivity.
Qed.

End Loop.

(** *** [register] *)

(** Tactics that follow a run one statement at a time; [Hr] is the
    equation of the run and [Hout] says that it returned. *)
Ltac dead Hr Hout :=
  rewrite Hr in Hout; cbn in Hout; discriminate Hout.

Ltac step_getitem Hr Hout x H :=
  match type of Hr with
  | context [bind (getitem ?k ?o) ?f ?s ?w] =>
      destruct o as [x|] eqn:H; cbn [getitem] in Hr;
      [ rewrite bind_ret in Hr | rewrite bind_raise in Hr; dead Hr Hout ]
  end.

Ltac step_assert Hr Hout H :=
  match type of Hr with
  | context [bind (assert ?c ?m) ?f ?s ?w] =>
      destruct c eqn:H; cbn [assert] in Hr;
      [ rewrite bind_ret in Hr | rewrite bind_raise in Hr; dead Hr Hout ]
  end.

Ltac step_call Hr Hout x w' H :=
  match type of Hr with
  | context [bind (call ?h ?ev) ?f ?s ?w] =>
      let e := fresh "e" in
      destruct (h _ ev w) as [[e|x] w'] eqn:H;
      [ rewrite (bind_call_inl h ev f s w w' e H) in Hr; dead Hr Hout
      | rewrite (bind_call_inr h ev f s w w' x H) in Hr ]
  end.

Ltac step_sub Hr Hout m a Ha :=
  match type of Hr with
  | context [bind m ?f ?s ?w] =>
      let e := fresh "e" in
      let He := fresh "He" in
      let Heq := fresh "Heq" in
      destruct (bind_run m f s w) as [(e & He & Heq)|(a & Ha & Heq)];
      rewrite Heq in Hr; clear Heq; [ dead Hr Hout | ]
  end.

(** The values [register] resolves before it writes, and what it wrote,
    for a run that returns; the subset is the document the database
    answered with, at once or after the subset was inserted. *)
Lemma register_returns_full (context : ContextData) (s : InstanceData) (w : W)
    (reps : list Representation) :
  outcome (register context s w) = inr reps ->
  exists PROJECT ASSET SILO stagingdir project asset name subset latest
         version_data version_id files pairs subset_trace,
    environ !! "AVALON_PROJECT" = Some PROJECT
    /\ ASSET = (if truthy (d_asset s)
                then default EmptyString (d_asset s)
                else default EmptyString (environ !! "AVALON_ASSET"))
    /\ environ !! "AVALON_SILO" = Some SILO
    /\ d_stagingDir s = Some stagingdir
    /\ truthy (Some stagingdir) = true
    /\ d_assumedTemplateData s
       = Some {| assumed_version := next_version_of latest |}
    /\ d_subset s = Some name
    /\ (subset_trace
        = [Called (FindSubset (asset_id asset) name) (inr (Some subset))]
        \/ exists _id,
             subset_trace
             = [Called (FindSubset (asset_id asset) name) (inr None);
                Called (InsertOne (new_subset name asset)) (inr _id);
                Called (FindById _id) (inr (Some subset))])
    /\ let version :=
         create_version subset (next_version_of latest)
           [environ !! "AVALON_LOCATION"] version_data in
       let template_data :=
         {| t_root := registered_root;
            t_project := PROJECT;
            t_silo := SILO;
            t_asset := ASSET;
            t_subset := subset_name subset;
            t_version := ver_name version;
            t_representation := EmptyString |} in
       trace (register context s w)
       = Called FindProject (inr (Some project))
           :: Called (FindAsset ASSET (project_id project)) (inr (Some asset))
           :: subset_trace
           ++ [Called (FindLatestVersion (subset_id subset)) (inr latest);
               Called (InsertOne (VersionDocument version)) (inr version_id);
               Called (Listdir stagingdir) (inr files)]
       /\ reps = map (representation_of lib version_id PROJECT ASSET SILO
                        subset version (d_dependencies s)) files
       /\ Forall2 (transfer_of lib stagingdir
                     (project_template_publish project) template_data)
            files pairs
       /\ ((files = [] /\ store (register context s w)
                          = set_representations s reps)
           \/ (exists t0,
                 d_transfers s = Some t0
                 /\ store (register context s w)
                    = set_representations
                        (set_transfers s (t0 ++ pairs)) reps)).
Proof.
  intros Hout. remember (register context s w) as r eqn:Hr.
  unfold IntegrateAsset.register in Hr.
  step_getitem Hr Hout PROJECT HPROJECT.
  rewrite bind_get in Hr.
  match type of Hr with
  | context [bind (if ?c then ret ?a else getitem ?k ?o) ?f ?s0 ?w0] =>
      destruct (bind_or_getitem c a k o f s0 w0) as [Heq|Heq];
      rewrite Heq in Hr; clear Heq; [|dead Hr Hout]
  end.
  step_getitem Hr Hout SILO HSILO.
  step_getitem Hr Hout results Hresults.
  step_assert Hr Hout Hatomic.
  step_assert Hr Hout Hstaging.
  destruct (d_stagingDir s) as [stagingdir|] eqn:Hdir; [|discriminate Hstaging].
  cbn [default from_option id] in Hr.
  step_call Hr Hout project w1 Hproject.
  destruct project as [project|];
    [rewrite bind_ret in Hr | rewrite bind_raise in Hr; dead Hr Hout].
  step_call Hr Hout asset w2 Hasset.
  step_assert Hr Hout Hfound.
  step_getitem Hr Hout asset_doc Hdoc.
  step_sub Hr Hout (get_subset asset_doc) subset_opt Hsubset.
  destruct (get_subset_returns asset_doc s w2 subset_opt Hsubset)
    as (Hstore & name & Hname & Hsub).
  rewrite Hstore in Hr.
  destruct subset_opt as [subset|];
    [rewrite bind_ret in Hr | rewrite bind_raise in Hr; dead Hr Hout].
  step_call Hr Hout latest w4 Hlatest.
  rewrite bind_get in Hr.
  step_getitem Hr Hout assumed Hassumed.
  destruct (assumed_version assumed =? next_version_of latest) eqn:Hversion;
    cbn [negb] in Hr;
    [rewrite bind_ret in Hr | rewrite bind_raise in Hr; dead Hr Hout].
  apply Z.eqb_eq in Hversion.
  step_sub Hr Hout (create_version_data (W:=W) lib registered_root context)
    version_data Hdata.
  destruct (create_version_data_pure context s w4) as (Hvt & Hvs & Hvw).
  rewrite Hvt, Hvs, Hvw in Hr. rewrite prepend_nil in Hr.
  step_call Hr Hout vid w5 Hinsert.
  step_call Hr Hout files w6 Hlist.
  match type of Hr with
  | context [bind (IntegrateAsset.register_files ?l ?d ?t ?v ?P ?A ?S ?su ?ve
                     ?td ?rs ?fs) ?f ?s0 ?w0] =>
      destruct (bind_run (IntegrateAsset.register_files l d t v P A S su ve
                            td rs fs) f s0 w0)
        as [(e & He & Heq)|(out & Hfiles & Heq)];
      rewrite Heq in Hr; clear Heq; [dead Hr Hout|];
      destruct (register_files_run d t v P A S su ve fs td rs s0 w0)
        as (Hft & Hfw & Hfout);
      destruct (Hfout out Hfiles) as (pairs & Hreps & Hpairs & Hfstore)
  end.
  rewrite Hft, Hfw in Hr. rewrite prepend_nil in Hr.
  rewrite bind_modify in Hr. cbn [ret] in Hr.
  rewrite Hr in Hout. cbn in Hout. injection Hout as <-.
  exists PROJECT.
  eexists _, SILO, stagingdir, project, asset_doc, name, subset, latest,
    version_data, vid, files, pairs,
    (trace (get_subset asset_doc s w2)).
  split; [reflexivity|]. split; [reflexivity|]. split; [reflexivity|].
  split; [reflexivity|]. split; [exact Hstaging|].
  split; [destruct assumed as [v]; cbn in Hversion; rewrite Hversion;
          reflexivity|].
  split; [exact Hname|].
  split.
  { destruct Hsub as [(sub & Hsome & ->)|(_id & ->)].
    - left. injection Hsome as <-. reflexivity.
    - right. exists _id. reflexivity. }
  cbv zeta. rewrite Hr. cbn [trace prepend store]. rewrite app_nil_r.
  split.
  { reflexivity. }
  split; [rewrite Hreps; reflexivity|].
  split; [exact Hpairs|].
  destruct Hfstore as [[Hnil Hs]|(t0 & Ht0 & Hs)]; rewrite Hs.
  - left. split; [exact Hnil|]. reflexivity.
  - right. exists t0. split; [exact Ht0|]. reflexivity.
Qed.

(** The values [register] resolves before it writes, and what it wrote,
    for a run that returns. *)
Lemma register_returns (context : ContextData) (s : InstanceData) (w : W)
    (reps : list Representation) :
  outcome (register context s w) = inr reps ->
  exists PROJECT ASSET SILO stagingdir project asset subset latest
         version_data version_id files pairs subset_trace,
    environ !! "AVALON_PROJECT" = Some PROJECT
    /\ ASSET = (if truthy (d_asset s)
                then default EmptyString (d_asset s)
                else default EmptyString (environ !! "AVALON_ASSET"))
    /\ environ !! "AVALON_SILO" = Some SILO
    /\ d_stagingDir s = Some stagingdir
    /\ truthy (Some stagingdir) = true
    /\ d_assumedTemplateData s
       = Some {| assumed_version := next_version_of latest |}
    /\ Forall (fun e => is_rmtree e = false /\ raised_by e = None)
         subset_trace
    /\ let version :=
         create_version subset (next_version_of latest)
           [environ !! "AVALON_LOCATION"] version_data in
       let template_data :=
         {| t_root := registered_root;
            t_project := PROJECT;
            t_silo := SILO;
            t_asset := ASSET;
            t_subset := subset_name subset;
            t_version := ver_name version;
            t_representation := EmptyString |} in
       trace (register context s w)
       = Called FindProject (inr (Some project))
           :: Called (FindAsset ASSET (project_id project)) (inr (Some asset))
           :: subset_trace
           ++ [Called (FindLatestVersion (subset_id subset)) (inr latest);
               Called (InsertOne (VersionDocument version)) (inr version_id);
               Called (Listdir stagingdir) (inr files)]
       /\ reps = map (representation_of lib version_id PROJECT ASSET SILO
                        subset version (d_dependencies s)) files
       /\ Forall2 (transfer_of lib stagingdir
                     (project_template_publish project) template_data)
            files pairs
       /\ ((files = [] /\ store (register context s w)
                          = set_representations s reps)
           \/ (exists t0,
                 d_transfers s = Some t0
                 /\ store (register context s w)
                    = set_representations
                        (set_transfers s (t0 ++ pairs)) reps)).
Proof.
  intros Hout.
  destruct (register_returns_full context s w reps Hout)
    as (PROJECT & ASSET & SILO & stagingdir & project & asset & name & subset
        & latest & version_data & vid & files & pairs & subset_trace
        & HP & HA & HS & Hdir & Htruthy & Hassumed & _ & Hsub & Hrest).
  exists PROJECT, ASSET, SILO, stagingdir, project, asset, subset, latest,
    version_data, vid, files, pairs, subset_trace.
  split; [exact HP|]. split; [exact HA|]. split; [exact HS|].
  split; [exact Hdir|]. split; [exact Htruthy|]. split; [exact Hassumed|].
  split; [|exact Hrest].
  destruct Hsub as [->|[_id ->]]; repeat constructor.
Qed.

(** C1. In every run of [register] that returns, the query for the
    latest version of the subset was answered with some [latest], the
    version document inserted next belongs to that subset and is named 1
    when [latest] is no document and the name of [latest] plus 1
    otherwise; the assumed version equals that number and every
    representation carries it. *)
Theorem register_next_version (context : ContextData) (s : InstanceData)
    (w : W) (reps : list Representation) :
  outcome (register context s w) = inr reps ->
  exists before subset latest version vid stagingdir files,
    trace (register context s w)
    = before
        ++ [Called (FindLatestVersion (subset_id subset)) (inr latest);
            Called (InsertOne (VersionDocument version)) (inr vid);
            Called (Listdir stagingdir) (inr files)]
    /\ ver_parent version = subset_id subset
    /\ ver_name version
       = match latest with
         | None => 1
         | Some latest_version => version_name latest_version + 1
         end
    /\ d_assumedTemplateData s
       = Some {| assumed_version := ver_name version |}
    /\ Forall (fun rep => rc_version (rep_context rep) = ver_name version)
         reps.
Proof.
  intros Hout.
  destruct (register_returns context s w reps Hout)
    as (PROJECT & ASSET & SILO & stagingdir & project & asset & subset
        & latest & version_data & vid & files & pairs & subset_trace
        & _ & _ & _ & _ & _ & Hassumed & _ & Htrace & Hreps & _).
  cbv zeta in Htrace, Hreps.
  eexists (_ :: _ :: subset_trace), subset, latest, _, vid, stagingdir, files.
  split; [exact Htrace|]. split; [reflexivity|].
  split; [cbn; destruct latest; unfold next_version_of; lia|].
  split; [exact Hassumed|].
  rewrite Hreps. apply Forall_forall. intros rep Hin.
  apply list_elem_of_fmap in Hin as (fname & -> & _). reflexivity.
Qed.

(** C5. In every run of [register] that returns, the pair appended to
    the transfers for a staged file has as destination the publish
    template of the project formatted with the root, the project, the
    silo, the asset, the name of the subset the database answered with,
    the name of the version inserted and the extension of the file from
    its second character on, that is without its leading dot; save for a
    file named [.metadata.json], which goes under the directory part of
    that path with its own name. *)
Theorem register_destinations (context : ContextData) (s : InstanceData)
    (w : W) (reps : list Representation) :
  outcome (register context s w) = inr reps ->
  exists PROJECT SILO stagingdir project asset name subset subset_calls
         latest version vid files pairs,
    environ !! "AVALON_PROJECT" = Some PROJECT
    /\ environ !! "AVALON_SILO" = Some SILO
    /\ d_stagingDir s = Some stagingdir
    /\ d_subset s = Some name
    /\ let ASSET :=
         if truthy (d_asset s) then default EmptyString (d_asset s)
         else default EmptyString (environ !! "AVALON_ASSET") in
       trace (register context s w)
       = Called FindProject (inr (Some project))
           :: Called (FindAsset ASSET (project_id project)) (inr (Some asset))
           :: subset_calls
           ++ [Called (FindLatestVersion (subset_id subset)) (inr latest);
               Called (InsertOne (VersionDocument version)) (inr vid);
               Called (Listdir stagingdir) (inr files)]
       /\ (subset_calls
           = [Called (FindSubset (asset_id asset) name) (inr (Some subset))]
           \/ exists _id,
                subset_calls
                = [Called (FindSubset (asset_id asset) name) (inr None);
                   Called (InsertOne (new_subset name asset)) (inr _id);
                   Called (FindById _id) (inr (Some subset))])
       /\ length pairs = length files
       /\ (files = []
           \/ exists t0, d_transfers s = Some t0
                         /\ d_transfers (store (register context s w))
                            = Some (t0 ++ pairs))
       /\ forall (i : nat) (fname : string),
            files !! i = Some fname ->
            let ext := snd (os_path_splitext lib fname) in
            exists formatted,
              str_format lib (project_template_publish project)
                {| t_root := registered_root;
                   t_project := PROJECT;
                   t_silo := SILO;
                   t_asset := ASSET;
                   t_subset := subset_name subset;
                   t_version := ver_name version;
                   t_representation :=
                     String.substring 1 (String.length ext - 1)%nat ext |}
              = inr formatted
              /\ pairs !! i
                 = Some (os_path_join lib stagingdir fname,
                         if String.eqb fname ".metadata.json"
                         then os_path_join lib
                                (os_path_dirname lib formatted) fname
                         else formatted).
Proof.
  intros Hout.
  destruct (register_returns_full context s w reps Hout)
    as (PROJECT & ASSET & SILO & stagingdir & project & asset & name & subset
        & latest & version_data & vid & files & pairs & subset_trace
        & HP & HA & HS & Hdir & _ & _ & Hname & Hsub & Htrace & _ & Hpairs
        & Hstore).
  cbv zeta in Htrace, Hpairs. subst ASSET.
  exists PROJECT, SILO, stagingdir, project, asset, name, subset,
    subset_trace, latest.
  eexists _, vid, files, pairs.
  split; [exact HP|]. split; [exact HS|]. split; [exact Hdir|].
  split; [exact Hname|].
  cbv zeta. split; [exact Htrace|].
  split; [exact Hsub|].
  split; [symmetry; eapply Forall2_length; exact Hpairs|].
  split.
  - destruct Hstore as [[Hnil _]|(t0 & Ht0 & ->)]; [left; exact Hnil|].
    right. exists t0. split; [exact Ht0 | reflexivity].
  - intros i fname Hi.
    destruct (Forall2_lookup_l _ _ _ _ _ Hpairs Hi)
      as (pair & Hpair & formatted & Hfmt & ->).
    exists formatted. rewrite <- drop_first_slice.
    split; [exact Hfmt | exact Hpair].
Qed.

(** *** [copy_file] *)

(** The run of [copy_file], by what [makedirs] and [copy] answer. *)
Lemma copy_file_run (src dst : string) (s : InstanceData) (w w1 w2 : W)
    (mk cp : PyExn + unit) :
  handle _ (Makedirs (os_path_dirname lib dst)) w = (mk, w1) ->
  handle _ (Copy src dst) w1 = (cp, w2) ->
  copy_file src dst s w
  = match mk with
    | inl e =>
        if bool_decide (e = OSError EEXIST)
        then MkRun [Called (Makedirs (os_path_dirname lib dst)) mk;
                    Called (Copy src dst) cp] cp s w2
        else MkRun [Called (Makedirs (os_path_dirname lib dst)) mk]
               (inl e) s w1
    | inr _ =>
        MkRun [Called (Makedirs (os_path_dirname lib dst)) mk;
               Called (Copy src dst) cp] cp s w2
    end.
Proof.
  intros Hmk Hcp. unfold IntegrateAsset.copy_file, bind, try_except.
  rewrite (call_run handle _ s _ _ _ Hmk). cbn [outcome trace store world].
  destruct mk as [e|[]].
  - destruct e as [| | | | | |n|]; try reflexivity.
    destruct (Z.eqb_spec n EEXIST) as [->|Hn].
    + rewrite bool_decide_eq_true_2 by reflexivity.
      cbn. rewrite (call_run handle _ s _ _ _ Hcp). reflexivity.
    + rewrite bool_decide_eq_false_2 by congruence. reflexivity.
  - cbn. rewrite (call_run handle _ s _ _ _ Hcp). reflexivity.
Qed.

(** C2, amended. [copy_file] swallows the exception of [makedirs]
    exactly when it is an OSError whose errno is EEXIST, and then copies;
    it passes on every other exception of [makedirs], an OSError with
    another errno as well as an exception that is no OSError, without
    copying; after a [makedirs] that returned it copies. So it raises
    exactly when [makedirs] raised anything but an EEXIST OSError or the
    copy raised. *)
Theorem copy_file_raises_iff (src dst : string) (s : InstanceData) (w : W) :
  let r := copy_file src dst s w in
  let dirname := os_path_dirname lib dst in
  (forall w1, handle _ (Makedirs dirname) w = (inl (OSError EEXIST), w1) ->
     exists cp,
       trace r = [Called (Makedirs dirname) (inl (OSError EEXIST));
                  Called (Copy src dst) cp]
       /\ outcome r = cp)
  /\ (forall e w1, handle _ (Makedirs dirname) w = (inl e, w1) ->
       e <> OSError EEXIST ->
       trace r = [Called (Makedirs dirname) (inl e)] /\ outcome r = inl e)
  /\ (forall w1, handle _ (Makedirs dirname) w = (inr tt, w1) ->
       exists cp,
         trace r = [Called (Makedirs dirname) (inr tt);
                    Called (Copy src dst) cp]
         /\ outcome r = cp)
  /\ (raises (outcome r)
      <-> (exists en x, en ∈ trace r /\ is_makedirs en = true
                        /\ raised_by en = Some x /\ x <> OSError EEXIST)
          \/ (exists en x, en ∈ trace r /\ is_copy en = true
                            /\ raised_by en = Some x)).
Proof.
  intros r dirname. subst r.
  destruct (handle _ (Makedirs dirname) w) as [mk w1] eqn:Hmk.
  destruct (handle _ (Copy src dst) w1) as [cp w2] eqn:Hcp.
  rewrite (copy_file_run src dst s w w1 w2 mk cp Hmk Hcp). fold dirname.
  split; [|split; [|split; [|split]]].
  - intros w1' [= -> ->]. exists cp.
    rewrite bool_decide_eq_true_2 by reflexivity. split; reflexivity.
  - intros e w1' [= -> ->] Hne.
    rewrite bool_decide_eq_false_2 by assumption. split; reflexivity.
  - intros w1' [= -> ->]. exists cp. split; reflexivity.
  - intros [x Hx]. destruct mk as [e|[]].
    + destruct (bool_decide (e = OSError EEXIST)) eqn:He.
      * right. exists (Called (Copy src dst) cp), x. simpl in Hx. subst cp.
        repeat split. right. left.
      * left. apply bool_decide_eq_false in He.
        exists (Called (Makedirs dirname) (inl e)), e.
        repeat split; [left | assumption].
    + right. exists (Called (Copy src dst) cp), x. simpl in Hx. subst cp.
      repeat split. right. left.
  - intros [(en & x & Hin & Hmkd & Hr & Hne)|(en & x & Hin & Hc & Hr)].
    + destruct mk as [e|[]].
      * destruct (bool_decide (e = OSError EEXIST)) eqn:He.
        -- apply bool_decide_eq_true in He. subst e. exfalso.
           simpl in Hin. apply elem_of_cons in Hin as [->|Hin].
           ++ simpl in Hr. congruence.
           ++ apply elem_of_cons in Hin as [->|Hin]; [discriminate|].
              inversion Hin.
        -- exists e. reflexivity.
      * exfalso. simpl in Hin. apply elem_of_cons in Hin as [->|Hin].
        -- discriminate.
        -- apply elem_of_cons in Hin as [->|Hin]; [discriminate|].
           inversion Hin.
    + assert (en = Called (Copy src dst) cp) as ->.
      { destruct mk as [e|[]]; [destruct (bool_decide (e = OSError EEXIST))|];
          simpl in Hin;
          repeat (apply elem_of_cons in Hin as [->|Hin]; [try discriminate|]);
          try reflexivity; inversion Hin. }
      simpl in Hr. destruct cp as [e'|]; [|discriminate].
      destruct mk as [e|[]]; [destruct (bool_decide (e = OSError EEXIST)) eqn:He|].
      * exists e'. reflexivity.
      * exists e. reflexivity.
      * exists e'. reflexivity.
Qed.

(** *** [integrate] *)

Ltac calls_tac :=
  repeat first
    [ apply calls_all_ret | apply calls_all_raise | apply calls_all_get
    | apply calls_all_modify | apply calls_all_lift
    | apply calls_all_getitem | apply calls_all_assert
    | apply calls_all_call; intros; (reflexivity || (split; reflexivity))
    | apply calls_all_bind; [|intros ?]
    | apply calls_all_try_except; [|intros ?]
    | match goal with
      | |- calls_all _ (match ?x with _ => _ end) => destruct x
      end ].

Lemma copy_file_calls (src dst : string) :
  calls_all (fun e => is_transfer e = true) (copy_file src dst).
Proof. unfold IntegrateAsset.copy_file. calls_tac. Qed.

Lemma copy_files_calls (traffic : list (string * string)) :
  calls_all (fun e => is_transfer e = true) (copy_files traffic).
Proof.
  induction traffic as [|[src dst] rest IH]; cbn [IntegrateAsset.copy_files].
  - calls_tac.
  - apply calls_all_bind; [apply copy_file_calls | intros _; exact IH].
Qed.

(** A call of [copy_file] that returns has copied. *)
Lemma copy_file_returns (src dst : string) (s : InstanceData) (w : W) :
  outcome (copy_file src dst s w) = inr tt ->
  Called (Copy src dst) (inr tt) ∈ trace (copy_file src dst s w)
  /\ store (copy_file src dst s w) = s.
Proof.
  destruct (handle _ (Makedirs (os_path_dirname lib dst)) w) as [mk w1] eqn:Hmk.
  destruct (handle _ (Copy src dst) w1) as [cp w2] eqn:Hcp.
  rewrite (copy_file_run src dst s w w1 w2 mk cp Hmk Hcp).
  destruct mk as [e|[]]; [destruct (bool_decide (e = OSError EEXIST))|];
    cbn; intros H; try discriminate; subst cp;
    (split; [right; left | reflexivity]).
Qed.

(** A call of [copy_file] that raises in [copy] ends with that
    exception. *)
Lemma copy_file_copy_raised (src dst : string) (s : InstanceData) (w : W)
    (en : Entry) (x : PyExn) :
  en ∈ trace (copy_file src dst s w) -> is_copy en = true ->
  raised_by en = Some x -> outcome (copy_file src dst s w) = inl x.
Proof.
  destruct (handle _ (Makedirs (os_path_dirname lib dst)) w) as [mk w1] eqn:Hmk.
  destruct (handle _ (Copy src dst) w1) as [cp w2] eqn:Hcp.
  rewrite (copy_file_run src dst s w w1 w2 mk cp Hmk Hcp).
  destruct mk as [e|[]]; [destruct (bool_decide (e = OSError EEXIST))|];
    cbn; intros Hin Hc Hr;
    repeat (apply elem_of_cons in Hin as [->|Hin]; [try discriminate|]);
    try (inversion Hin; fail);
    destruct cp; cbn in Hr; congruence.
Qed.

Lemma copy_files_returns (traffic : list (string * string)) :
  forall (s : InstanceData) (w : W),
    outcome (copy_files traffic s w) = inr tt ->
    store (copy_files traffic s w) = s
    /\ Forall (fun pair => Called (Copy (fst pair) (snd pair)) (inr tt)
                             ∈ trace (copy_files traffic s w)) traffic.
Proof.
  induction traffic as [|[src dst] rest IH]; intros s w;
    cbn [IntegrateAsset.copy_files].
  - intros _. split; [reflexivity | constructor].
  - destruct (bind_run (copy_file src dst) (fun _ => copy_files rest) s w)
      as [(e & He & ->)|([] & Ha & ->)]; [discriminate|].
    cbn [prepend outcome store trace]. intros Hrest.
    destruct (copy_file_returns src dst s w Ha) as [Hin Hs].
    rewrite Hs in *. destruct (IH s _ Hrest) as [Hs' HF].
    split; [exact Hs'|]. constructor.
    + apply elem_of_app. left. exact Hin.
    + eapply Forall_impl; [exact HF|]. intros pair Hp.
      apply elem_of_app. right. exact Hp.
Qed.

Lemma copy_files_copy_raised (traffic : list (string * string)) :
  forall (s : InstanceData) (w : W) (en : Entry) (x : PyExn),
    en ∈ trace (copy_files traffic s w) -> is_copy en = true ->
    raised_by en = Some x -> outcome (copy_files traffic s w) = inl x.
Proof.
  induction traffic as [|[src dst] rest IH]; intros s w en x;
    cbn [IntegrateAsset.copy_files].
  - cbn. intros Hin. inversion Hin.
  - destruct (bind_run (copy_file src dst) (fun _ => copy_files rest) s w)
      as [(e & He & ->)|([] & Ha & ->)]; cbn [prepend outcome store trace].
    + intros Hin Hc Hr.
      rewrite <- (copy_file_copy_raised src dst s w en x Hin Hc Hr).
      symmetry. exact He.
    + intros Hin Hc Hr. apply elem_of_app in Hin as [Hin|Hin].
      * rewrite (copy_file_copy_raised src dst s w en x Hin Hc Hr) in Ha.
        discriminate.
      * eapply IH; eassumption.
Qed.

(** The run of [integrate]: nothing when a key is missing, else the
    insertion of the representations and, when that returned, the copies. *)
Lemma integrate_run (s : InstanceData) (w : W) :
  (trace (integrate s w) = [] /\ raises (outcome (integrate s w)))
  \/ exists traffic reps reply w1,
       d_transfers s = Some traffic
       /\ d_representations s = Some reps
       /\ handle _ (InsertMany (map RepresentationDocument reps)) w
          = (reply, w1)
       /\ integrate s w
          = match reply with
            | inl e =>
                MkRun [Called (InsertMany (map RepresentationDocument reps))
                         (inl e)] (inl e) s w1
            | inr _ =>
                prepend [Called (InsertMany (map RepresentationDocument reps))
                           (inr tt)] (copy_files traffic s w1)
            end.
Proof.
  unfold IntegrateAsset.integrate. rewrite bind_get.
  destruct (d_transfers s) as [traffic|]; cbn [getitem];
    [rewrite bind_ret | rewrite bind_raise; left; split; [reflexivity|eexists; reflexivity]].
  destruct (d_representations s) as [reps|]; cbn [getitem];
    [rewrite bind_ret | rewrite bind_raise; left; split; [reflexivity|eexists; reflexivity]].
  right.
  destruct (handle _ (InsertMany (map RepresentationDocument reps)) w)
    as [[e|[]] w1] eqn:Hins.
  - rewrite (bind_call_inl handle _ _ _ _ _ _ Hins). eauto 10.
  - rewrite (bind_call_inr handle _ _ _ _ _ _ Hins). eauto 10.
Qed.

(** A run of [integrate] that returns has inserted the representations
    and copied every transfer. *)
Lemma integrate_returns (s : InstanceData) (w : W) :
  outcome (integrate s w) = inr tt ->
  exists traffic reps copies,
    d_transfers s = Some traffic
    /\ d_representations s = Some reps
    /\ trace (integrate s w)
       = Called (InsertMany (map RepresentationDocument reps)) (inr tt)
           :: copies
    /\ Forall (fun pair => Called (Copy (fst pair) (snd pair)) (inr tt)
                             ∈ copies) traffic
    /\ Forall (fun e => is_transfer e = true) copies
    /\ store (integrate s w) = s.
Proof.
  destruct (integrate_run s w)
    as [[_ [e He]]|(traffic & reps & reply & w1 & Ht & Hr & Hins & ->)].
  - rewrite He. discriminate.
  - destruct reply as [e|[]]; [discriminate|].
    cbn [prepend outcome trace store]. intros Hout.
    destruct (copy_files_returns traffic s w1 Hout) as [Hs HF].
    exists traffic, reps, (trace (copy_files traffic s w1)).
    repeat split; try assumption. apply copy_files_calls.
Qed.

(** C6. In every run of [register] that returns, each file listed in the
    staging directory got one transfer pair, from its path in that
    directory, and one representation, whose parent is the id of the
    version just inserted and whose name is the extension of the file
    from its second character on, that is without the dot; the pairs were
    appended to the transfers and the
    representations stored. A run of [integrate] that then returns has
    inserted those representations and copied the source of every
    transfer to its destination. *)
Theorem register_then_integrate (context : ContextData) (s : InstanceData)
    (w : W) (reps : list Representation) :
  let r1 := register context s w in
  outcome r1 = inr reps ->
  exists before version vid stagingdir files pairs,
    trace r1
    = before ++ [Called (InsertOne (VersionDocument version)) (inr vid);
                 Called (Listdir stagingdir) (inr files)]
    /\ length pairs = length files
    /\ length reps = length files
    /\ (forall (i : nat) (fname : string),
          files !! i = Some fname ->
          exists dst rep,
            pairs !! i = Some (os_path_join lib stagingdir fname, dst)
            /\ reps !! i = Some rep
            /\ rep_parent rep = vid
            /\ let ext := snd (os_path_splitext lib fname) in
               rep_name rep
               = String.substring 1 (String.length ext - 1)%nat ext)
    /\ d_representations (store r1) = Some reps
    /\ ((files = [] /\ d_transfers (store r1) = d_transfers s)
        \/ exists t0, d_transfers s = Some t0
                      /\ d_transfers (store r1) = Some (t0 ++ pairs))
    /\ let r2 := integrate (store r1) (world r1) in
       (outcome r2 = inr tt ->
        exists traffic copies,
          d_transfers (store r1) = Some traffic
          /\ trace r2
             = Called (InsertMany (map RepresentationDocument reps)) (inr tt)
                 :: copies
          /\ Forall (fun pair => Called (Copy (fst pair) (snd pair)) (inr tt)
                                   ∈ copies) traffic).
Proof.
  intros r1 Hout. subst r1.
  destruct (register_returns context s w reps Hout)
    as (PROJECT & ASSET & SILO & stagingdir & project & asset & subset
        & latest & version_data & vid & files & pairs & subset_trace
        & _ & _ & _ & _ & _ & _ & _ & Htrace & Hreps & Hpairs & Hstore).
  cbv zeta in Htrace, Hreps, Hpairs.
  exists (Called FindProject (inr (Some project))
            :: Called (FindAsset ASSET (project_id project)) (inr (Some asset))
            :: subset_trace
            ++ [Called (FindLatestVersion (subset_id subset)) (inr latest)]).
  eexists _, vid, stagingdir, files, pairs.
  split; [rewrite Htrace; cbn [app]; rewrite <- app_assoc; reflexivity|].
  split; [symmetry; eapply Forall2_length; exact Hpairs|].
  split; [rewrite Hreps; apply length_map|].
  split.
  { intros i fname Hi.
    destruct (Forall2_lookup_l _ _ _ _ _ Hpairs Hi)
      as (pair & Hpair & formatted & _ & ->).
    eexists _, _. split; [exact Hpair|].
    split; [rewrite Hreps, list_lookup_fmap, Hi; reflexivity|].
    split; [reflexivity|].
    cbv zeta. rewrite <- drop_first_slice. reflexivity. }
  assert (d_representations (store (register context s w)) = Some reps) as Hd.
  { destruct Hstore as [[_ ->]|(t0 & _ & ->)]; reflexivity. }
  split; [exact Hd|].
  split.
  { destruct Hstore as [[Hnil ->]|(t0 & Ht0 & ->)].
    - left. split; [exact Hnil | reflexivity].
    - right. exists t0. split; [exact Ht0 | reflexivity]. }
  cbv zeta. intros Hout2.
  destruct (integrate_returns _ _ Hout2)
    as (traffic & reps' & copies & Ht & Hr & Htr & HF & _).
  rewrite Hd in Hr. injection Hr as <-.
  exists traffic, copies. auto.
Qed.

(** *** [process] *)

Lemma register_file_calls (P : Entry -> Prop)
    (stagingdir template_publish : string) (vid : ObjectId)
    (PROJECT ASSET SILO : string) (subset : SubsetDoc) (version : Version)
    (template_data : TemplateData) (fname : string) :
  calls_all P
    (register_file (W:=W) lib stagingdir template_publish vid PROJECT ASSET
       SILO subset version template_data fname).
Proof.
  unfold IntegrateAsset.register_file.
  destruct (os_path_splitext lib fname). calls_tac.
Qed.

Lemma register_files_calls (P : Entry -> Prop)
    (stagingdir template_publish : string) (vid : ObjectId)
    (PROJECT ASSET SILO : string) (subset : SubsetDoc) (version : Version)
    (staging_content : list string) :
  forall (template_data : TemplateData) (reps : list Representation),
    calls_all P
      (register_files (W:=W) lib stagingdir template_publish vid PROJECT
         ASSET SILO subset version template_data reps staging_content).
Proof.
  induction staging_content as [|fname rest IH]; intros template_data reps;
    cbn [IntegrateAsset.register_files].
  - calls_tac.
  - apply calls_all_bind; [apply register_file_calls | intros r; apply IH].
Qed.

(** [register] and [integrate] never call [rmtree]. *)
Lemma register_calls (context : ContextData) :
  calls_all (fun e => is_rmtree e = false) (register context).
Proof.
  unfold IntegrateAsset.register, IntegrateAsset.get_subset,
    IntegrateAsset.create_version_data.
  calls_tac. apply register_files_calls.
Qed.

Lemma integrate_calls :
  calls_all (fun e => is_rmtree e = false) integrate.
Proof.
  unfold IntegrateAsset.integrate. calls_tac.
  intros s w. eapply Forall_impl; [apply copy_files_calls|].
  intros [X ev reply]. destruct ev; cbn; congruence.
Qed.

(** [register] leaves the staging directory entry of the instance as it
    was. *)
Lemma register_keeps_stagingDir (context : ContextData) (s : InstanceData)
    (w : W) (reps : list Representation) :
  outcome (register context s w) = inr reps ->
  exists stagingdir,
    d_stagingDir s = Some stagingdir
    /\ d_stagingDir (store (register context s w)) = Some stagingdir.
Proof.
  intros Hout.
  destruct (register_returns context s w reps Hout)
    as (PROJECT & ASSET & SILO & stagingdir & project & asset & subset
        & latest & version_data & vid & files & pairs & subset_trace
        & _ & _ & _ & Hdir & _ & _ & _ & _ & _ & _ & Hstore).
  exists stagingdir. split; [exact Hdir|].
  destruct Hstore as [[_ ->]|(t0 & _ & ->)]; exact Hdir.
Qed.

(** C10. [process] calls [rmtree] exactly when [register] and then
    [integrate] both return; it then calls it once, last, on the staging
    directory of the instance. When either of them raises, [process]
    ends with that exception after the calls made so far, none of which
    is [rmtree]. *)
Theorem process_removes_staging (context : ContextData) (s : InstanceData)
    (w : W) :
  let r1 := register context s w in
  let r2 := integrate (store r1) (world r1) in
  let r := process context s w in
  ((exists en, en ∈ trace r /\ is_rmtree en = true)
   <-> (exists reps, outcome r1 = inr reps) /\ outcome r2 = inr tt)
  /\ (forall reps, outcome r1 = inr reps -> outcome r2 = inr tt ->
      exists stagingdir reply,
        d_stagingDir s = Some stagingdir
        /\ trace r
           = trace r1 ++ trace r2 ++ [Called (Rmtree stagingdir) reply]
        /\ outcome r = reply)
  /\ (forall e, outcome r1 = inl e ->
      trace r = trace r1 /\ outcome r = inl e)
  /\ (forall reps e, outcome r1 = inr reps -> outcome r2 = inl e ->
      trace r = trace r1 ++ trace r2 /\ outcome r = inl e).
Proof.
  cbv zeta.
  pose proof (register_calls context s w) as Hno1.
  pose proof (integrate_calls (store (register context s w))
                (world (register context s w))) as Hno2.
  assert (Hnot : forall t en, Forall (fun e => is_rmtree e = false) t ->
                   en ∈ t -> is_rmtree en = true -> False).
  { intros t en HF Hin Hrm. rewrite Forall_forall in HF.
    rewrite (HF en Hin) in Hrm. discriminate. }
  unfold IntegrateAsset.process.
  destruct (bind_run (register context)
              (fun _ => bind integrate
                 (fun _ => bind get (fun data =>
                    bind (getitem "stagingDir" (d_stagingDir data))
                      (fun stagingdir => call handle (Rmtree stagingdir)))))
              s w) as [(e & He & ->)|(reps & Hreps & ->)].
  - cbn [trace outcome].
    split; [split|split; [|split]].
    + intros (en & Hin & Hrm). exfalso. exact (Hnot _ en Hno1 Hin Hrm).
    + intros [[reps Hr] _]. congruence.
    + intros reps Hr. congruence.
    + intros e' He'. split; [reflexivity | congruence].
    + intros reps e' Hr. congruence.
  - destruct (register_keeps_stagingDir context s w reps Hreps)
      as (stagingdir & Hdir & Hdir1).
    destruct (bind_run integrate
                (fun _ => bind get (fun data =>
                   bind (getitem "stagingDir" (d_stagingDir data))
                     (fun stagingdir => call handle (Rmtree stagingdir))))
                (store (register context s w))
                (world (register context s w)))
      as [(e & He & ->)|([] & Hint & ->)].
    + cbn [prepend trace outcome].
      split; [split|split; [|split]].
      * intros (en & Hin & Hrm). exfalso.
        apply elem_of_app in Hin as [Hin|Hin];
          [exact (Hnot _ en Hno1 Hin Hrm) | exact (Hnot _ en Hno2 Hin Hrm)].
      * intros [_ Hr]. congruence.
      * intros reps' _ Hr. congruence.
      * intros e' He'. congruence.
      * intros reps' e' _ Hr. split; [reflexivity | congruence].
    + destruct (integrate_returns _ _ Hint)
        as (traffic & reps2 & copies & _ & _ & _ & _ & _ & Hs2).
      rewrite bind_get, Hs2, Hdir1. cbn [getitem].
      rewrite bind_ret. unfold call.
      destruct (handle unit (Rmtree stagingdir)
                  (world (integrate (store (register context s w))
                            (world (register context s w))))) as [reply w'].
      cbn [prepend trace outcome].
      split; [split|split; [|split]].
      * intros _. split; [eauto | exact Hint].
      * intros _. exists (Called (Rmtree stagingdir) reply). split; [|reflexivity].
        apply elem_of_app. right. apply elem_of_app. right. left.
      * intros reps' _ _. exists stagingdir, reply. auto.
      * intros e' He'. congruence.
      * intros reps' e' _ Hr. congruence.
Qed.

(** *** Writes that stay *)

(** The run of [register] that finds no subset, inserts one, and then
    meets a version that is not the assumed one. *)
Lemma register_mismatch_run (context : ContextData) (s : InstanceData)
    (w w1 w2 w3 w4 w5 w6 : W) (PROJECT ASSET SILO : string)
    (results : list PluginResult) (stagingdir : string)
    (project : ProjectDoc) (asset : AssetDoc) (name : string)
    (_id : ObjectId) (subset : SubsetDoc) (latest : option VersionDoc)
    (assumed : AssumedTemplateData) :
  environ !! "AVALON_PROJECT" = Some PROJECT ->
  (if truthy (d_asset s) then d_asset s else environ !! "AVALON_ASSET")
  = Some ASSET ->
  environ !! "AVALON_SILO" = Some SILO ->
  c_results context = Some results ->
  forallb success results = true ->
  d_stagingDir s = Some stagingdir ->
  truthy (Some stagingdir) = true ->
  handle _ FindProject w = (inr (Some project), w1) ->
  handle _ (FindAsset ASSET (project_id project)) w1
  = (inr (Some asset), w2) ->
  d_subset s = Some name ->
  handle _ (FindSubset (asset_id asset) name) w2 = (inr None, w3) ->
  handle _ (InsertOne (new_subset name asset)) w3 = (inr _id, w4) ->
  handle _ (FindById _id) w4 = (inr (Some subset), w5) ->
  handle _ (FindLatestVersion (subset_id subset)) w5 = (inr latest, w6) ->
  d_assumedTemplateData s = Some assumed ->
  assumed_version assumed <> next_version_of latest ->
  register context s w
  = MkRun
      [Called FindProject (inr (Some project));
       Called (FindAsset ASSET (project_id project)) (inr (Some asset));
       Called (FindSubset (asset_id asset) name) (inr None);
       Called (InsertOne (new_subset name asset)) (inr _id);
       Called (FindById _id) (inr (Some subset));
       Called (FindLatestVersion (subset_id subset)) (inr latest)]
      (inl (AttributeError
              (mismatch_message (assumed_version assumed)
                 (next_version_of latest))))
      s w6.
Proof.
  intros HP HA HS Hres Hok Hdir Htruthy Hproject Hasset Hname Hfind Hins
    Hagain Hlatest Hassumed Hne.
  unfold IntegrateAsset.register.
  rewrite HP. cbn [getitem]. rewrite bind_ret, bind_get.
  assert ((if truthy (d_asset s)
           then ret (default EmptyString (d_asset s))
           else getitem "AVALON_ASSET" (environ !! "AVALON_ASSET"))
          = (ret ASSET : M W InstanceData string)) as ->.
  { destruct (truthy (d_asset s)); rewrite HA; reflexivity. }
  rewrite bind_ret, HS. cbn [getitem]. rewrite bind_ret, Hres.
  cbn [getitem]. rewrite bind_ret, Hok. cbn [assert]. rewrite bind_ret.
  rewrite Hdir, Htruthy. cbn [assert default from_option id].
  rewrite bind_ret.
  rewrite (bind_call_inr handle _ _ _ _ _ _ Hproject), bind_ret.
  rewrite (bind_call_inr handle _ _ _ _ _ _ Hasset).
  rewrite bool_decide_eq_true_2 by eauto. cbn [assert getitem].
  rewrite !bind_ret.
  unfold IntegrateAsset.get_subset.
  rewrite bind_bind, bind_get, Hname. cbn [getitem].
  rewrite bind_bind, bind_ret, bind_bind.
  rewrite (bind_call_inr handle _ _ _ _ _ _ Hfind).
  rewrite bind_bind, bind_get, Hname. cbn [getitem].
  rewrite bind_bind, bind_ret, bind_bind.
  rewrite (bind_call_inr handle _ _ _ _ _ _ Hins).
  rewrite bind_bind.
  rewrite (bind_call_inr handle _ _ _ _ _ _ Hagain).
  rewrite !bind_ret.
  rewrite (bind_call_inr handle _ _ _ _ _ _ Hlatest).
  rewrite bind_get, Hassumed. cbn [getitem]. rewrite bind_ret.
  apply Z.eqb_neq in Hne. rewrite Hne. cbn [negb].
  rewrite bind_raise. reflexivity.
Qed.

(** C9. [integrate] hands all representations to the database in one
    call before any [makedirs] or [copy]; every later call is a
    [makedirs] or a [copy], so when a copy raises, [integrate] ends with
    that exception and nothing has taken the representations back. And
    when [register] finds no subset, inserts one and then meets a latest
    version that does not fit the assumed one, it raises its
    AttributeError after the insertion, with only two queries in
    between, and leaves the host as it was after them. *)
Theorem writes_are_not_undone :
  (forall (s : InstanceData) (w : W),
     let r := integrate s w in
     trace r = []
     \/ exists reps reply copies,
          d_representations s = Some reps
          /\ trace r
             = Called (InsertMany (map RepresentationDocument reps)) reply
                 :: copies
          /\ Forall (fun e => is_transfer e = true) copies
          /\ (copies <> [] -> reply = inr tt)
          /\ (forall en x, en ∈ copies -> is_copy en = true ->
                raised_by en = Some x -> outcome r = inl x))
  /\ (forall (context : ContextData) (s : InstanceData)
        (w w1 w2 w3 w4 w5 w6 : W) (PROJECT ASSET SILO : string)
        (results : list PluginResult) (stagingdir : string)
        (project : ProjectDoc) (asset : AssetDoc) (name : string)
        (_id : ObjectId) (subset : SubsetDoc) (latest : option VersionDoc)
        (assumed : AssumedTemplateData),
      environ !! "AVALON_PROJECT" = Some PROJECT ->
      (if truthy (d_asset s) then d_asset s else environ !! "AVALON_ASSET")
      = Some ASSET ->
      environ !! "AVALON_SILO" = Some SILO ->
      c_results context = Some results ->
      forallb success results = true ->
      d_stagingDir s = Some stagingdir ->
      truthy (Some stagingdir) = true ->
      handle _ FindProject w = (inr (Some project), w1) ->
      handle _ (FindAsset ASSET (project_id project)) w1
      = (inr (Some asset), w2) ->
      d_subset s = Some name ->
      handle _ (FindSubset (asset_id asset) name) w2 = (inr None, w3) ->
      handle _ (InsertOne (new_subset name asset)) w3 = (inr _id, w4) ->
      handle _ (FindById _id) w4 = (inr (Some subset), w5) ->
      handle _ (FindLatestVersion (subset_id subset)) w5 = (inr latest, w6) ->
      d_assumedTemplateData s = Some assumed ->
      assumed_version assumed <> next_version_of latest ->
      let r := register context s w in
      outcome r
      = inl (AttributeError
               (mismatch_message (assumed_version assumed)
                  (next_version_of latest)))
      /\ trace r
         = [Called FindProject (inr (Some project));
            Called (FindAsset ASSET (project_id project)) (inr (Some asset));
            Called (FindSubset (asset_id asset) name) (inr None);
            Called (InsertOne (new_subset name asset)) (inr _id);
            Called (FindById _id) (inr (Some subset));
            Called (FindLatestVersion (subset_id subset)) (inr latest)]
      /\ world r = w6).
Proof.
  split.
  - intros s w. cbv zeta.
    destruct (integrate_run s w)
      as [[Hnil _]|(traffic & reps & reply & w1 & Ht & Hr & Hins & Heq)];
      [left; exact Hnil|].
    right. rewrite Heq. destruct reply as [e|[]].
    + exists reps, (inl e), []. cbn.
      repeat split; [exact Hr | constructor | congruence |].
      intros en x Hin. inversion Hin.
    + exists reps, (inr tt), (trace (copy_files traffic s w1)).
      cbn [prepend trace outcome app].
      split; [exact Hr|]. split; [reflexivity|].
      split; [apply copy_files_calls|]. split; [reflexivity|].
      intros en x Hin Hc Hx. eapply copy_files_copy_raised; eassumption.
  - intros. subst r.
    erewrite register_mismatch_run by eassumption. cbn. auto.
Qed.

(** *** More on [copy_files], [get_subset] and the checks of [register] *)

Lemma copy_files_app (a b : list (string * string)) :
  forall (s : InstanceData) (w : W),
    copy_files (a ++ b) s w
    = bind (copy_files a) (fun _ => copy_files b) s w.
Proof.
  induction a as [|[src dst] rest IH]; intros s w.
  - cbn [app IntegrateAsset.copy_files]. rewrite bind_ret. reflexivity.
  - cbn [app IntegrateAsset.copy_files]. rewrite bind_bind.
    match goal with
    | |- bind ?m ?f ?s0 ?w0 = bind ?m ?g ?s0 ?w0 =>
        destruct (bind_run m f s0 w0) as [(e & He & ->)|([] & Ha & ->)];
        destruct (bind_run m g s0 w0) as [(e' & He' & ->)|([] & Ha' & ->)];
        try congruence
    end.
Qed.

(** X5. Copying stops at the first transfer that fails: when the copies
    of [a] raise, those of [a ++ b] are the same run, with no call for
    [b]; when they return, the copies of [b] follow from the state they
    left. *)
Theorem copy_files_stops_at_failure (a b : list (string * string))
    (s : InstanceData) (w : W) :
  (forall e, outcome (copy_files a s w) = inl e ->
     copy_files (a ++ b) s w = copy_files a s w)
  /\ (outcome (copy_files a s w) = inr tt ->
      copy_files (a ++ b) s w
      = prepend (trace (copy_files a s w))
          (copy_files b (store (copy_files a s w))
             (world (copy_files a s w)))).
Proof.
  rewrite copy_files_app.
  destruct (bind_run (copy_files a) (fun _ => copy_files b) s w)
    as [(e & He & ->)|([] & Ha & ->)]; split.
  - intros e' He'. rewrite <- He. apply run_eta.
  - intros H. congruence.
  - intros e' He'. congruence.
  - intros _. reflexivity.
Qed.



(** Closes the case of a check that failed, up to the reason why. *)
Ltac check_failed :=
  left; rewrite bind_raise; cbn [trace outcome store world];
  split; [|split; [reflexivity
                  |split; [eexists; reflexivity | split; reflexivity]]].

(** X7. [register] makes no call before its checks have passed: when
    the environment lacks the project, the silo or (for an instance
    without asset) the asset, when a plug-in that ran before has failed
    or the results are missing, or when the staging directory is not
    set, it raises with no call made and nothing changed; otherwise its
    first call is the query for the project. *)
Theorem register_checks_first (context : ContextData) (s : InstanceData)
    (w : W) :
  let r := register context s w in
  (~ register_checks environ context s
   /\ trace r = [] /\ raises (outcome r) /\ store r = s /\ world r = w)
  \/ (register_checks environ context s
      /\ exists reply rest, trace r = Called FindProject reply :: rest).
Proof.
  cbv zeta. unfold register_checks, IntegrateAsset.register.
  assert (Hnone : forall A : Type, ~ is_Some (@None A))
    by (intros A [x Hx]; discriminate Hx).
  destruct (environ !! "AVALON_PROJECT") as [PROJECT|]; cbn [getitem];
    [rewrite bind_ret
    | check_failed; intros (H1 & _); exact (Hnone _ H1)].
  rewrite bind_get.
  destruct (truthy (d_asset s)) eqn:Hasset; cbv iota;
    [rewrite bind_ret
    | destruct (environ !! "AVALON_ASSET") as [ASSET|]; cbn [getitem];
      [rewrite bind_ret
      | check_failed; intros (_ & [H2|H2] & _);
        [discriminate H2 | exact (Hnone _ H2)]]].
  all: destruct (environ !! "AVALON_SILO") as [SILO|]; cbn [getitem];
    [rewrite bind_ret
    | check_failed; intros (_ & _ & H3 & _); exact (Hnone _ H3)].
  all: destruct (c_results context) as [results|]; cbn [getitem];
    [rewrite bind_ret
    | check_failed; intros (_ & _ & _ & (results' & Hr & _) & _);
      discriminate Hr].
  all: destruct (forallb success results) eqn:Hatomic; cbn [assert];
    [rewrite bind_ret
    | check_failed; intros (_ & _ & _ & (results' & [= <-] & Hok) & _);
      congruence].
  all: destruct (truthy (d_stagingDir s)) eqn:Hstaging; cbn [assert];
    [rewrite bind_ret
    | check_failed; intros (_ & _ & _ & _ & H5); discriminate H5].
  all: right; split; [repeat split; eauto|].
  all: unfold bind at 1, call;
    destruct (handle (option ProjectDoc) FindProject w) as [[e|project] w1];
    cbn; eauto.
Qed.

(** X8. The only calls [register] makes are queries, insertions of one
    document and the listing of a directory: it never creates a
    directory, copies or removes a file, or inserts several documents at
    once. *)
Theorem register_call_kinds (context : ContextData) (s : InstanceData)
    (w : W) :
  Forall (fun e => is_query_insert_or_listing e = true)
    (trace (register context s w)).
Proof.
  revert s w. change (calls_all (fun e => is_query_insert_or_listing e = true)
                        (register context)).
  unfold IntegrateAsset.register, IntegrateAsset.get_subset,
    IntegrateAsset.create_version_data.
  calls_tac. apply register_files_calls.
Qed.

(** *** What [register] leaves of the instance data *)

Lemma grows_refl (s : InstanceData) : grows s s.
Proof.
  unfold grows. repeat split.
  destruct (d_transfers s) as [t0|]; [|reflexivity].
  exists []. rewrite app_nil_r. reflexivity.
Qed.

Lemma grows_trans (s1 s2 s3 : InstanceData) :
  grows s1 s2 -> grows s2 s3 -> grows s1 s3.
Proof.
  unfold grows.
  intros (A1 & B1 & C1 & D1 & E1 & F1 & G1 & T1)
         (A2 & B2 & C2 & D2 & E2 & F2 & G2 & T2).
  repeat split; try congruence.
  destruct (d_transfers s1) as [t0|].
  - destruct T1 as [added1 T1]. rewrite T1 in T2.
    destruct T2 as [added2 T2]. exists (added1 ++ added2).
    rewrite T2, app_assoc. reflexivity.
  - rewrite T1 in T2. exact T2.
Qed.

Lemma keeps_refl (s : InstanceData) : keeps s s.
Proof. split; [apply grows_refl | reflexivity]. Qed.

Lemma keeps_trans (s1 s2 s3 : InstanceData) :
  keeps s1 s2 -> keeps s2 s3 -> keeps s1 s3.
Proof.
  intros [G1 R1] [G2 R2]. split; [eapply grows_trans; eassumption|congruence].
Qed.

Ltac keeps_tac :=
  repeat first
    [ apply (store_all_ret keeps keeps_refl)
    | apply (store_all_raise keeps keeps_refl)
    | apply (store_all_get keeps keeps_refl)
    | apply (store_all_lift keeps keeps_refl)
    | apply (store_all_getitem keeps keeps_refl)
    | apply (store_all_assert keeps keeps_refl)
    | apply (store_all_call handle keeps keeps_refl)
    | apply (store_all_bind keeps keeps_trans); [|intros ?]
    | match goal with
      | |- store_all _ (match ?x with _ => _ end) => destruct x
      end ].

Lemma get_subset_keeps (asset : AssetDoc) :
  store_all keeps (get_subset asset).
Proof. unfold IntegrateAsset.get_subset. keeps_tac. Qed.

Lemma create_version_data_keeps (context : ContextData) :
  store_all keeps (create_version_data (W:=W) lib registered_root context).
Proof. unfold IntegrateAsset.create_version_data. keeps_tac. Qed.

Lemma register_file_keeps (stagingdir template_publish : string)
    (vid : ObjectId) (PROJECT ASSET SILO : string) (subset : SubsetDoc)
    (version : Version) (template_data : TemplateData) (fname : string) :
  store_all keeps
    (register_file (W:=W) lib stagingdir template_publish vid PROJECT ASSET
       SILO subset version template_data fname).
Proof.
  intros s w. unfold IntegrateAsset.register_file.
  destruct (os_path_splitext lib fname) as [name ext].
  destruct (str_format lib template_publish _) as [e|formatted]; cbn [lift];
    [rewrite bind_raise; apply keeps_refl | rewrite bind_ret].
  rewrite bind_get.
  destruct (d_transfers s) as [t0|] eqn:Ht0; cbn [getitem];
    [rewrite bind_ret | rewrite bind_raise; apply keeps_refl].
  rewrite bind_modify, bind_get. cbn.
  unfold keeps, grows. cbn. rewrite Ht0. repeat split. eauto.
Qed.

Lemma register_files_keeps (stagingdir template_publish : string)
    (vid : ObjectId) (PROJECT ASSET SILO : string) (subset : SubsetDoc)
    (version : Version) (staging_content : list string) :
  forall (template_data : TemplateData) (reps : list Representation),
    store_all keeps
      (register_files (W:=W) lib stagingdir template_publish vid PROJECT
         ASSET SILO subset version template_data reps staging_content).
Proof.
  induction staging_content as [|fname rest IH]; intros template_data reps;
    cbn [IntegrateAsset.register_files].
  - keeps_tac.
  - apply (store_all_bind keeps keeps_trans);
      [apply register_file_keeps | intros r; apply IH].
Qed.

Lemma careful_bind {A : Type} (m : M W InstanceData A)
    (f : A -> M W InstanceData (list Representation)) :
  store_all keeps m -> (forall a, careful (f a)) -> careful (bind m f).
Proof.
  intros Hm Hf s w. unfold bind. destruct (Hm s w) as [Hg Hr].
  destruct (outcome (m s w)) as [e|a].
  - cbn. split; [exact Hg|]. split; [intros _; exact Hr|]. discriminate.
  - destruct (Hf a (store (m s w)) (world (m s w))) as (Hg' & Hraise & Hret).
    cbn [prepend store outcome]. split; [eapply grows_trans; eassumption|].
    split; [intros H; rewrite (Hraise H); exact Hr | exact Hret].
Qed.

Lemma careful_assign (reps : list Representation) :
  careful (bind (modify (fun d => set_representations d reps))
             (fun _ => ret reps) : M W InstanceData (list Representation)).
Proof.
  intros s w. rewrite bind_modify. cbn.
  split; [|split].
  - unfold grows. cbn. repeat split.
    destruct (d_transfers s); [exists []; rewrite app_nil_r|]; reflexivity.
  - intros [e He]. discriminate He.
  - intros reps' [= <-]. reflexivity.
Qed.

(** X9. Whatever way a run of [register] ends, it leaves the asset, the
    subset, the staging directory, the assumed template data, the
    dependencies, the families and the family of the instance as they
    were, and the transfers with their former pairs in place and new
    ones, if any, after them; it assigns the representations exactly
    when it returns, and then what it returns. *)
Theorem register_changes_little (context : ContextData) (s : InstanceData)
    (w : W) :
  let r := register context s w in
  grows s (store r)
  /\ (raises (outcome r)
      -> d_representations (store r) = d_representations s)
  /\ (forall reps, outcome r = inr reps
                   -> d_representations (store r) = Some reps).
Proof.
  cbv zeta. revert s w. change (careful (register context)).
  unfold IntegrateAsset.register.
  repeat (apply careful_bind;
          [solve [keeps_tac
                 | apply get_subset_keeps
                 | apply create_version_data_keeps
                 | apply register_files_keeps]
          | intros ?]).
  apply careful_assign.
Qed.

(** *** The version document *)


Lemma create_version_data_world (context : ContextData) (s : InstanceData)
    (w w' : W) :
  outcome (create_version_data lib registered_root context s w)
  = outcome (create_version_data lib registered_root context s w').
Proof.
  unfold IntegrateAsset.create_version_data. rewrite !bind_get.
  destruct (c_currentFile context); cbn [getitem];
    [rewrite !bind_ret | rewrite !bind_raise; reflexivity].
  destruct (os_path_relpath lib _ registered_root); cbn [lift];
    [rewrite !bind_raise; reflexivity | rewrite !bind_ret].
  destruct (c_time context); cbn [getitem];
    [rewrite !bind_ret | rewrite !bind_raise; reflexivity].
  destruct (c_user context); cbn [getitem];
    [rewrite !bind_ret | rewrite !bind_raise; reflexivity].
  reflexivity.
Qed.

Lemma create_version_data_instance (context : ContextData)
    (s : InstanceData) (w : W) (data : VersionData) :
  outcome (create_version_data lib registered_root context s w) = inr data ->
  vd_instance_data data = s.
Proof.
  unfold IntegrateAsset.create_version_data. rewrite bind_get.
  destruct (c_currentFile context) as [currentFile|]; cbn [getitem];
    [rewrite bind_ret | rewrite bind_raise; discriminate].
  destruct (os_path_relpath lib currentFile registered_root)
    as [e|relative_path]; cbn [lift];
    [rewrite bind_raise; discriminate | rewrite bind_ret].
  destruct (c_time context) as [time|]; cbn [getitem];
    [rewrite bind_ret | rewrite bind_raise; discriminate].
  destruct (c_user context) as [user|]; cbn [getitem];
    [rewrite bind_ret | rewrite bind_raise; discriminate].
  cbn. intros [= <-]. reflexivity.
Qed.


(** A run of [register] that returns has inserted the version built from
    what [create_version_data] returns on the instance data it found. *)
Lemma register_returns_version (context : ContextData) (s : InstanceData)
    (w : W) (reps : list Representation) :
  outcome (register context s w) = inr reps ->
  exists subset latest version_data vid before after,
    outcome (create_version_data lib registered_root context s w)
    = inr version_data
    /\ trace (register context s w)
       = before
           ++ Called (InsertOne
                        (VersionDocument
                           (create_version subset (next_version_of latest)
                              [environ !! "AVALON_LOCATION"] version_data)))
                (inr vid)
           :: after.
Proof.
  intros Hout. remember (register context s w) as r eqn:Hr.
  unfold IntegrateAsset.register in Hr.
  step_getitem Hr Hout PROJECT HPROJECT.
  rewrite bind_get in Hr.
  match type of Hr with
  | context [bind (if ?c then ret ?a else getitem ?k ?o) ?f ?s0 ?w0] =>
      destruct (bind_or_getitem c a k o f s0 w0) as [Heq|Heq];
      rewrite Heq in Hr; clear Heq; [|dead Hr Hout]
  end.
  step_getitem Hr Hout SILO HSILO.
  step_getitem Hr Hout results Hresults.
  step_assert Hr Hout Hatomic.
  step_assert Hr Hout Hstaging.
  step_call Hr Hout project w1 Hproject.
  destruct project as [project|];
    [rewrite bind_ret in Hr | rewrite bind_raise in Hr; dead Hr Hout].
  step_call Hr Hout asset w2 Hasset.
  step_assert Hr Hout Hfound.
  step_getitem Hr Hout asset_doc Hdoc.
  step_sub Hr Hout (get_subset asset_doc) subset_opt Hsubset.
  destruct (get_subset_returns asset_doc s w2 subset_opt Hsubset)
    as (Hstore & name & Hname & Hsub).
  rewrite Hstore in Hr.
  destruct subset_opt as [subset|];
    [rewrite bind_ret in Hr | rewrite bind_raise in Hr; dead Hr Hout].
  step_call Hr Hout latest w4 Hlatest.
  rewrite bind_get in Hr.
  step_getitem Hr Hout assumed Hassumed.
  destruct (assumed_version assumed =? next_version_of latest) eqn:Hversion;
    cbn [negb] in Hr;
    [rewrite bind_ret in Hr | rewrite bind_raise in Hr; dead Hr Hout].
  step_sub Hr Hout (create_version_data (W:=W) lib registered_root context)
    version_data Hdata.
  destruct (create_version_data_pure context s w4) as (Hvt & Hvs & Hvw).
  rewrite Hvt, Hvs, Hvw in Hr. rewrite prepend_nil in Hr.
  step_call Hr Hout vid w5 Hinsert.
  exists subset, latest, version_data, vid.
  eexists (_ :: _ :: trace (get_subset asset_doc s w2) ++ [_]), _.
  split; [rewrite (create_version_data_world context s w w4); exact Hdata|].
  rewrite Hr. cbn [trace prepend app]. rewrite <- app_assoc. reflexivity.
Qed.

(** X11. The version document a returning run of [register] inserts has
    the version schema and type; its locations are the value of
    AVALON_LOCATION alone, and none when that variable is not set; its
    data are what [create_version_data] returns for the instance data as
    [register] found them, so without the transfers and representations
    that [register] itself adds. *)
Theorem register_version_document (context : ContextData)
    (s : InstanceData) (w : W) (reps : list Representation) :
  outcome (register context s w) = inr reps ->
  exists before version vid after,
    trace (register context s w)
    = before ++ Called (InsertOne (VersionDocument version)) (inr vid)
        :: after
    /\ ver_schema version = "avalon-core:version-2.0"
    /\ ver_type version = "version"
    /\ ver_locations version
       = match environ !! "AVALON_LOCATION" with
         | Some location => [location]
         | None => []
         end
    /\ outcome (create_version_data lib registered_root context s w)
       = inr (ver_data version)
    /\ vd_instance_data (ver_data version) = s.
Proof.
  intros Hout.
  destruct (register_returns_version context s w reps Hout)
    as (subset & latest & version_data & vid & before & after & Hdata
        & Htrace).
  exists before. eexists _, vid, after.
  split; [exact Htrace|]. cbn.
  split; [reflexivity|]. split; [reflexivity|].
  split; [destruct (environ !! "AVALON_LOCATION"); reflexivity|].
  split; [exact Hdata|].
  exact (create_version_data_instance context s w version_data Hdata).
Qed.

(** *** Missing transfers, a failing listing, an empty staging directory *)

Lemma integrate_missing_transfers (s : InstanceData) (w : W) :
  d_transfers s = None ->
  integrate s w = MkRun [] (inl (KeyError "transfers")) s w.
Proof.
  intros H. unfold IntegrateAsset.integrate. rewrite bind_get, H.
  cbn [getitem]. rewrite bind_raise. reflexivity.
Qed.

(** X12. For an instance without the [transfers] key, [process] always
    raises and never calls [rmtree]: [register] needs the key for the
    first staged file, and when it returns (the staging directory was
    empty), [integrate] raises KeyError for the key before any call. *)
Theorem process_needs_transfers (context : ContextData) (s : InstanceData)
    (w : W) :
  d_transfers s = None ->
  let r := process context s w in
  raises (outcome r)
  /\ Forall (fun e => is_rmtree e = false) (trace r)
  /\ (forall reps, outcome (register context s w) = inr reps ->
      trace r = trace (register context s w)
      /\ outcome r = inl (KeyError "transfers")).
Proof.
  intros Hnone. cbv zeta. unfold IntegrateAsset.process.
  pose proof (register_calls context s w) as Hno.
  destruct (bind_run (register context)
              (fun _ => bind integrate
                 (fun _ => bind get (fun data =>
                    bind (getitem "stagingDir" (d_stagingDir data))
                      (fun stagingdir => call handle (Rmtree stagingdir)))))
              s w) as [(e & He & ->)|(reps & Hreps & ->)].
  - cbn [trace outcome]. split; [eexists; reflexivity|].
    split; [exact Hno|]. intros reps Hr. congruence.
  - assert (d_transfers (store (register context s w)) = None) as Hnone'.
    { destruct (register_returns context s w reps Hreps)
        as (PROJECT & ASSET & SILO & stagingdir & project & asset & subset
            & latest & version_data & vid & files & pairs & subset_trace
            & _ & _ & _ & _ & _ & _ & _ & _ & _ & _ & Hstore).
      destruct Hstore as [[_ ->]|(t0 & Ht0 & _)]; [exact Hnone|congruence]. }
    match goal with
    | |- context [bind integrate ?f ?s1 ?w1] =>
        assert (bind integrate f s1 w1
                = MkRun [] (inl (KeyError "transfers")) s1 w1) as ->
          by (unfold bind; rewrite (integrate_missing_transfers _ _ Hnone');
              reflexivity)
    end.
    cbn [prepend trace outcome store world]. rewrite app_nil_r.
    split; [eexists; reflexivity|]. split; [exact Hno|].
    intros reps' _. split; reflexivity.
Qed.

(** The run of [register] that finds its subset, passes the version
    check, inserts the version and then cannot list the staging
    directory. *)
Lemma register_listing_fails_run (context : ContextData) (s : InstanceData)
    (w w1 w2 w3 w4 w5 w6 : W) (PROJECT ASSET SILO : string)
    (results : list PluginResult) (stagingdir : string)
    (project : ProjectDoc) (asset : AssetDoc) (name : string)
    (subset : SubsetDoc) (latest : option VersionDoc)
    (version_data : VersionData) (vid : ObjectId) (e : PyExn) :
  environ !! "AVALON_PROJECT" = Some PROJECT ->
  (if truthy (d_asset s) then d_asset s else environ !! "AVALON_ASSET")
  = Some ASSET ->
  environ !! "AVALON_SILO" = Some SILO ->
  c_results context = Some results ->
  forallb success results = true ->
  d_stagingDir s = Some stagingdir ->
  truthy (Some stagingdir) = true ->
  handle _ FindProject w = (inr (Some project), w1) ->
  handle _ (FindAsset ASSET (project_id project)) w1
  = (inr (Some asset), w2) ->
  d_subset s = Some name ->
  handle _ (FindSubset (asset_id asset) name) w2 = (inr (Some subset), w3) ->
  handle _ (FindLatestVersion (subset_id subset)) w3 = (inr latest, w4) ->
  d_assumedTemplateData s
  = Some {| assumed_version := next_version_of latest |} ->
  outcome (create_version_data lib registered_root context s w)
  = inr version_data ->
  let version :=
    create_version subset (next_version_of latest)
      [environ !! "AVALON_LOCATION"] version_data in
  handle _ (InsertOne (VersionDocument version)) w4 = (inr vid, w5) ->
  handle _ (Listdir stagingdir) w5 = (inl e, w6) ->
  register context s w
  = MkRun
      [Called FindProject (inr (Some project));
       Called (FindAsset ASSET (project_id project)) (inr (Some asset));
       Called (FindSubset (asset_id asset) name) (inr (Some subset));
       Called (FindLatestVersion (subset_id subset)) (inr latest);
       Called (InsertOne (VersionDocument version)) (inr vid);
       Called (Listdir stagingdir) (inl e)]
      (inl e) s w6.
Proof.
  intros HP HA HS Hres Hok Hdir Htruthy Hproject Hasset Hname Hfind
    Hlatest Hassumed Hdata version Hinsert Hlist.
  unfold IntegrateAsset.register.
  rewrite HP. cbn [getitem]. rewrite bind_ret, bind_get.
  assert ((if truthy (d_asset s)
           then ret (default EmptyString (d_asset s))
           else getitem "AVALON_ASSET" (environ !! "AVALON_ASSET"))
          = (ret ASSET : M W InstanceData string)) as ->.
  { destruct (truthy (d_asset s)); rewrite HA; reflexivity. }
  rewrite bind_ret, HS. cbn [getitem]. rewrite bind_ret, Hres.
  cbn [getitem]. rewrite bind_ret, Hok. cbn [assert]. rewrite bind_ret.
  rewrite Hdir, Htruthy. cbn [assert default from_option id].
  rewrite bind_ret.
  rewrite (bind_call_inr handle _ _ _ _ _ _ Hproject), bind_ret.
  rewrite (bind_call_inr handle _ _ _ _ _ _ Hasset).
  rewrite bool_decide_eq_true_2 by eauto. cbn [assert getitem].
  rewrite !bind_ret.
  unfold IntegrateAsset.get_subset.
  rewrite bind_bind, bind_get, Hname. cbn [getitem].
  rewrite bind_bind, bind_ret, bind_bind.
  rewrite (bind_call_inr handle _ _ _ _ _ _ Hfind).
  rewrite !bind_ret.
  rewrite (bind_call_inr handle _ _ _ _ _ _ Hlatest).
  rewrite bind_get, Hassumed. cbn [getitem assumed_version].
  rewrite bind_ret, Z.eqb_refl. cbn [negb]. rewrite bind_ret.
  rewrite (create_version_data_world context s w w4) in Hdata.
  destruct (create_version_data_pure context s w4) as (Hvt & Hvs & Hvw).
  match goal with
  | |- context [bind (create_version_data lib registered_root context) ?f
                  ?s0 ?w0] =>
      destruct (bind_run (create_version_data lib registered_root context)
                  f s0 w0) as [(e' & He' & _)|(a & Ha & ->)];
      [congruence|]
  end.
  rewrite Ha in Hdata. injection Hdata as ->.
  rewrite Hvt, Hvs, Hvw, prepend_nil.
  fold version.
  rewrite (bind_call_inr handle _ _ _ _ _ _ Hinsert).
  rewrite (bind_call_inl handle _ _ _ _ _ _ Hlist).
  reflexivity.
Qed.

(** X13. When [register] has found its subset, passed the version check
    and inserted the version document, and the listing of the staging
    directory then raises, [register] ends with that exception: the
    listing is its last call, so the version document stays in the
    database without any representation, and the instance data are as
    they were. *)
Theorem register_listing_fails (context : ContextData) (s : InstanceData)
    (w w1 w2 w3 w4 w5 w6 : W) (PROJECT ASSET SILO : string)
    (results : list PluginResult) (stagingdir : string)
    (project : ProjectDoc) (asset : AssetDoc) (name : string)
    (subset : SubsetDoc) (latest : option VersionDoc)
    (version_data : VersionData) (vid : ObjectId) (e : PyExn) :
  environ !! "AVALON_PROJECT" = Some PROJECT ->
  (if truthy (d_asset s) then d_asset s else environ !! "AVALON_ASSET")
  = Some ASSET ->
  environ !! "AVALON_SILO" = Some SILO ->
  c_results context = Some results ->
  forallb success results = true ->
  d_stagingDir s = Some stagingdir ->
  truthy (Some stagingdir) = true ->
  handle _ FindProject w = (inr (Some project), w1) ->
  handle _ (FindAsset ASSET (project_id project)) w1
  = (inr (Some asset), w2) ->
  d_subset s = Some name ->
  handle _ (FindSubset (asset_id asset) name) w2 = (inr (Some subset), w3) ->
  handle _ (FindLatestVersion (subset_id subset)) w3 = (inr latest, w4) ->
  d_assumedTemplateData s
  = Some {| assumed_version := next_version_of latest |} ->
  outcome (create_version_data lib registered_root context s w)
  = inr version_data ->
  let version :=
    create_version subset (next_version_of latest)
      [environ !! "AVALON_LOCATION"] version_data in
  handle _ (InsertOne (VersionDocument version)) w4 = (inr vid, w5) ->
  handle _ (Listdir stagingdir) w5 = (inl e, w6) ->
  let r := register context s w in
  outcome r = inl e
  /\ inserts (trace r) = [Called (InsertOne (VersionDocument version)) (inr vid)]
  /\ last (trace r) = Some (Called (Listdir stagingdir) (inl e))
  /\ store r = s
  /\ world r = w6.
Proof.
  intros. subst r.
  erewrite register_listing_fails_run by eassumption.
  cbn. auto.
Qed.

(** X14. When the listing of the staging directory is empty, a returning
    run of [register] yields no representation and leaves the transfers
    as they were, although it has inserted a version document; and
    [integrate], when the transfers are set, then starts by inserting an
    empty list of documents. *)
Theorem register_empty_staging (context : ContextData) (s : InstanceData)
    (w : W) (reps : list Representation) :
  let r := register context s w in
  outcome r = inr reps ->
  (exists en, last (trace r) = Some en /\ listed en = Some []) ->
  reps = []
  /\ d_transfers (store r) = d_transfers s
  /\ d_representations (store r) = Some []
  /\ (exists version vid, Called (InsertOne (VersionDocument version)) (inr vid)
                            ∈ trace r)
  /\ (forall traffic, d_transfers s = Some traffic ->
      exists reply after,
        trace (integrate (store r) (world r))
        = Called (InsertMany []) reply :: after).
Proof.
  cbv zeta. intros Hout (en & Hlast & Hlisted).
  destruct (register_returns context s w reps Hout)
    as (PROJECT & ASSET & SILO & stagingdir & project & asset & subset
        & latest & version_data & vid & files & pairs & subset_trace
        & _ & _ & _ & _ & _ & _ & _ & Htrace & Hreps & Hpairs & Hstore).
  cbv zeta in Htrace, Hreps, Hpairs.
  assert (files = []) as ->.
  { rewrite Htrace in Hlast.
    change (?a :: ?b :: subset_trace ++ [?x; ?y; ?z])
      with ((a :: b :: subset_trace) ++ [x; y; z]) in Hlast.
    rewrite (last_app _ [_; _; _]) in Hlast. cbn in Hlast.
    injection Hlast as <-. cbn in Hlisted. congruence. }
  cbn in Hreps. subst reps. apply Forall2_nil_inv_l in Hpairs. subst pairs.
  split; [reflexivity|].
  assert (d_transfers (store (register context s w)) = d_transfers s
          /\ d_representations (store (register context s w)) = Some [])
    as [Ht Hr].
  { destruct Hstore as [[_ ->]|(t0 & Ht0 & ->)]; cbn; [auto|].
    rewrite app_nil_r, Ht0. auto. }
  split; [exact Ht|]. split; [exact Hr|].
  split.
  { eexists _, vid. rewrite Htrace.
    apply elem_of_cons; right. apply elem_of_cons; right.
    apply elem_of_app; right. right. left. }
  intros traffic Htraffic.
  destruct (integrate_run (store (register context s w))
              (world (register context s w)))
    as [[Hnil [x Hx]]|(traffic' & reps' & reply & w1 & Ht' & Hr' & Hins & Heq)].
  - exfalso. revert Hx. unfold IntegrateAsset.integrate.
    rewrite bind_get, Ht, Htraffic. cbn [getitem]. rewrite bind_ret, Hr.
    cbn [getitem]. rewrite bind_ret.
    revert Hnil. unfold IntegrateAsset.integrate.
    rewrite bind_get, Ht, Htraffic. cbn [getitem]. rewrite bind_ret, Hr.
    cbn [getitem]. rewrite bind_ret.
    unfold bind, call. destruct (handle _ _ _) as [[?|?] ?]; discriminate.
  - rewrite Hr in Hr'. injection Hr' as <-. rewrite Heq.
    destruct reply as [x|[]]; cbn; eauto.
Qed.

(** *** Files of one extension *)

(** X16. [register] tells the staged files apart by their extension
    only: two files with the same extension, neither of them
    [.metadata.json], get the same destination and equal representation
    documents, so [integrate] copies the second over the first. *)
Theorem register_same_extension (context : ContextData) (s : InstanceData)
    (w : W) (reps : list Representation) :
  outcome (register context s w) = inr reps ->
  exists stagingdir files pairs,
    last (trace (register context s w))
    = Some (Called (Listdir stagingdir) (inr files))
    /\ (files = []
        \/ exists t0, d_transfers s = Some t0
                      /\ d_transfers (store (register context s w))
                         = Some (t0 ++ pairs))
    /\ forall (i j : nat) (f g : string),
         files !! i = Some f -> files !! j = Some g ->
         snd (os_path_splitext lib f) = snd (os_path_splitext lib g) ->
         f <> ".metadata.json" -> g <> ".metadata.json" ->
         exists dst rep,
           pairs !! i = Some (os_path_join lib stagingdir f, dst)
           /\ pairs !! j = Some (os_path_join lib stagingdir g, dst)
           /\ reps !! i = Some rep
           /\ reps !! j = Some rep.
Proof.
  intros Hout.
  destruct (register_returns context s w reps Hout)
    as (PROJECT & ASSET & SILO & stagingdir & project & asset & subset
        & latest & version_data & vid & files & pairs & subset_trace
        & _ & _ & _ & _ & _ & _ & _ & Htrace & Hreps & Hpairs & Hstore).
  cbv zeta in Htrace, Hreps, Hpairs.
  exists stagingdir, files, pairs.
  split.
  { rewrite Htrace.
    change (?a :: ?b :: subset_trace ++ [?x; ?y; ?z])
      with ((a :: b :: subset_trace) ++ [x; y; z]).
    rewrite (last_app _ [_; _; _]). reflexivity. }
  split.
  { destruct Hstore as [[Hnil _]|(t0 & Ht0 & ->)]; [left; exact Hnil|].
    right. exists t0. split; [exact Ht0 | reflexivity]. }
  intros i j f g Hf Hg Hext Hnf Hng.
  destruct (Forall2_lookup_l _ _ _ _ _ Hpairs Hf) as (p & Hp & Htp).
  destruct (Forall2_lookup_l _ _ _ _ _ Hpairs Hg) as (q & Hq & Htq).
  destruct Htp as (dst & Hfmt & ->). destruct Htq as (dst' & Hfmt' & ->).
  rewrite Hext, Hfmt' in Hfmt. injection Hfmt as ->.
  unfold IntegrateAsset.destination in Hp, Hq.
  apply String.eqb_neq in Hnf, Hng. rewrite Hnf in Hp. rewrite Hng in Hq.
  exists dst. eexists.
  split; [exact Hp|]. split; [exact Hq|].
  rewrite Hreps, !list_lookup_fmap, Hf, Hg. cbn [fmap option_fmap option_map].
  split; [reflexivity|].
  unfold IntegrateAsset.representation_of. rewrite Hext. reflexivity.
Qed.

(** *** The database before the files *)

Lemma register_moves_nothing (context : ContextData) :
  calls_all (fun e => is_transfer e = false) (register context).
Proof.
  unfold IntegrateAsset.register, IntegrateAsset.get_subset,
    IntegrateAsset.create_version_data.
  calls_tac. apply register_files_calls.
Qed.

Lemma cleanup_inserts_nothing :
  calls_all (fun e => is_insert e = false)
    (bind get (fun data =>
       bind (getitem "stagingDir" (d_stagingDir data))
         (fun stagingdir => call handle (Rmtree stagingdir)))).
Proof. calls_tac. Qed.

Lemma copy_files_insert_nothing (traffic : list (string * string))
    (s : InstanceData) (w : W) :
  Forall (fun e => is_insert e = false) (trace (copy_files traffic s w)).
Proof.
  eapply Forall_impl; [apply copy_files_calls|].
  intros [X ev reply]. destruct ev; cbn; congruence.
Qed.

Lemma no_transfer_among (t : list Entry) :
  Forall (fun e => is_transfer e = false) t ->
  existsb is_transfer t = false.
Proof.
  induction 1 as [|e t He _ IH]; cbn; [reflexivity|].
  rewrite He, IH. reflexivity.
Qed.

(** X17. [process] writes to the database before it touches a file: in
    any run that creates a directory or copies a file, [register] has
    returned without doing either, the representations it returned were
    then inserted, and no document is inserted after that. A copy that
    fails therefore leaves the version and its representations in the
    database. *)
Theorem process_database_first (context : ContextData) (s : InstanceData)
    (w : W) :
  let r1 := register context s w in
  let r := process context s w in
  existsb is_transfer (trace r) = true ->
  exists reps rest,
    outcome r1 = inr reps
    /\ Forall (fun e => is_transfer e = false) (trace r1)
    /\ trace r
       = trace r1
           ++ Called (InsertMany (map RepresentationDocument reps)) (inr tt)
           :: rest
    /\ Forall (fun e => is_insert e = false) rest.
Proof.
  cbv zeta. intros Hex.
  pose proof (register_moves_nothing context s w) as Hreg.
  pose proof (no_transfer_among _ Hreg) as Hnone.
  unfold IntegrateAsset.process in *.
  match type of Hex with
  | context [bind (register context) ?k s w] =>
      destruct (bind_run (register context) k s w)
        as [(e & He & Heq)|(reps & Hreps & Heq)];
      rewrite Heq in *; clear Heq
  end.
  { cbn [trace] in Hex. congruence. }
  exists reps.
  assert (d_representations (store (register context s w)) = Some reps)
    as Hrep.
  { destruct (register_returns context s w reps Hreps)
      as (PROJECT & ASSET & SILO & stagingdir & project & asset & subset
          & latest & version_data & vid & files & pairs & subset_trace
          & _ & _ & _ & _ & _ & _ & _ & _ & _ & _ & Hstore).
    destruct Hstore as [[_ ->]|(t0 & _ & ->)]; reflexivity. }
  cbn [prepend trace] in *.
  rewrite existsb_app, Hnone in Hex. cbn [orb] in Hex.
  destruct (integrate_run (store (register context s w))
              (world (register context s w)))
    as [[Hnil [x Hx]]|(traffic & reps' & reply & w1 & Ht & Hr & Hins & Hint)].
  - exfalso.
    match type of Hex with
    | context [bind integrate ?k ?s1 ?w1] =>
        destruct (bind_run integrate k s1 w1)
          as [(e & He & Heq)|(a & Ha & Heq)]; [|congruence];
        rewrite Heq in Hex; clear Heq
    end.
    cbn [trace] in Hex. rewrite Hnil in Hex. discriminate.
  - rewrite Hrep in Hr. injection Hr as <-.
    match type of Hex with
    | context [bind integrate ?k ?s1 ?w1] =>
        destruct (bind_run integrate k s1 w1)
          as [(e & He & Heq)|(a & Ha & Heq)];
        rewrite Heq in *; clear Heq
    end.
    + destruct reply as [e'|[]]; rewrite Hint in *.
      * exfalso. cbn in Hex. discriminate.
      * cbn [prepend trace app].
        eexists. split; [exact Hreps|]. split; [exact Hreg|].
        split; [reflexivity|]. apply copy_files_insert_nothing.
    + destruct reply as [e'|[]]; rewrite Hint in *.
      * cbn in Ha. discriminate.
      * cbn [prepend trace app store world].
        eexists. split; [exact Hreps|]. split; [exact Hreg|].
        split; [reflexivity|].
        apply Forall_app. split; [apply copy_files_insert_nothing|].
        apply cleanup_inserts_nothing.
Qed.

End Facts.

(** The staged model of [Host.world0]: versions 1 and 2 exist, so the
    version inserted is 3. *)
Lemma register_next_version_witness :
  exists before subset latest version vid stagingdir files,
    trace Host.run0
    = before
        ++ [Called (FindLatestVersion (subset_id subset)) (inr latest);
            Called (InsertOne (VersionDocument version)) (inr vid);
            Called (Listdir stagingdir) (inr files)]
    /\ ver_parent version = subset_id subset
    /\ ver_name version
       = match latest with
         | None => 1
         | Some latest_version => version_name latest_version + 1
         end
    /\ d_assumedTemplateData Host.data0
       = Some {| assumed_version := ver_name version |}
    /\ Forall (fun rep => rc_version (rep_context rep) = ver_name version)
         Host.reps0.
Proof.
  apply (register_next_version Host.handle Posix.lib Host.environ
           Host.root "modelDefault" Host.context0 Host.data0 Host.world0
           Host.reps0).
  vm_compute. reflexivity.
Defined.

(** The two staged files of [Host.world0] and their destinations. *)
Lemma register_destinations_witness :
  exists PROJECT SILO stagingdir project asset name subset subset_calls
         latest version vid files pairs,
    Host.environ !! "AVALON_PROJECT" = Some PROJECT
    /\ Host.environ !! "AVALON_SILO" = Some SILO
    /\ d_stagingDir Host.data0 = Some stagingdir
    /\ d_subset Host.data0 = Some name
    /\ let ASSET :=
         if truthy (d_asset Host.data0)
         then default EmptyString (d_asset Host.data0)
         else default EmptyString (Host.environ !! "AVALON_ASSET") in
       trace Host.run0
       = Called FindProject (inr (Some project))
           :: Called (FindAsset ASSET (project_id project)) (inr (Some asset))
           :: subset_calls
           ++ [Called (FindLatestVersion (subset_id subset)) (inr latest);
               Called (InsertOne (VersionDocument version)) (inr vid);
               Called (Listdir stagingdir) (inr files)]
       /\ (subset_calls
           = [Called (FindSubset (asset_id asset) name) (inr (Some subset))]
           \/ exists _id,
                subset_calls
                = [Called (FindSubset (asset_id asset) name) (inr None);
                   Called (InsertOne (new_subset name asset)) (inr _id);
                   Called (FindById _id) (inr (Some subset))])
       /\ length pairs = length files
       /\ (files = []
           \/ exists t0, d_transfers Host.data0 = Some t0
                         /\ d_transfers (store Host.run0) = Some (t0 ++ pairs))
       /\ forall (i : nat) (fname : string),
            files !! i = Some fname ->
            let ext := snd (os_path_splitext Posix.lib fname) in
            exists formatted,
              str_format Posix.lib (project_template_publish project)
                {| t_root := Host.root;
                   t_project := PROJECT;
                   t_silo := SILO;
                   t_asset := ASSET;
                   t_subset := subset_name subset;
                   t_version := ver_name version;
                   t_representation :=
                     String.substring 1 (String.length ext - 1)%nat ext |}
              = inr formatted
              /\ pairs !! i
                 = Some (os_path_join Posix.lib stagingdir fname,
                         if String.eqb fname ".metadata.json"
                         then os_path_join Posix.lib
                                (os_path_dirname Posix.lib formatted) fname
                         else formatted).
Proof.
  apply (register_destinations Host.handle Posix.lib Host.environ
           Host.root "modelDefault" Host.context0 Host.data0 Host.world0
           Host.reps0).
  vm_compute. reflexivity.
Defined.

(** The staged model is registered and then integrated. *)
Lemma register_then_integrate_witness :
  exists before version vid stagingdir files pairs,
    trace Host.run0
    = before ++ [Called (InsertOne (VersionDocument version)) (inr vid);
                 Called (Listdir stagingdir) (inr files)]
    /\ length pairs = length files
    /\ length Host.reps0 = length files
    /\ (forall (i : nat) (fname : string),
          files !! i = Some fname ->
          exists dst rep,
            pairs !! i = Some (os_path_join Posix.lib stagingdir fname, dst)
            /\ Host.reps0 !! i = Some rep
            /\ rep_parent rep = vid
            /\ let ext := snd (os_path_splitext Posix.lib fname) in
               rep_name rep
               = String.substring 1 (String.length ext - 1)%nat ext)
    /\ d_representations (store Host.run0) = Some Host.reps0
    /\ ((files = []
         /\ d_transfers (store Host.run0) = d_transfers Host.data0)
        \/ exists t0, d_transfers Host.data0 = Some t0
                      /\ d_transfers (store Host.run0) = Some (t0 ++ pairs))
    /\ let r2 := integrate Host.handle Posix.lib (store Host.run0)
                   (world Host.run0) in
       (outcome r2 = inr tt ->
        exists traffic copies,
          d_transfers (store Host.run0) = Some traffic
          /\ trace r2
             = Called (InsertMany (map RepresentationDocument Host.reps0))
                 (inr tt) :: copies
          /\ Forall (fun pair => Called (Copy (fst pair) (snd pair)) (inr tt)
                                   ∈ copies) traffic).
Proof.
  apply (register_then_integrate Host.handle Posix.lib Host.environ
           Host.root "modelDefault" Host.context0 Host.data0 Host.world0
           Host.reps0).
  vm_compute. reflexivity.
Defined.

(** A rig published for the first time with assumed version 2: the
    subset is written, then the version check fails. *)
Lemma writes_are_not_undone_witness :
  let asset := {| asset_id := 2%N |} in
  let subset := {| subset_id := 6%N; subset_name := "rigDefault" |} in
  let r := register Host.handle Posix.lib Host.environ Host.root
             "rigDefault" Host.context0 Host.data_rig Host.world0 in
  outcome r = inl (AttributeError (mismatch_message 2 1))
  /\ trace r
     = [Called FindProject (inr (Host.w_project Host.world0));
        Called (FindAsset "hero" 1%N) (inr (Some asset));
        Called (FindSubset 2%N "rigDefault") (inr None);
        Called (InsertOne (new_subset "rigDefault" asset)) (inr 6%N);
        Called (FindById 6%N) (inr (Some subset));
        Called (FindLatestVersion 6%N) (inr None)]
  /\ Host.w_written (world r) = [new_subset "rigDefault" asset].
Proof.
  intros asset subset r.
  pose (w4 := snd (Host.insert_one (new_subset "rigDefault" asset)
                     Host.world0)).
  assert (H1 : Host.environ !! "AVALON_PROJECT" = Some "film")
    by (vm_compute; reflexivity).
  assert (H2 : (if truthy (d_asset Host.data_rig) then d_asset Host.data_rig
                else Host.environ !! "AVALON_ASSET") = Some "hero")
    by (vm_compute; reflexivity).
  assert (H3 : Host.environ !! "AVALON_SILO" = Some "assets")
    by (vm_compute; reflexivity).
  assert (H4 : truthy (Some Host.staging) = true) by (vm_compute; reflexivity).
  assert (H5 : Host.handle _ FindProject Host.world0
               = (inr (Host.w_project Host.world0), Host.world0))
    by (vm_compute; reflexivity).
  assert (H6 : Host.handle _ (FindAsset "hero" 1%N) Host.world0
               = (inr (Some asset), Host.world0))
    by (vm_compute; reflexivity).
  assert (H7 : Host.handle _ (FindSubset (asset_id asset) "rigDefault")
                 Host.world0 = (inr None, Host.world0))
    by (vm_compute; reflexivity).
  assert (H8 : Host.handle _ (InsertOne (new_subset "rigDefault" asset))
                 Host.world0 = (inr 6%N, w4))
    by (vm_compute; reflexivity).
  assert (H9 : Host.handle _ (FindById 6%N) w4 = (inr (Some subset), w4))
    by (vm_compute; reflexivity).
  assert (H10 : Host.handle _ (FindLatestVersion (subset_id subset)) w4
                = (inr None, w4))
    by (vm_compute; reflexivity).
  destruct (proj2 (writes_are_not_undone Host.handle Posix.lib Host.environ
                     Host.root "rigDefault")
              Host.context0 Host.data_rig
              Host.world0 Host.world0 Host.world0 Host.world0 w4 w4 w4
              "film" "hero" "assets" [{| success := true |}] Host.staging
              {| project_id := 1%N;
                 project_template_publish := Host.template |}
              asset "rigDefault" 6%N subset None
              {| assumed_version := 2 |}
              H1 H2 H3 eq_refl eq_refl eq_refl H4 H5 H6 eq_refl H7 H8 H9 H10
              eq_refl ltac:(discriminate))
    as (Hout & Htrace & Hworld).
  split; [exact Hout|]. split; [exact Htrace|].
  fold r in Hworld. rewrite Hworld. vm_compute. reflexivity.
Defined.


(** The version document of the staged model. *)
Lemma register_version_document_witness :
  exists before version vid after,
    trace Host.run0
    = before ++ Called (InsertOne (VersionDocument version)) (inr vid)
        :: after
    /\ ver_schema version = "avalon-core:version-2.0"
    /\ ver_type version = "version"
    /\ ver_locations version
       = match Host.environ !! "AVALON_LOCATION" with
         | Some location => [location]
         | None => []
         end
    /\ outcome (create_version_data Posix.lib Host.root Host.context0
                  Host.data0 Host.world0)
       = inr (ver_data version)
    /\ vd_instance_data (ver_data version) = Host.data0.
Proof.
  apply (register_version_document Host.handle Posix.lib Host.environ
           Host.root "modelDefault" Host.context0 Host.data0 Host.world0
           Host.reps0).
  vm_compute. reflexivity.
Defined.

(** The staged model without the [transfers] key. *)
Lemma process_needs_transfers_witness :
  let r := process Host.handle Posix.lib Host.environ Host.root
             "modelDefault" Host.context0 Host.data_bare Host.world0 in
  raises (outcome r)
  /\ Forall (fun e => is_rmtree e = false) (trace r)
  /\ (forall reps,
        outcome (register Host.handle Posix.lib Host.environ Host.root
                   "modelDefault" Host.context0 Host.data_bare Host.world0)
        = inr reps ->
        trace r
        = trace (register Host.handle Posix.lib Host.environ Host.root
                   "modelDefault" Host.context0 Host.data_bare Host.world0)
        /\ outcome r = inl (KeyError "transfers")).
Proof.
  apply (process_needs_transfers Host.handle Posix.lib Host.environ
           Host.root "modelDefault" Host.context0 Host.data_bare
           Host.world0).
  reflexivity.
Defined.

(** The staged model when the staging directory is gone: version 3 is
    written and stays without representation. *)
Lemma register_listing_fails_witness :
  let subset := {| subset_id := 3%N; subset_name := "modelDefault" |} in
  let version :=
    create_version subset 3 [Host.environ !! "AVALON_LOCATION"]
      Host.version_data0 in
  let r := register Host.handle Posix.lib Host.environ Host.root
             "modelDefault" Host.context0 Host.data0 Host.world_unstaged in
  outcome r = inl (OSError Host.ENOENT)
  /\ inserts (trace r)
     = [Called (InsertOne (VersionDocument version)) (inr 6%N)]
  /\ last (trace r)
     = Some (Called (Listdir Host.staging) (inl (OSError Host.ENOENT)))
  /\ store r = Host.data0
  /\ Host.w_written (world r) = [VersionDocument version].
Proof.
  intros subset version r.
  pose (w0 := Host.world_unstaged).
  pose (w5 := snd (Host.insert_one (VersionDocument version) w0)).
  assert (H1 : Host.environ !! "AVALON_PROJECT" = Some "film")
    by (vm_compute; reflexivity).
  assert (H2 : (if truthy (d_asset Host.data0) then d_asset Host.data0
                else Host.environ !! "AVALON_ASSET") = Some "hero")
    by (vm_compute; reflexivity).
  assert (H3 : Host.environ !! "AVALON_SILO" = Some "assets")
    by (vm_compute; reflexivity).
  assert (H4 : truthy (Some Host.staging) = true) by (vm_compute; reflexivity).
  assert (H5 : Host.handle _ FindProject w0
               = (inr (Host.w_project Host.world0), w0))
    by (vm_compute; reflexivity).
  assert (H6 : Host.handle _ (FindAsset "hero" 1%N) w0
               = (inr (Some {| asset_id := 2%N |}), w0))
    by (vm_compute; reflexivity).
  assert (H7 : Host.handle _ (FindSubset 2%N "modelDefault") w0
               = (inr (Some subset), w0))
    by (vm_compute; reflexivity).
  assert (H8 : Host.handle _ (FindLatestVersion (subset_id subset)) w0
               = (inr (Some {| version_id := 5%N; version_name := 2 |}), w0))
    by (vm_compute; reflexivity).
  assert (H9 : outcome (create_version_data Posix.lib Host.root Host.context0
                          Host.data0 w0) = inr Host.version_data0)
    by (vm_compute; reflexivity).
  assert (H10 : Host.handle _ (InsertOne (VersionDocument version)) w0
                = (inr 6%N, w5))
    by (vm_compute; reflexivity).
  assert (H11 : Host.handle _ (Listdir Host.staging) w5
                = (inl (OSError Host.ENOENT), w5))
    by (vm_compute; reflexivity).
  destruct (register_listing_fails Host.handle Posix.lib Host.environ
              Host.root "modelDefault" Host.context0 Host.data0
              w0 w0 w0 w0 w0 w5 w5
              "film" "hero" "assets" [{| success := true |}] Host.staging
              {| project_id := 1%N;
                 project_template_publish := Host.template |}
              {| asset_id := 2%N |} "modelDefault" subset
              (Some {| version_id := 5%N; version_name := 2 |})
              Host.version_data0 6%N (OSError Host.ENOENT)
              H1 H2 H3 eq_refl eq_refl eq_refl H4 H5 H6 eq_refl H7 H8
              eq_refl H9 H10 H11)
    as (Hout & Hins & Hlast & Hstore & Hworld).
  split; [exact Hout|]. split; [exact Hins|]. split; [exact Hlast|].
  split; [exact Hstore|].
  replace (world r) with w5 by (symmetry; exact Hworld).
  vm_compute. reflexivity.
Defined.

(** The staged model when the staging directory is empty. *)
Lemma register_empty_staging_witness :
  let r := register Host.handle Posix.lib Host.environ Host.root
             "modelDefault" Host.context0 Host.data0 Host.world_empty in
  d_transfers (store r) = d_transfers Host.data0
  /\ d_representations (store r) = Some []
  /\ (exists version vid,
        Called (InsertOne (VersionDocument version)) (inr vid) ∈ trace r)
  /\ (forall traffic, d_transfers Host.data0 = Some traffic ->
      exists reply after,
        trace (integrate Host.handle Posix.lib (store r) (world r))
        = Called (InsertMany []) reply :: after).
Proof.
  intros r.
  assert (H1 : outcome r = inr []) by (vm_compute; reflexivity).
  assert (H2 : exists en, last (trace r) = Some en /\ listed en = Some []).
  { exists (Called (Listdir Host.staging) (inr [])).
    split; vm_compute; reflexivity. }
  exact (proj2 (register_empty_staging Host.handle Posix.lib Host.environ
                  Host.root "modelDefault" Host.context0 Host.data0
                  Host.world_empty [] H1 H2)).
Defined.

(** Two staged files of one extension: one destination, one document. *)
Lemma register_same_extension_witness :
  exists stagingdir files pairs,
    last (trace (register Host.handle Posix.lib Host.environ Host.root
                   "modelDefault" Host.context0 Host.data0
                   Host.world_twins))
    = Some (Called (Listdir stagingdir) (inr files))
    /\ (files = []
        \/ exists t0,
             d_transfers Host.data0 = Some t0
             /\ d_transfers
                  (store (register Host.handle Posix.lib Host.environ
                            Host.root "modelDefault" Host.context0
                            Host.data0 Host.world_twins))
                = Some (t0 ++ pairs))
    /\ forall (i j : nat) (f g : string),
         files !! i = Some f -> files !! j = Some g ->
         snd (os_path_splitext Posix.lib f)
         = snd (os_path_splitext Posix.lib g) ->
         f <> ".metadata.json" -> g <> ".metadata.json" ->
         exists dst rep,
           pairs !! i = Some (os_path_join Posix.lib stagingdir f, dst)
           /\ pairs !! j = Some (os_path_join Posix.lib stagingdir g, dst)
           /\ Host.reps_twins !! i = Some rep
           /\ Host.reps_twins !! j = Some rep.
Proof.
  apply (register_same_extension Host.handle Posix.lib Host.environ
           Host.root "modelDefault" Host.context0 Host.data0
           Host.world_twins Host.reps_twins).
  vm_compute. reflexivity.
Defined.

(** Publishing the staged model copies files, after the database was
    written. *)
Lemma process_database_first_witness :
  let r1 := register Host.handle Posix.lib Host.environ Host.root
              "modelDefault" Host.context0 Host.data0 Host.world0 in
  let r := process Host.handle Posix.lib Host.environ Host.root
             "modelDefault" Host.context0 Host.data0 Host.world0 in
  exists reps rest,
    outcome r1 = inr reps
    /\ Forall (fun e => is_transfer e = false) (trace r1)
    /\ trace r
       = trace r1
           ++ Called (InsertMany (map RepresentationDocument reps)) (inr tt)
           :: rest
    /\ Forall (fun e => is_insert e = false) rest.
Proof.
  apply (process_database_first Host.handle Posix.lib Host.environ
           Host.root "modelDefault" Host.context0 Host.data0 Host.world0).
  vm_compute. reflexivity.
Defined.

(** C2 as stated fails when [makedirs] raises an exception that is no
    OSError: the clause does not catch it and [copy_file] raises, although
    no OSError was raised and nothing was copied. *)
Lemma copy_file_passes_on_other_exceptions :
  ~ raises_as_stated Host.handle_ascii Posix.lib
      (Host.staging +:+ "/modelDefault.ma")
      "/projects/film/assets/héro/publish/modelDefault/v003/modelDefault.ma"
      Host.data0 Host.world0.
Proof.
  unfold raises_as_stated. intros [Hraise _].
  destruct Hraise as [(en & n & Hin & _ & Hr & _)|(en & x & Hin & Hc & _)].
  - eexists. vm_compute. reflexivity.
  - vm_compute in Hin. apply elem_of_cons in Hin as [->|Hin]; [|inversion Hin].
    vm_compute in Hr. discriminate.
  - vm_compute in Hin. apply elem_of_cons in Hin as [->|Hin]; [|inversion Hin].
    vm_compute in Hc. discriminate.
Qed.

End IntegrateAssetFacts.

(** ** The plug-ins at work on the POSIX host *)

Module Examples.

Example splitext_names :
  map Posix.splitext [".metadata.json"; "modelDefault.ma"; ".bashrc"; "README"]
  = [(".metadata", ".json"); ("modelDefault", ".ma"); (".bashrc", "");
     ("README", "")].
Proof. vm_compute. reflexivity. Qed.

Example format_03d_values :
  map IntegrateAsset.format_03d [0; 7; 42; 123; 1234; -5]
  = ["000"; "007"; "042"; "123"; "1234"; "-05"].
Proof. vm_compute. reflexivity. Qed.

Example format_publish_template :
  Posix.format Host.template
    {| t_root := "/projects"; t_project := "film"; t_silo := "assets";
       t_asset := "hero"; t_subset := "modelDefault"; t_version := 3;
       t_representation := "ma" |}
  = inr "/projects/film/assets/hero/publish/modelDefault/v003/modelDefault.ma".
Proof. vm_compute. reflexivity. Qed.

(** Two shapes with one identifier are both reported; the transform
    without identifier is not. *)
Example get_invalid_shared_id :
  let get_id := fun m : string =>
    if String.prefix "|body" m then Some "59a6:01" else None in
  ValidateNodeIdsUnique.get_invalid get_id ["|body|shapeA"; "|grp"; "|body|shapeB"]
  = ["|body|shapeA"; "|body|shapeB"].
Proof. vm_compute. reflexivity. Qed.

(** Publishing the staged model: both files are copied, the second
    [makedirs] meets the directory made by the first, and the staging
    directory is removed. *)
Example process_staged_model :
  let r := IntegrateAsset.process Host.handle Posix.lib Host.environ
             Host.root "modelDefault" Host.context0 Host.data0 Host.world0 in
  outcome r = inr tt
  /\ Host.w_copied (world r)
     = [("/tmp/pyblish_x1/modelDefault.ma",
         "/projects/film/assets/hero/publish/modelDefault/v003/modelDefault.ma");
        ("/tmp/pyblish_x1/.metadata.json",
         "/projects/film/assets/hero/publish/modelDefault/v003/.metadata.json")]
  /\ Host.w_dirs (world r) !! Host.staging = None
  /\ filter (fun e => is_makedirs e = true /\ raised_by e <> None) (trace r)
     = [Called (Makedirs "/projects/film/assets/hero/publish/modelDefault/v003")
          (inl (OSError EEXIST))].
Proof. vm_compute. repeat split. Qed.

End Examples.
